(** * triton-dejavu: the persistent autotuner cache (dejavu_storage.py)

    A shallow embedding of [triton_dejavu/dejavu_storage.py] and the
    properties of its storage layer.

    Conventions of the embedding.
    - Python [str] values are Rocq [string]s (the ASCII subset).
    - Python [int] is [Z]; Python [float] is the kernel's binary64
      [PrimFloat.float].
    - A Python [dict] is an association list in insertion order
      (module [PyDict]): [json.dump], [dict.items] and the loops of the
      source all observe that order.
    - Exceptions are values of [exn]; a fallible computation returns
      [result].
    - The methods of [DejavuStorage] are functions on a [World]: the
      object's attributes together with the cache files on disk. *)

From Stdlib Require Import String Ascii List ZArith Lia Bool.
From Stdlib Require Import Decimal DecimalString DecimalZ DecimalPos.
From Stdlib Require Import PrimFloat.
Import ListNotations.

Local Open Scope list_scope.
Local Open Scope string_scope.

(* ================================================================= *)
(** ** Exceptions *)

Inductive exn : Type :=
| KeyError
| IndexError
| ValueError
| Exception (msg : string).

Inductive result (A : Type) : Type :=
| Ok (a : A)
| Err (e : exn).

Arguments Ok {A} a.
Arguments Err {A} e.

Definition is_ok {A} (r : result A) : bool :=
  match r with Ok _ => true | Err _ => false end.

Definition bind {A B} (r : result A) (k : A -> result B) : result B :=
  match r with
  | Ok a => k a
  | Err e => Err e
  end.

Notation "x <- r ;; k" := (bind r (fun x => k))
  (at level 61, r at next level, right associativity).

(* ================================================================= *)
(** ** Python string built-ins used by the source *)

Module PyStr.

(** [sep in s] *)
Fixpoint contains (sep s : string) : bool :=
  String.prefix sep s
  || match s with
     | EmptyString => false
     | String _ r => contains sep r
     end.

(** [s.split(sep)] for a non-empty [sep]: a left-to-right scan; where
    [sep] matches, the current piece ends and the scan resumes behind the
    match ([skip] counts the characters of the match still to pass). *)
Fixpoint split_from (sep : string) (skip : nat) (s : string) : list string :=
  match s with
  | EmptyString => [EmptyString]
  | String c r =>
      match skip with
      | S k => split_from sep k r
      | O =>
          if String.prefix sep s
          then EmptyString :: split_from sep (String.length sep - 1) r
          else match split_from sep 0 r with
               | h :: t => String c h :: t
               | [] => [String c EmptyString]
               end
      end
  end.

Definition split (sep s : string) : list string := split_from sep 0 s.

(** [sep.join(l)] *)
Definition join (sep : string) (l : list string) : string :=
  String.concat sep l.

(** [s[1:]] *)
Definition tail (s : string) : string :=
  match s with
  | EmptyString => EmptyString
  | String _ r => r
  end.

(** [s[:-1]] *)
Fixpoint drop_last (s : string) : string :=
  match s with
  | EmptyString => EmptyString
  | String c r =>
      match r with
      | EmptyString => EmptyString
      | String _ _ => String c (drop_last r)
      end
  end.

(** [s[1:-1]] *)
Definition strip_ends (s : string) : string := drop_last (tail s).

(** [s[0]] *)
Definition head (s : string) : result ascii :=
  match s with
  | EmptyString => Err IndexError
  | String c _ => Ok c
  end.

(** [s in l] for a list of strings *)
Definition in_list (s : string) (l : list string) : bool :=
  existsb (String.eqb s) l.

Definition is_upper (c : ascii) : bool :=
  let n := nat_of_ascii c in (65 <=? n)%nat && (n <=? 90)%nat.

Definition lower_char (c : ascii) : ascii :=
  if is_upper c then ascii_of_nat (nat_of_ascii c + 32) else c.

(** [s.lower()] *)
Fixpoint lower (s : string) : string :=
  match s with
  | EmptyString => EmptyString
  | String c r => String (lower_char c) (lower r)
  end.

(** The ASCII characters [str.isspace] accepts. *)
Definition is_space (c : ascii) : bool :=
  let n := nat_of_ascii c in
  ((9 <=? n)%nat && (n <=? 13)%nat)
  || ((28 <=? n)%nat && (n <=? 32)%nat).

Fixpoint lstrip (s : string) : string :=
  match s with
  | EmptyString => EmptyString
  | String c r => if is_space c then lstrip r else s
  end.

Fixpoint rstrip (s : string) : string :=
  match s with
  | EmptyString => EmptyString
  | String c r =>
      match rstrip r with
      | EmptyString => if is_space c then EmptyString else String c EmptyString
      | r' => String c r'
      end
  end.

(** [s.strip()] *)
Definition strip (s : string) : string := rstrip (lstrip s).

Fixpoint all_chars (p : ascii -> bool) (s : string) : bool :=
  match s with
  | EmptyString => true
  | String c r => p c && all_chars p r
  end.

End PyStr.

(* ================================================================= *)
(** ** [str(int)], [int(str)] and [distutils.util.strtobool] *)

Module PyNum.

(** [str(z)] for an [int]: decimal digits, a leading [-] when negative. *)
Definition str_int (z : Z) : string := NilZero.string_of_int (Z.to_int z).

Definition is_digit (c : ascii) : bool :=
  let n := nat_of_ascii c in (48 <=? n)%nat && (n <=? 57)%nat.

Definition is_underscore (c : ascii) : bool := Ascii.eqb c "_".

(** The digit part of an integer literal: digits, with single underscores
    allowed between two digits. [prev] tells whether the previous
    character was a digit. *)
Fixpoint digits_ok (prev : bool) (s : string) : bool :=
  match s with
  | EmptyString => prev
  | String c r =>
      if is_digit c then digits_ok true r
      else if is_underscore c then prev && digits_ok false r
      else false
  end.

Fixpoint drop_underscores (s : string) : string :=
  match s with
  | EmptyString => EmptyString
  | String c r =>
      if is_underscore c then drop_underscores r
      else String c (drop_underscores r)
  end.

Definition parse_digits (s : string) : result Z :=
  if digits_ok false s then
    match NilEmpty.uint_of_string (drop_underscores s) with
    | Some d => Ok (Z.of_uint d)
    | None => Err ValueError
    end
  else Err ValueError.

(** [int(s)], base 10: surrounding whitespace is ignored, one optional
    sign, then the digits; anything else raises [ValueError]. *)
Definition int (s : string) : result Z :=
  match PyStr.strip s with
  | EmptyString => Err ValueError
  | String c r =>
      if Ascii.eqb c "-" then z <- parse_digits r ;; Ok (- z)%Z
      else if Ascii.eqb c "+" then parse_digits r
      else parse_digits (String c r)
  end.

(** [strtobool(val)] of distutils: 1 for the true words, 0 for the false
    ones, [ValueError] otherwise. *)
Definition strtobool (val : string) : result Z :=
  let v := PyStr.lower val in
  if PyStr.in_list v ["y"; "yes"; "t"; "true"; "on"; "1"] then Ok 1%Z
  else if PyStr.in_list v ["n"; "no"; "f"; "false"; "off"; "0"] then Ok 0%Z
  else Err ValueError.

(** [bool(z)] for an [int] *)
Definition bool_of_int (z : Z) : bool := negb (Z.eqb z 0).

(** [str(b)] for a [bool] *)
Definition str_bool (b : bool) : string := if b then "True" else "False".

End PyNum.

(* ================================================================= *)
(** ** Python values and dictionaries *)

(** The values that occur as elements of a runtime key and as keyword
    arguments of a configuration. *)
Inductive pyval : Type :=
| VNone
| VBool (b : bool)
| VInt (z : Z)
| VStr (s : string).

(** [a == b] *)
Definition pyval_eqb (a b : pyval) : bool :=
  match a, b with
  | VNone, VNone => true
  | VBool x, VBool y => Bool.eqb x y
  | VInt x, VInt y => Z.eqb x y
  | VBool x, VInt y | VInt y, VBool x => Z.eqb (if x then 1 else 0) y
  | VStr x, VStr y => String.eqb x y
  | _, _ => false
  end.

(** [str(v)], the text an f-string inserts for [v] *)
Definition str_pyval (v : pyval) : string :=
  match v with
  | VNone => "None"
  | VBool b => PyNum.str_bool b
  | VInt z => PyNum.str_int z
  | VStr s => s
  end.

Module PyDict.

Section Dict.
Context {K V : Type} (eqb : K -> K -> bool).

(** [d.get(k)], [None] when [k] is not a key *)
Fixpoint get (k : K) (d : list (K * V)) : option V :=
  match d with
  | [] => None
  | (k', v) :: r => if eqb k k' then Some v else get k r
  end.

(** [k in d] *)
Definition mem (k : K) (d : list (K * V)) : bool :=
  match get k d with Some _ => true | None => false end.

(** [d[k] = v]: an existing key keeps its position, a new one goes last *)
Fixpoint set (k : K) (v : V) (d : list (K * V)) : list (K * V) :=
  match d with
  | [] => [(k, v)]
  | (k', v') :: r =>
      if eqb k k' then (k', v) :: r else (k', v') :: set k v r
  end.

(** [d[k]] *)
Definition lookup (k : K) (d : list (K * V)) : result V :=
  match get k d with Some v => Ok v | None => Err KeyError end.

Definition keys (d : list (K * V)) : list K := map fst d.

(** no key occurs twice *)
Fixpoint wf (d : list (K * V)) : bool :=
  match d with
  | [] => true
  | (k, _) :: r => negb (mem k r) && wf r
  end.
End Dict.

End PyDict.

Definition dict (V : Type) : Type := list (string * V).
Definition sget {V} := @PyDict.get string V String.eqb.
Definition smem {V} := @PyDict.mem string V String.eqb.
Definition sset {V} := @PyDict.set string V String.eqb.

(** [x == y] on two tuples *)
Fixpoint tuple_eqb (x y : list pyval) : bool :=
  match x, y with
  | [], [] => true
  | a :: x', b :: y' => pyval_eqb a b && tuple_eqb x' y'
  | _, _ => false
  end.

(** [a == b] on two dictionaries of values: the same keys with equal
    values, in any order *)
Definition dict_eqb (a b : dict pyval) : bool :=
  Nat.eqb (List.length a) (List.length b)
  && forallb (fun kv =>
       match sget (fst kv) b with
       | Some v => pyval_eqb (snd kv) v
       | None => false
       end) a.

(* ================================================================= *)
(** ** Runtime keys: [str(key)] of a tuple *)

Module PyRepr.

(** the double-quote character *)
Definition dquote : ascii := "034"%char.

Definition hex_digit (n : nat) : ascii :=
  if (n <? 10)%nat then ascii_of_nat (48 + n) else ascii_of_nat (87 + n).

(** The escape [repr] writes for one character of a [str], given the
    quote character in use. *)
Definition repr_char (quote c : ascii) : string :=
  let n := nat_of_ascii c in
  if Ascii.eqb c quote || Ascii.eqb c "\" then String "\" (String c "")
  else if (n =? 9)%nat then "\t"
  else if (n =? 10)%nat then "\n"
  else if (n =? 13)%nat then "\r"
  else if (n <? 32)%nat || (n =? 127)%nat
       then String "\" (String "x"
              (String (hex_digit (n / 16)) (String (hex_digit (n mod 16)) "")))
  else String c "".

Fixpoint repr_body (quote : ascii) (s : string) : string :=
  match s with
  | EmptyString => EmptyString
  | String c r => repr_char quote c ++ repr_body quote r
  end.

(** [repr(s)] for a [str]: single quotes, unless the text has a single
    quote and no double quote. *)
Definition repr_str (s : string) : string :=
  let quote : ascii :=
    if PyStr.contains "'" s && negb (PyStr.contains (String dquote "") s)
    then dquote else "'"%char in
  String quote (repr_body quote s ++ String quote "").

(** [repr(v)] *)
Definition repr (v : pyval) : string :=
  match v with
  | VStr s => repr_str s
  | _ => str_pyval v
  end.

(** [str(key)] for a tuple *)
Definition str_tuple (key : list pyval) : string :=
  match key with
  | [x] => "(" ++ repr x ++ ",)"
  | _ => "(" ++ PyStr.join ", " (map repr key) ++ ")"
  end.

End PyRepr.

(* ================================================================= *)
(** ** Autotuning configurations ([triton.Config]) *)

(** Modelled from the spec: [triton.Config] belongs to the Triton
    library. Section 3 of the specification describes it as a fixed set
    of typed control fields (integer fields, a boolean field, a
    nullable-integer field, one opaque pre-hook field) plus an open
    mapping of keyword arguments; the field names are those of
    [__config_args__] below. *)
Record Config : Type := mkConfig {
  kwargs : dict pyval;
  num_warps : Z;
  num_stages : Z;
  num_ctas : Z;
  enable_warp_specialization : bool;
  maxnreg : option Z;
  pre_hook : string
}.

Definition option_Z_eqb (a b : option Z) : bool :=
  match a, b with
  | Some x, Some y => Z.eqb x y
  | None, None => true
  | _, _ => false
  end.

(** Modelled from the spec: [a == b] on configurations is value equality
    (section 3, Used-Configuration Set). *)
Definition Config_eqb (a b : Config) : bool :=
  dict_eqb (kwargs a) (kwargs b)
  && Z.eqb (num_warps a) (num_warps b)
  && Z.eqb (num_stages a) (num_stages b)
  && Z.eqb (num_ctas a) (num_ctas b)
  && Bool.eqb (enable_warp_specialization a) (enable_warp_specialization b)
  && option_Z_eqb (maxnreg a) (maxnreg b)
  && String.eqb (pre_hook a) (pre_hook b).

Definition field_item (name value : string) : string :=
  name ++ ": " ++ value.

Definition str_option_int (o : option Z) : string :=
  match o with
  | Some z => PyNum.str_int z
  | None => "None"
  end.

(** Modelled from the spec: [str(config)], the encoder of section 4.3:
    a comma-separated [field: value] text covering all declared typed
    fields in a fixed order plus all keyword-argument fields. *)
Definition str_Config (c : Config) : string :=
  PyStr.join ", "
    (([ field_item "pre_hook" (pre_hook c);
       field_item "num_warps" (PyNum.str_int (num_warps c));
       field_item "num_stages" (PyNum.str_int (num_stages c));
       field_item "num_ctas" (PyNum.str_int (num_ctas c));
       field_item "enable_warp_specialization"
         (PyNum.str_bool (enable_warp_specialization c));
       field_item "maxnreg" (str_option_int (maxnreg c)) ]
     ++ map (fun kv => field_item (fst kv) (str_pyval (snd kv))) (kwargs c))%list).

(** The dictionary [ret] that [_create_config_args] builds: its entry
    ["kwargs"], itself a dictionary, and its other entries. *)
Record ConfigArgs : Type := mkConfigArgs {
  ret_kwargs : dict pyval;
  ret_fields : dict pyval
}.

Definition arg_int (name : string) (default : Z) (va : ConfigArgs) : Z :=
  match sget name (ret_fields va) with
  | Some (VInt z) => z
  | _ => default
  end.

(** Modelled from the spec: the constructor call of [triton.Config] on
    the unpacked dictionary [va];
    a field that [va] does not give takes Triton's default. *)
Definition Config_of (va : ConfigArgs) : Config :=
  {| kwargs := ret_kwargs va;
     num_warps := arg_int "num_warps" 4 va;
     num_stages := arg_int "num_stages" 2 va;
     num_ctas := arg_int "num_ctas" 1 va;
     enable_warp_specialization :=
       match sget "enable_warp_specialization" (ret_fields va) with
       | Some (VBool b) => b
       | _ => false
       end;
     maxnreg :=
       match sget "maxnreg" (ret_fields va) with
       | Some (VInt z) => Some z
       | _ => None
       end;
     pre_hook :=
       match sget "pre_hook" (ret_fields va) with
       | Some (VStr s) => s
       | _ => "None"
       end |}.

(* ================================================================= *)
(** ** Module-level constants and the two decoders *)

Definition __storage_env_var__ : string := "TRITON_DEJAVU_STORAGE".
Definition __tag_env_var__ : string := "TRITON_DEJAVU_TAG".
Definition __tag_default__ : string := "default".

Definition __int_config_args__ : list string :=
  ["num_warps"; "num_stages"; "num_ctas"].
Definition __int_or_none_config_args__ : list string := ["maxnreg"].
Definition __bool_config_args__ : list string :=
  ["enable_warp_specialization"].
Definition __config_args__ : list string :=
  (["pre_hook"] ++ __int_config_args__ ++ __bool_config_args__
   ++ __int_or_none_config_args__)%list.
Definition __skip_config_args__ : list string := ["enable_persistent"].

(** [l[i]] *)
Definition getitem {A} (l : list A) (i : nat) : result A :=
  match nth_error l i with
  | Some a => Ok a
  | None => Err IndexError
  end.

Definition is_quote (c : ascii) : bool :=
  Ascii.eqb c "'" || Ascii.eqb c PyRepr.dquote.

(** the [for e in entries] loop of [_create_tuple] *)
Fixpoint _create_tuple_loop (entries : list string) (ret : list pyval)
  : result (list pyval) :=
  match entries with
  | [] => Ok ret
  | e :: rest =>
      e0 <- PyStr.head e ;;
      if is_quote e0
      then _create_tuple_loop rest (ret ++ [VStr (PyStr.strip_ends e)])%list
      else _create_tuple_loop rest (ret ++ [VStr e])%list
  end.

Definition _create_tuple (k : string) : result (list pyval) :=
  let s := PyStr.strip_ends k in
  let entries := PyStr.split ", " s in
  _create_tuple_loop entries [].

Definition set_field (name : string) (v : pyval) (ret : ConfigArgs)
  : ConfigArgs :=
  {| ret_kwargs := ret_kwargs ret;
     ret_fields := sset name v (ret_fields ret) |}.

Definition set_kwarg (name : string) (v : pyval) (ret : ConfigArgs)
  : ConfigArgs :=
  {| ret_kwargs := sset name v (ret_kwargs ret);
     ret_fields := ret_fields ret |}.

(** one iteration of the [for e in vlist] loop of [_create_config_args] *)
Definition _create_config_args_iter (ret : ConfigArgs) (e : string)
  : result ConfigArgs :=
  let sl := PyStr.split ": " e in
  sl0 <- getitem sl 0 ;;
  if PyStr.in_list sl0 __skip_config_args__ then Ok ret
  else if PyStr.in_list sl0 __config_args__ then
    if PyStr.in_list sl0 __int_config_args__ then
      sl1 <- getitem sl 1 ;;
      z <- PyNum.int sl1 ;;
      Ok (set_field sl0 (VInt z) ret)
    else if PyStr.in_list sl0 __bool_config_args__ then
      sl1 <- getitem sl 1 ;;
      z <- PyNum.strtobool sl1 ;;
      Ok (set_field sl0 (VBool (PyNum.bool_of_int z)) ret)
    else if PyStr.in_list sl0 __int_or_none_config_args__ then
      sl1 <- getitem sl 1 ;;
      match PyNum.int sl1 with
      | Ok z => Ok (set_field sl0 (VInt z) ret)
      | Err ValueError => Ok (set_field sl0 VNone ret)
      | Err x => Err x
      end
    else
      sl1 <- getitem sl 1 ;;
      Ok (set_field sl0 (VStr sl1) ret)
  else
    sl1 <- getitem sl 1 ;;
    match PyNum.int sl1 with
    | Ok z => Ok (set_kwarg sl0 (VInt z) ret)
    | Err ValueError =>
        match PyNum.strtobool sl1 with
        | Ok z => Ok (set_kwarg sl0 (VBool (PyNum.bool_of_int z)) ret)
        | Err ValueError => Ok (set_kwarg sl0 (VStr sl1) ret)
        | Err x => Err x
        end
    | Err x => Err x
    end.

Fixpoint _create_config_args_loop (vlist : list string) (ret : ConfigArgs)
  : result ConfigArgs :=
  match vlist with
  | [] => Ok ret
  | e :: rest =>
      ret' <- _create_config_args_iter ret e ;;
      _create_config_args_loop rest ret'
  end.

Definition _create_config_args (v : string) : result ConfigArgs :=
  let vlist := PyStr.split ", " v in
  _create_config_args_loop vlist {| ret_kwargs := []; ret_fields := [] |}.

(* ================================================================= *)
(** ** What the module takes from its environment *)

(** The collaborators of the module that are not part of it: the SHA-256
    digest of [hashlib], the process environment [os.environ],
    [get_storage_identifier] of [dejavu_utilities] and [os.path.abspath]. *)
Class Externals : Type := {
  sha256_hexdigest : string -> string;
  environ : dict string;
  get_storage_identifier : string;
  abspath : string -> string
}.

(** A JIT function as the module sees it: [str(fn)] and the identity hash
    [fn.hash] that the compiler publishes. *)
Record JITFunction : Type := mkJIT {
  JIT_str : string;
  JIT_hash : string
}.

(** One measurement passed in [timings]: a single value or a list. *)
Inductive timing : Type :=
| TFloat (f : float)
| TList (l : list float).

(** A number that is stored as given (an [int] or a [float]). *)
Inductive number : Type :=
| NInt (z : Z)
| NFloat (f : float).

(** The dictionary [nt] of [add_autotuner_cache]. *)
Record TimingSample : Type := mkTimingSample {
  values : list float;
  labels : list string;
  rep_t_ms : number;
  warmup_t_ms : number
}.

(** The dictionary built by [_get_cache_template], the content of one
    [cache.json]. *)
Record StorageRecord : Type := mkStorageRecord {
  signature : string;
  total_bench_time_s : float;
  evaluated_configs : Z;
  cache : dict string;
  timings : dict TimingSample
}.

(** The attributes of a [DejavuStorage] object. *)
Record DejavuStorage : Type := mkDejavuStorage {
  storage_prefix : string;
  storage_identifier : string;
  storage_path : string;
  fn_storage : dict StorageRecord;
  measured_timings : dict TimingSample;
  _known_files : list string;
  used_configs : dict (list Config)
}.

(** The object together with the files under its storage path. A record
    directory holds one file, [cache.json]; [disk] maps the directory
    (the folder name below [storage_path]) to the content of that file.
    [json.dump] followed by [json.load] gives back the record it was
    given, so a file is represented by the record it holds. Directories
    and their permissions are not represented. *)
Record World : Type := mkWorld {
  self : DejavuStorage;
  disk : dict StorageRecord
}.

(** The local variables of the loop of [add_autotuner_cache]. *)
Record add_locals : Type := mk_add_locals {
  cache_json : StorageRecord;
  tmp_used_configs : list Config;
  changes_made : bool
}.

Section Storage.

Context {ext : Externals}.

Definition storage_tag : string :=
  match sget __tag_env_var__ environ with
  | Some t => t
  | None => __tag_default__
  end.

Definition _get_cache_template (fn : JITFunction) (configs_len : Z)
  : StorageRecord :=
  {| signature := JIT_str fn;
     total_bench_time_s := 0%float;
     evaluated_configs := configs_len;
     cache := [];
     timings := [] |}.

(** [_wait_fn_hash] blocks until the compiler has published [fn.hash] and
    returns it. *)
Definition _wait_fn_hash (fn : JITFunction) : string := JIT_hash fn.

Definition get_string_hash (s : string) : string := sha256_hexdigest s.

Definition get_list_hash (l : list string) : string :=
  sha256_hexdigest (PyStr.join "|" l).

Definition get_config_list_hash (configs : list Config) : string :=
  sha256_hexdigest
    (fold_left (fun s c => s ++ str_Config c ++ "|") configs "|").

Definition _get_folder_name
  (fn_name fn_hash configs_hash key_hash param_hash : string) : string :=
  let hash_of_hash := get_string_hash (fn_hash ++ "-" ++ key_hash) in
  let folder_tree_name :=
    fn_name ++ "/autotune_config-" ++ param_hash
    ++ "/kernel_configs-" ++ configs_hash
    ++ "/code_version-" ++ hash_of_hash ++ "/" ++ storage_tag in
  folder_tree_name.

(** [str(fn).split(":")[1][:-1]] *)
Definition fn_name_of (fn : JITFunction) : result string :=
  part <- getitem (PyStr.split ":" (JIT_str fn)) 1 ;;
  Ok (PyStr.drop_last part).

(** [DejavuStorage.__init__] *)
Definition __init__ : result DejavuStorage :=
  let storage_prefix :=
    match sget __storage_env_var__ environ with
    | Some v => v
    | None => "none"
    end in
  if String.eqb storage_prefix "none" then
    Err (Exception
           ("[triton-dejavu] The environment variable " ++ __storage_env_var__
            ++ " must be set for triton-dejavu!"))
  else
    let storage_identifier := get_storage_identifier in
    Ok {| storage_prefix := storage_prefix;
          storage_identifier := storage_identifier;
          storage_path :=
            abspath (storage_prefix ++ "/" ++ storage_identifier ++ "/");
          fn_storage := [];
          measured_timings := [];
          _known_files := [];
          used_configs := [] |}.

(** one iteration of the loop of [__store__] *)
Definition __store___iter (w : World) (folder_name : string) : World :=
  let dir_name := storage_path (self w) ++ "/" ++ folder_name ++ "/" in
  let file_name := dir_name ++ "/cache.json" in
  let known :=
    if PyStr.in_list file_name (_known_files (self w))
    then _known_files (self w)
    else (_known_files (self w) ++ [file_name])%list in
  match sget folder_name (fn_storage (self w)) with
  | Some record =>
      {| self :=
           {| storage_prefix := storage_prefix (self w);
              storage_identifier := storage_identifier (self w);
              storage_path := storage_path (self w);
              fn_storage := fn_storage (self w);
              measured_timings := measured_timings (self w);
              _known_files := known;
              used_configs := used_configs (self w) |};
         disk := sset folder_name record (disk w) |}
  | None => w
  end.

(** [DejavuStorage.__store__]: every record of the index is written to
    its file. *)
Definition __store__ (w : World) : World :=
  fold_left __store___iter (PyDict.keys (fn_storage (self w))) w.

Definition with_index (w : World) (fs : dict StorageRecord)
  (uc : dict (list Config)) : World :=
  {| self :=
       {| storage_prefix := storage_prefix (self w);
          storage_identifier := storage_identifier (self w);
          storage_path := storage_path (self w);
          fn_storage := fs;
          measured_timings := measured_timings (self w);
          _known_files := _known_files (self w);
          used_configs := uc |};
     disk := disk w |}.

(** [float("inf") in vals] *)
Definition inf_in (vals : list float) : bool :=
  existsb (fun v => PrimFloat.eqb v infinity) vals.

(** [config not in tmp_used_configs] followed by the [append] *)
Definition append_new (config : Config) (l : list Config) : list Config :=
  if existsb (fun c => Config_eqb c config) l then l else (l ++ [config])%list.

(** one iteration of the [for key, config in cache.items()] loop *)
Definition add_iter (configs_len : Z) (timings_arg : list (list pyval * timing))
  (repetitiont warmupt : number)
  (l : add_locals) (key : list pyval) (config : Config)
  : result add_locals :=
  if smem (PyRepr.str_tuple key) (cache (cache_json l)) then Ok l
  else
    t <- PyDict.lookup tuple_eqb key timings_arg ;;
    let vals := match t with TList v => v | TFloat f => [f] end in
    let labels :=
      if Nat.eqb (List.length vals) 1 then ["ms"]
      else ["ms"; "min_ms"; "max_ms"] in
    let nt :=
      {| values := vals; labels := labels;
         rep_t_ms := repetitiont; warmup_t_ms := warmupt |} in
    if inf_in (values nt) then Ok l
    else
      Ok {| cache_json :=
              {| signature := signature (cache_json l);
                 total_bench_time_s := total_bench_time_s (cache_json l);
                 evaluated_configs := configs_len;
                 cache :=
                   sset (PyRepr.str_tuple key) (str_Config config)
                     (cache (cache_json l));
                 timings :=
                   sset (PyRepr.str_tuple key) nt (timings (cache_json l)) |};
            tmp_used_configs := append_new config (tmp_used_configs l);
            changes_made := true |}.

(** the loop of [add_autotuner_cache]; an exception leaves the locals as
    the iterations before it made them *)
Fixpoint add_loop (configs_len : Z) (timings_arg : list (list pyval * timing))
  (repetitiont warmupt : number)
  (items : list (list pyval * Config)) (l : add_locals)
  : add_locals * result unit :=
  match items with
  | [] => (l, Ok tt)
  | (key, config) :: rest =>
      match add_iter configs_len timings_arg repetitiont warmupt l key config with
      | Ok l' => add_loop configs_len timings_arg repetitiont warmupt rest l'
      | Err e => (l, Err e)
      end
  end.

(** the [if folder_name not in self.fn_storage] statement: the record and
    the list the loop works on, and whether they are the objects held by
    the index *)
Definition add_open (w : World) (fn : JITFunction) (configs_len : Z)
  (folder_name : string) : result (add_locals * bool) :=
  if negb (smem folder_name (fn_storage (self w))) then
    Ok ({| cache_json := _get_cache_template fn configs_len;
           tmp_used_configs := [];
           changes_made := false |}, false)
  else
    r <- PyDict.lookup String.eqb folder_name (fn_storage (self w)) ;;
    u <- PyDict.lookup String.eqb folder_name (used_configs (self w)) ;;
    Ok ({| cache_json := r; tmp_used_configs := u; changes_made := false |},
        true).

Definition bump (bench_time : float) (r : StorageRecord) : StorageRecord :=
  {| signature := signature r;
     total_bench_time_s := PrimFloat.add (total_bench_time_s r) bench_time;
     evaluated_configs := evaluated_configs r;
     cache := cache r;
     timings := timings r |}.

(** [DejavuStorage.add_autotuner_cache]. When the record was already in
    the index, the loop mutates the objects the index holds, so what it
    did is in the index even if the loop ends in an exception. *)
Definition add_autotuner_cache (w : World)
  (cache_arg : list (list pyval * Config)) (fn : JITFunction)
  (configs_hash key_hash param_hash : string) (configs_len : Z)
  (timings_arg : list (list pyval * timing))
  (repetitiont warmupt : number) (bench_time : float)
  : World * result unit :=
  let fn_hash := _wait_fn_hash fn in
  match fn_name_of fn with
  | Err e => (w, Err e)
  | Ok fn_name =>
      let folder_name :=
        _get_folder_name fn_name fn_hash configs_hash key_hash param_hash in
      match add_open w fn configs_len folder_name with
      | Err e => (w, Err e)
      | Ok (l0, shared) =>
          let '(l, r) :=
            add_loop configs_len timings_arg repetitiont warmupt cache_arg l0 in
          let w1 :=
            if shared
            then with_index w
                   (sset folder_name (cache_json l) (fn_storage (self w)))
                   (sset folder_name (tmp_used_configs l)
                      (used_configs (self w)))
            else w in
          match r with
          | Err e => (w1, Err e)
          | Ok _ =>
              if changes_made l then
                (__store__
                   (with_index w1
                      (sset folder_name (bump bench_time (cache_json l))
                         (fn_storage (self w1)))
                      (sset folder_name (tmp_used_configs l)
                         (used_configs (self w1)))),
                 Ok tt)
              else (w1, Ok tt)
          end
      end
  end.

(** the loop of [restore_autotuner_cache] *)
Fixpoint restore_loop (items : list (string * string))
  (ret : list (list pyval * Config)) (tmp : list Config)
  : result (list (list pyval * Config) * list Config) :=
  match items with
  | [] => Ok (ret, tmp)
  | (k, v) :: rest =>
      kt <- _create_tuple k ;;
      va <- _create_config_args v ;;
      let c := Config_of va in
      restore_loop rest (PyDict.set tuple_eqb kt c ret) (append_new c tmp)
  end.

(** [DejavuStorage.restore_autotuner_cache] *)
Definition restore_autotuner_cache (w : World) (fn : JITFunction)
  (configs_hash key_hash param_hash : string)
  : World * result (list (list pyval * Config)) :=
  let fn_hash := _wait_fn_hash fn in
  match fn_name_of fn with
  | Err e => (w, Err e)
  | Ok fn_name =>
      let folder_name :=
        _get_folder_name fn_name fn_hash configs_hash key_hash param_hash in
      let cache_file :=
        storage_path (self w) ++ "/" ++ folder_name ++ "/cache.json" in
      match sget folder_name (disk w) with
      | None =>
          let cache_json := _get_cache_template fn 0 in
          (__store__
             (with_index w
                (sset folder_name cache_json (fn_storage (self w)))
                (sset folder_name [] (used_configs (self w)))),
           Ok [])
      | Some cache_json =>
          let known :=
            if PyStr.in_list cache_file (_known_files (self w))
            then _known_files (self w)
            else (_known_files (self w) ++ [cache_file])%list in
          let w1 :=
            {| self :=
                 {| storage_prefix := storage_prefix (self w);
                    storage_identifier := storage_identifier (self w);
                    storage_path := storage_path (self w);
                    fn_storage :=
                      sset folder_name cache_json (fn_storage (self w));
                    measured_timings := measured_timings (self w);
                    _known_files := known;
                    used_configs := used_configs (self w) |};
               disk := disk w |} in
          match restore_loop (cache cache_json) [] [] with
          | Err e => (w1, Err e)
          | Ok (ret, tmp_used) =>
              (with_index w1 (fn_storage (self w1))
                 (sset folder_name tmp_used (used_configs (self w1))),
               Ok ret)
          end
      end
  end.

(** [DejavuStorage.get_used_configs] *)
Definition get_used_configs (w : World) (fn : JITFunction)
  (configs_hash key_hash param_hash : string) : result (list Config) :=
  let fn_hash := _wait_fn_hash fn in
  fn_name <- fn_name_of fn ;;
  let folder_name :=
    _get_folder_name fn_name fn_hash configs_hash key_hash param_hash in
  PyDict.lookup String.eqb folder_name (used_configs (self w)).

End Storage.

(* ================================================================= *)
(** ** Notions used in the statements *)

(** the characters of [str(z)] *)
Definition is_int_char (c : ascii) : bool :=
  PyNum.is_digit c || Ascii.eqb c "-".

(** neither delimiter of the codec occurs in [s] *)
Definition plain (s : string) : bool :=
  negb (PyStr.contains ", " s) && negb (PyStr.contains ": " s).

(** a keyword argument the decoder reads back as it was written *)
Definition kwarg_safe (kv : string * pyval) : bool :=
  plain (fst kv)
  && negb (PyStr.in_list (fst kv) __config_args__)
  && match snd kv with
     | VInt _ | VBool _ => true
     | VStr s =>
         plain s && negb (is_ok (PyNum.int s))
         && negb (is_ok (PyNum.strtobool s))
     | VNone => false
     end.

Definition codec_safe (c : Config) : bool :=
  plain (pre_hook c)
  && forallb kwarg_safe (kwargs c)
  && PyDict.wf String.eqb (kwargs c).

Definition not_skipped (kv : string * pyval) : bool :=
  negb (PyStr.in_list (fst kv) __skip_config_args__).

(** [c] without the keyword arguments of the skip set *)
Definition without_skipped (c : Config) : Config :=
  {| kwargs := filter not_skipped (kwargs c);
     num_warps := num_warps c;
     num_stages := num_stages c;
     num_ctas := num_ctas c;
     enable_warp_specialization := enable_warp_specialization c;
     maxnreg := maxnreg c;
     pre_hook := pre_hook c |}.

(** the decoder of section 4.3: [_create_config_args] followed by the
    constructor *)
Definition decode_Config (s : string) : result Config :=
  va <- _create_config_args s ;; Ok (Config_of va).

Definition kwarg_item (kv : string * pyval) : string :=
  field_item (fst kv) (str_pyval (snd kv)).

(** the values of one measurement, as [add_autotuner_cache] lists them *)
Definition sample_of (t : timing) : list float :=
  match t with
  | TList v => v
  | TFloat f => [f]
  end.

(** [math.isinf(v)]: positive or negative infinity *)
Definition is_infinite (v : float) : bool :=
  PrimFloat.eqb v infinity || PrimFloat.eqb v neg_infinity.

(** the sample has an infinite value *)
Definition has_infinite (vals : list float) : bool := existsb is_infinite vals.

(** the loop of [add_autotuner_cache] passes over [key]: its text is a
    key of the record's cache map, or its sample holds [float("inf")] *)
Definition passed_over (r : StorageRecord)
  (timings_arg : list (list pyval * timing)) (key : list pyval) : bool :=
  smem (PyRepr.str_tuple key) (cache r)
  || match PyDict.get tuple_eqb key timings_arg with
     | Some t => inf_in (sample_of t)
     | None => false
     end.

(** the same, with any infinite value in the place of [float("inf")] *)
Definition present_or_infinite (r : StorageRecord)
  (timings_arg : list (list pyval * timing)) (key : list pyval) : bool :=
  smem (PyRepr.str_tuple key) (cache r)
  || match PyDict.get tuple_eqb key timings_arg with
     | Some t => has_infinite (sample_of t)
     | None => false
     end.

Section StatementNotions.

Context {ext : Externals}.

(** the record [add_autotuner_cache] starts from *)
Definition record_before (w : World) (fn : JITFunction) (configs_len : Z)
  (folder_name : string) : StorageRecord :=
  match sget folder_name (fn_storage (self w)) with
  | Some r => r
  | None => _get_cache_template fn configs_len
  end.

(** the folder of an identity *)
Definition folder_of (fn : JITFunction)
  (configs_hash key_hash param_hash : string) : result string :=
  fn_name <- fn_name_of fn ;;
  Ok (_get_folder_name fn_name (_wait_fn_hash fn) configs_hash key_hash
        param_hash).

(** the entry of [key] in the cache map of the record of [folder_name] *)
Definition cache_entry (w : World) (folder_name key : string)
  : option string :=
  match sget folder_name (fn_storage (self w)) with
  | Some r => sget key (cache r)
  | None => None
  end.

(** every record, in the index and on disk, satisfies [P] *)
Definition records_satisfy (P : StorageRecord -> Prop) (w : World) : Prop :=
  Forall (fun kv => P (snd kv)) (fn_storage (self w))
  /\ Forall (fun kv => P (snd kv)) (disk w).

(** the cache map and the timings map have the same keys *)
Definition keys_agree (r : StorageRecord) : Prop :=
  PyDict.keys (cache r) = PyDict.keys (timings r).

(** no stored sample holds [float("inf")] *)
Definition inf_free (r : StorageRecord) : Prop :=
  Forall (fun kv => inf_in (values (snd kv)) = false) (timings r).

(** every record of the index is in its file on disk *)
Definition flushed (w : World) : Prop :=
  forall f r, sget f (fn_storage (self w)) = Some r ->
              sget f (disk w) = Some r.

End StatementNotions.

(** no configuration of the list equals a later one *)
Fixpoint deduped (l : list Config) : bool :=
  match l with
  | [] => true
  | c :: r => negb (existsb (fun x => Config_eqb c x) r) && deduped r
  end.

(** *** Sequences of calls *)

(** A call on the storage made by the autotuner. *)
Inductive call : Type :=
| CallRestore (fn : JITFunction) (configs_hash key_hash param_hash : string)
| CallAdd (cache_arg : list (list pyval * Config)) (fn : JITFunction)
      (configs_hash key_hash param_hash : string) (configs_len : Z)
      (timings_arg : list (list pyval * timing))
      (repetitiont warmupt : number) (bench_time : float).

(** A composite identity: the four hashes that, with the kernel name and
    the tag, give the folder. *)
Record Identity : Type := mkIdentity {
  id_fn_hash : string;
  id_configs_hash : string;
  id_key_hash : string;
  id_param_hash : string
}.

Definition neq_count (a b : string) : nat :=
  if String.eqb a b then 0 else 1.

(** the number of hashes in which two identities differ *)
Definition differing (a b : Identity) : nat :=
  neq_count (id_fn_hash a) (id_fn_hash b)
  + neq_count (id_configs_hash a) (id_configs_hash b)
  + neq_count (id_key_hash a) (id_key_hash b)
  + neq_count (id_param_hash a) (id_param_hash b).

(** the text whose digest names the code version *)
Definition code_version_input (i : Identity) : string :=
  id_fn_hash i ++ "-" ++ id_key_hash i.

Section CallNotions.

Context {ext : Externals}.

Definition folder_of_identity (fn_name : string) (i : Identity) : string :=
  _get_folder_name fn_name (id_fn_hash i) (id_configs_hash i)
    (id_key_hash i) (id_param_hash i).

(** the digest does not collide on the code versions of [a] and [b] *)
Definition no_collision (a b : Identity) : Prop :=
  sha256_hexdigest (code_version_input a)
  = sha256_hexdigest (code_version_input b) ->
  code_version_input a = code_version_input b.

Definition exec (w : World) (c : call) : World * result unit :=
  match c with
  | CallRestore fn configs_hash key_hash param_hash =>
      let '(w', r) :=
        restore_autotuner_cache w fn configs_hash key_hash param_hash in
      (w', _ <- r ;; Ok tt)
  | CallAdd cache_arg fn configs_hash key_hash param_hash configs_len
        timings_arg repetitiont warmupt bench_time =>
      add_autotuner_cache w cache_arg fn configs_hash key_hash param_hash
        configs_len timings_arg repetitiont warmupt bench_time
  end.

(** The calls of one process, one after the other; an exception ends the
    process. *)
Fixpoint run (w : World) (cs : list call) : result World :=
  match cs with
  | [] => Ok w
  | c :: rest =>
      match exec w c with
      | (w', Ok _) => run w' rest
      | (_, Err e) => Err e
      end
  end.

(** [c] is a call of restore or add for the identity of [folder] *)
Definition calls_for (c : call) (folder : string) : bool :=
  match c with
  | CallRestore fn configs_hash key_hash param_hash
  | CallAdd _ fn configs_hash key_hash param_hash _ _ _ _ _ =>
      match folder_of fn configs_hash key_hash param_hash with
      | Ok f => String.eqb f folder
      | Err _ => false
      end
  end.

(** [c], made in the world [w], is a restore for [folder], or an add for
    [folder] in which some key is not passed over *)
Definition establishes (w : World) (c : call) (folder : string) : bool :=
  match c with
  | CallRestore _ _ _ _ => calls_for c folder
  | CallAdd cache_arg fn _ _ _ configs_len timings_arg _ _ _ =>
      calls_for c folder
      && negb (forallb
                 (fun kc =>
                    passed_over (record_before w fn configs_len folder)
                      timings_arg (fst kc))
                 cache_arg)
  end.

Fixpoint established (w : World) (cs : list call) (folder : string) : bool :=
  match cs with
  | [] => false
  | c :: rest =>
      establishes w c folder || established (fst (exec w c)) rest folder
  end.

End CallNotions.

(** *** Concrete data for the examples *)

(** An environment with the storage root set; the digest is a stand-in
    that keeps its input readable. *)
Definition demo_ext : Externals :=
  {| sha256_hexdigest := fun s => "sha256(" ++ s ++ ")";
     environ := [("TRITON_DEJAVU_STORAGE", "/tmp/dejavu")];
     get_storage_identifier := "gpu0";
     abspath := PyStr.drop_last |}.

(** The same with the storage root set to the text [none]. *)
Definition demo_ext_none : Externals :=
  {| sha256_hexdigest := fun s => "sha256(" ++ s ++ ")";
     environ := [("TRITON_DEJAVU_STORAGE", "none")];
     get_storage_identifier := "gpu0";
     abspath := PyStr.drop_last |}.

(** The same with the storage root not set. *)
Definition demo_ext_unset : Externals :=
  {| sha256_hexdigest := fun s => "sha256(" ++ s ++ ")";
     environ := [];
     get_storage_identifier := "gpu0";
     abspath := PyStr.drop_last |}.

Definition demo_fn : JITFunction :=
  {| JIT_str := "JITFunction(kernels:K)"; JIT_hash := "codeA" |}.

(** [Config(num_warps=4)], the other fields at Triton's defaults *)
Definition demo_config : Config :=
  {| kwargs := [];
     num_warps := 4;
     num_stages := 2;
     num_ctas := 1;
     enable_warp_specialization := false;
     maxnreg := None;
     pre_hook := "None" |}.

(** a configuration with a string keyword argument that reads as a number *)
Definition demo_config_mode : Config :=
  {| kwargs := [("BLOCK", VInt 128); ("mode", VStr "1")];
     num_warps := 4;
     num_stages := 2;
     num_ctas := 1;
     enable_warp_specialization := false;
     maxnreg := None;
     pre_hook := "None" |}.

(** a configuration whose keyword arguments the decoder reads back *)
Definition demo_config_kwargs : Config :=
  {| kwargs := [("BLOCK", VInt 128); ("EVEN", VBool true);
                ("mode", VStr "fast"); ("enable_persistent", VBool false)];
     num_warps := 8;
     num_stages := 3;
     num_ctas := 1;
     enable_warp_specialization := true;
     maxnreg := Some 64%Z;
     pre_hook := "None" |}.

(** the world of a process that has just built its [DejavuStorage], on
    an empty disk *)
Definition demo_world : World :=
  {| self :=
       {| storage_prefix := "/tmp/dejavu";
          storage_identifier := "gpu0";
          storage_path := "/tmp/dejavu/gpu0";
          fn_storage := [];
          measured_timings := [];
          _known_files := [];
          used_configs := [] |};
     disk := [] |}.

Definition demo_key : list pyval := [VInt 4; VInt 4].

(** every list of used configurations is free of duplicates *)
Definition used_deduped (w : World) : Prop :=
  Forall (fun kv => deduped (snd kv) = true) (used_configs (self w)).

(** what the decoder makes of [demo_config_mode] *)
Definition demo_config_mode_decoded : Config :=
  {| kwargs := [("BLOCK", VInt 128); ("mode", VInt 1)];
     num_warps := 4;
     num_stages := 2;
     num_ctas := 1;
     enable_warp_specialization := false;
     maxnreg := None;
     pre_hook := "None" |}.

(** the folder of the identity of the examples *)
Definition demo_folder : string :=
  "K/autotune_config-parA/kernel_configs-cfgA/code_version-sha256(codeA-keyA)/default".

(** The scenario of section 8: a restore with no file, an add of one
    result with the measurement 1.23, a second restore. *)
Definition demo_restore1 : World * result (list (list pyval * Config)) :=
  @restore_autotuner_cache demo_ext demo_world demo_fn "cfgA" "keyA" "parA".

Definition demo_add : World * result unit :=
  @add_autotuner_cache demo_ext (fst demo_restore1)
    [(demo_key, demo_config)] demo_fn "cfgA" "keyA" "parA" 1
    [(demo_key, TFloat 0x1.3ae147ae147aep+0%float)] (NInt 10) (NInt 5)
    0.5%float.

Definition demo_restore2 : World * result (list (list pyval * Config)) :=
  @restore_autotuner_cache demo_ext (fst demo_add) demo_fn "cfgA" "keyA"
    "parA".

(** a second add for the same key with another configuration *)
Definition demo_add_again : World * result unit :=
  @add_autotuner_cache demo_ext (fst demo_add)
    [(demo_key, demo_config_kwargs)] demo_fn "cfgA" "keyA" "parA" 2
    [(demo_key, TFloat 0.5%float)] (NInt 10) (NInt 5) 0.25%float.

(** an add whose only measurement is [float("inf")], in a new process *)
Definition demo_add_inf : call :=
  CallAdd [(demo_key, demo_config)] demo_fn "cfgA" "keyA" "parA" 1
    [(demo_key, TFloat infinity)] (NInt 10) (NInt 5) 0.5%float.

(** an add whose only measurement is [float("-inf")], in a new process *)
Definition demo_add_neg_inf : World * result unit :=
  @add_autotuner_cache demo_ext demo_world
    [(demo_key, demo_config)] demo_fn "cfgA" "keyA" "parA" 1
    [(demo_key, TFloat neg_infinity)] (NInt 10) (NInt 5) 0.5%float.

Definition demo_locals : add_locals :=
  {| cache_json := _get_cache_template demo_fn 1;
     tmp_used_configs := [];
     changes_made := false |}.

Definition demo_identity : Identity :=
  {| id_fn_hash := "codeA"; id_configs_hash := "cfgA";
     id_key_hash := "keyA"; id_param_hash := "parA" |}.

Definition demo_identity_param : Identity :=
  {| id_fn_hash := "codeA"; id_configs_hash := "cfgA";
     id_key_hash := "keyA"; id_param_hash := "parB" |}.

(* ================================================================= *)
(** ** Notions used in the further properties *)

(** the text [get_config_list_hash] digests *)
Definition config_list_text (configs : list Config) : string :=
  fold_left (fun s c => s ++ str_Config c ++ "|") configs "|".

(** a character that [repr] writes as it is inside single quotes *)
Definition is_simple_char (c : ascii) : bool :=
  let n := nat_of_ascii c in
  (32 <=? n)%nat && (n <? 127)%nat
  && negb (Ascii.eqb c "'") && negb (Ascii.eqb c "\").

(** a string that [repr] writes between single quotes, unchanged, and
    that has no [", "] in it *)
Definition is_simple_str (s : string) : bool :=
  PyStr.all_chars is_simple_char s && negb (PyStr.contains ", " s).

(** an element of a runtime key: no string, or a simple string *)
Definition key_elem_ok (x : pyval) : bool :=
  match x with
  | VStr s => is_simple_str s
  | _ => true
  end.

(** what [_create_tuple] makes of an element: its text, as a string *)
Definition as_text (x : pyval) : pyval := VStr (str_pyval x).

(** the texts of [l], each followed by a bar *)
Fixpoint bar_terminated (l : list string) : string :=
  match l with
  | [] => EmptyString
  | t :: r => t ++ "|" ++ bar_terminated r
  end.

(** no element has a bar *)
Definition bar_free (l : list string) : Prop :=
  Forall (fun x => PyStr.contains "|" x = false) l.

Definition is_str (x : pyval) : bool :=
  match x with
  | VStr _ => true
  | _ => false
  end.

(** what [_create_tuple] makes of the only element of a one-element key:
    the text keeps the comma of the tuple, or the closing quote *)
Definition as_text_single (x : pyval) : pyval :=
  match x with
  | VStr s => VStr (s ++ "'")
  | _ => VStr (str_pyval x ++ ",")
  end.

(** a folder whose record is on disk and whose file name is known *)
Definition settled (w : World) (k : string) : Prop :=
  exists r,
    sget k (fn_storage (self w)) = Some r
    /\ sget k (disk w) = Some r
    /\ PyStr.in_list
         ((storage_path (self w) ++ "/" ++ k ++ "/") ++ "/cache.json")
         (_known_files (self w)) = true.


(** [c] is in the list [u] as Python's [in] finds it: some element is
    [c] itself or compares equal to it *)
Definition listed (u : list Config) (c : Config) : Prop :=
  In c u \/ existsb (fun x => Config_eqb x c) u = true.

(** some entry of the cache map has a key text or a configuration text
    the decoders raise on *)
Definition undecodable (r : StorageRecord) : Prop :=
  exists k v,
    In (k, v) (cache r)
    /\ (is_ok (_create_tuple k) = false
        \/ is_ok (_create_config_args v) = false).

Section WellFormed.

Context {ext : Externals}.

(** an identity as the callers make it: the kernel name, the hashes and
    the digest of the code version are free of the path separator, and
    the function hash is free of the dash *)
Definition well_formed (fn_name : string) (i : Identity) : bool :=
  negb (PyStr.contains "/" fn_name)
  && negb (PyStr.contains "/" (id_param_hash i))
  && negb (PyStr.contains "/" (id_configs_hash i))
  && negb (PyStr.contains "/" (get_string_hash (code_version_input i)))
  && negb (PyStr.contains "-" (id_fn_hash i)).

End WellFormed.

(** the keys and the configurations of [ret] are decoded from [items] *)
Definition from_items (items : list (string * string))
  (ret : list (list pyval * Config)) : Prop :=
  forall kt c,
    In (kt, c) ret ->
    (exists k v, In (k, v) items /\ _create_tuple k = Ok kt)
    /\ (exists k v va,
           In (k, v) items /\ _create_config_args v = Ok va
           /\ c = Config_of va).


(** the entry of the cache map [add_autotuner_cache] writes for a result *)
Definition stored_entry (kc : list pyval * Config) : string * string :=
  (PyRepr.str_tuple (fst kc), str_Config (snd kc)).

(** a result that is stored and read back: the key has two elements or
    more, its strings are simple, the configuration is one the codec
    reads back, and the measurement is there and holds no [float("inf")] *)
Definition storable (timings_arg : list (list pyval * timing))
  (kc : list pyval * Config) : bool :=
  (2 <=? List.length (fst kc))%nat
  && forallb key_elem_ok (fst kc)
  && codec_safe (snd kc)
  && match PyDict.get tuple_eqb (fst kc) timings_arg with
     | Some t => negb (inf_in (sample_of t))
     | None => false
     end.

(** the mapping a restore builds from the stored entries of [results] *)
Definition restored_view (results : list (list pyval * Config))
  : list (list pyval * Config) :=
  fold_left
    (fun ret kc =>
       PyDict.set tuple_eqb (map as_text (fst kc)) (without_skipped (snd kc))
         ret)
    results [].

(** a key with the name of a data type and a size *)
Definition demo_typed_key : list pyval := [VStr "float16"; VInt 4].

(** two results and their measurements, one of them a triple *)
Definition demo_results : list (list pyval * Config) :=
  [(demo_key, demo_config); (demo_typed_key, demo_config_kwargs)].

Definition demo_timings : list (list pyval * timing) :=
  [(demo_key, TFloat 0.5%float);
   (demo_typed_key, TList [0.5%float; 0.25%float; 0.75%float])].

(** the add of the two results after the first restore of the scenario *)
Definition demo_add_results : World * result unit :=
  @add_autotuner_cache demo_ext (fst demo_restore1) demo_results demo_fn
    "cfgA" "keyA" "parA" 2 demo_timings (NInt 10) (NInt 5) 0.5%float.

(** the process started after [demo_add]: the same disk, an empty index *)
Definition demo_restarted : World :=
  {| self := self demo_world; disk := disk (fst demo_add) |}.

(** an add for the empty key in a new process, and the process started
    after it *)
Definition demo_add_empty_key : World * result unit :=
  @add_autotuner_cache demo_ext demo_world [([], demo_config)] demo_fn
    "cfgA" "keyA" "parA" 1 [([], TFloat 0.5%float)] (NInt 10) (NInt 5)
    0.5%float.

Definition demo_after_empty_key : World :=
  {| self := self demo_world; disk := disk (fst demo_add_empty_key) |}.

(** a function object whose text has no colon *)
Definition demo_fn_no_colon : JITFunction :=
  {| JIT_str := "JITFunction(K)"; JIT_hash := "codeA" |}.

(** a restore for another identity *)
Definition demo_restore_other : call :=
  CallRestore demo_fn "cfgB" "keyA" "parA".

(* ================================================================= *)
(** * Properties *)

(** ** The built-ins on small inputs *)

Example split_ex1 : PyStr.split ", " "a: 1, b: 2" = ["a: 1"; "b: 2"].
Proof. reflexivity. Qed.
Example split_ex2 : PyStr.split ", " "" = [""].
Proof. reflexivity. Qed.
Example split_ex3 : PyStr.split ": " "a: : b" = ["a"; ""; "b"].
Proof. reflexivity. Qed.
Example split_ex4 : PyStr.split ", " "4," = ["4,"].
Proof. reflexivity. Qed.
Example int_ex1 : PyNum.int " -1_000 " = Ok (-1000)%Z.
Proof. reflexivity. Qed.
Example int_ex2 : PyNum.int "True" = Err ValueError.
Proof. reflexivity. Qed.
Example int_ex3 : PyNum.int "" = Err ValueError.
Proof. reflexivity. Qed.
Example int_ex4 : PyNum.int "1__0" = Err ValueError.
Proof. reflexivity. Qed.
Example str_ex1 : PyNum.str_int (-40) = "-40".
Proof. reflexivity. Qed.
Example str_ex2 : PyNum.str_int 0 = "0".
Proof. reflexivity. Qed.
Example strtobool_ex : PyNum.strtobool "True" = Ok 1%Z.
Proof. reflexivity. Qed.

(* ================================================================= *)
(** ** Splitting and joining on a two-character separator *)

Section TwoCharSeparator.

Variables a b : ascii.
Hypothesis a_neq_b : a <> b.

Let sep : string := String a (String b EmptyString).

Lemma prefix_two (s : string) :
  String.prefix sep s = true <-> exists r, s = String a (String b r).
Proof.
  split.
  - destruct s as [|c [|d r]]; simpl; try discriminate.
    + destruct (ascii_dec a c); discriminate.
    + destruct (ascii_dec a c); [|discriminate].
      destruct (ascii_dec b d); [|discriminate].
      subst. intros _. now exists r.
  - intros [r ->]. simpl.
    destruct (ascii_dec a a); [|congruence].
    destruct (ascii_dec b b); [|congruence].
    now destruct r.
Qed.

Lemma prefix_two_false_app (c : ascii) (x r : string) :
  String.prefix sep (String c x) = false ->
  String.prefix sep (String c (x ++ sep ++ r)) = false.
Proof.
  intros H.
  destruct (String.prefix sep (String c (x ++ sep ++ r))) eqn:E; [|reflexivity].
  apply prefix_two in E. destruct E as [t E].
  injection E as -> E.
  destruct x as [|d x]; simpl in E.
  - simpl in E. injection E as E _. congruence.
  - injection E as -> _.
    assert (String.prefix sep (String a (String b x)) = true)
      by (apply prefix_two; now exists x).
    congruence.
Qed.

Lemma contains_cons_false (c : ascii) (x : string) :
  PyStr.contains sep (String c x) = false ->
  String.prefix sep (String c x) = false /\ PyStr.contains sep x = false.
Proof.
  simpl. intros H. apply orb_false_iff in H. exact H.
Qed.

Lemma split_no_sep (x : string) :
  PyStr.contains sep x = false -> PyStr.split sep x = [x].
Proof.
  unfold PyStr.split. induction x as [|c x IH]; intros H.
  - reflexivity.
  - apply contains_cons_false in H. destruct H as [H1 H2].
    cbn [PyStr.split_from]. rewrite H1, (IH H2). reflexivity.
Qed.

Lemma split_app_sep (x r : string) :
  PyStr.contains sep x = false ->
  PyStr.split sep (x ++ sep ++ r) = x :: PyStr.split sep r.
Proof.
  unfold PyStr.split. induction x as [|c x IH]; intros H.
  - change (EmptyString ++ sep ++ r) with (String a (String b r)).
    cbn [PyStr.split_from].
    assert (E : String.prefix sep (String a (String b r)) = true)
      by (apply prefix_two; now exists r).
    rewrite E. reflexivity.
  - apply contains_cons_false in H. destruct H as [H1 H2].
    change (String c x ++ sep ++ r) with (String c (x ++ sep ++ r)).
    cbn [PyStr.split_from].
    rewrite (prefix_two_false_app _ _ _ H1), (IH H2). reflexivity.
Qed.

Lemma split_join (l : list string) :
  l <> [] ->
  Forall (fun x => PyStr.contains sep x = false) l ->
  PyStr.split sep (PyStr.join sep l) = l.
Proof.
  intros Hne H. induction H as [|x l Hx Hl IH]; [congruence|].
  destruct l as [|y l].
  - simpl. now apply split_no_sep.
  - change (PyStr.join sep (x :: y :: l))
      with (x ++ sep ++ PyStr.join sep (y :: l)).
    rewrite split_app_sep by assumption.
    rewrite IH by discriminate. reflexivity.
Qed.

(** [x ++ y] has no separator when neither part has one and [y] does not
    start with the separator's second character. *)
Lemma contains_app_false (x y : string) :
  PyStr.contains sep x = false ->
  PyStr.contains sep y = false ->
  (forall y', y <> String b y') ->
  PyStr.contains sep (x ++ y) = false.
Proof.
  intros Hx Hy Hb. induction x as [|c x IH]; [exact Hy|].
  apply contains_cons_false in Hx. destruct Hx as [H1 H2].
  change (String c x ++ y) with (String c (x ++ y)).
  cbn [PyStr.contains]. rewrite (IH H2), orb_false_r.
  destruct (String.prefix sep (String c (x ++ y))) eqn:E; [|reflexivity].
  apply prefix_two in E. destruct E as [t E]. injection E as -> E.
  destruct x as [|d x]; simpl in E.
  - now apply Hb in E.
  - injection E as -> _.
    assert (String.prefix sep (String a (String b x)) = true)
      by (apply prefix_two; now exists x).
    congruence.
Qed.

(** A text whose characters all miss the separator's first character has
    no separator. *)
Lemma contains_all_chars (p : ascii -> bool) (s : string) :
  p a = false -> PyStr.all_chars p s = true -> PyStr.contains sep s = false.
Proof.
  intros Hp. induction s as [|c s IH]; intros H.
  - reflexivity.
  - cbn [PyStr.all_chars] in H. apply andb_true_iff in H. destruct H as [Hc Hs].
    cbn [PyStr.contains]. rewrite (IH Hs), orb_false_r.
    destruct (String.prefix sep (String c s)) eqn:E; [|reflexivity].
    apply prefix_two in E. destruct E as [t E]. injection E as -> _. congruence.
Qed.

End TwoCharSeparator.

(* ================================================================= *)
(** ** [int(str(z)) == z] *)

Lemma all_chars_impl (p q : ascii -> bool) (s : string) :
  (forall c, p c = true -> q c = true) ->
  PyStr.all_chars p s = true -> PyStr.all_chars q s = true.
Proof.
  intros Hpq. induction s as [|c s IH]; simpl; [reflexivity|].
  intros H. apply andb_true_iff in H. destruct H as [Hc Hs].
  now rewrite (Hpq _ Hc), (IH Hs).
Qed.

Lemma digits_string_of_uint (d : uint) :
  PyStr.all_chars PyNum.is_digit (NilEmpty.string_of_uint d) = true.
Proof.
  induction d; simpl; try reflexivity; exact IHd.
Qed.

Lemma is_digit_not_space (c : ascii) :
  PyNum.is_digit c = true -> PyStr.is_space c = false.
Proof.
  unfold PyNum.is_digit, PyStr.is_space.
  intros H. apply andb_true_iff in H. destruct H as [H1 H2].
  apply Nat.leb_le in H1. apply Nat.leb_le in H2.
  apply orb_false_iff. split; apply andb_false_iff.
  - right. apply Nat.leb_gt. lia.
  - right. apply Nat.leb_gt. lia.
Qed.

Lemma is_digit_not (c x : ascii) :
  PyNum.is_digit c = true -> PyNum.is_digit x = false -> Ascii.eqb c x = false.
Proof.
  intros Hc Hx. destruct (Ascii.eqb_spec c x); [congruence|reflexivity].
Qed.

Lemma lstrip_id (c : ascii) (s : string) :
  PyStr.is_space c = false -> PyStr.lstrip (String c s) = String c s.
Proof. intros H. simpl. now rewrite H. Qed.

Lemma rstrip_id (s : string) :
  PyStr.all_chars (fun c => negb (PyStr.is_space c)) s = true ->
  PyStr.rstrip s = s.
Proof.
  induction s as [|c s IH]; simpl; [reflexivity|].
  intros H. apply andb_true_iff in H. destruct H as [Hc Hs].
  rewrite (IH Hs). apply negb_true_iff in Hc. rewrite Hc.
  now destruct s.
Qed.

Lemma digits_ok_digits (s : string) (prev : bool) :
  PyStr.all_chars PyNum.is_digit s = true ->
  PyNum.digits_ok prev s = match s with EmptyString => prev | _ => true end.
Proof.
  revert prev. induction s as [|c s IH]; intros prev; simpl; [reflexivity|].
  intros H. apply andb_true_iff in H. destruct H as [Hc Hs].
  rewrite Hc, (IH true Hs). now destruct s.
Qed.

Lemma drop_underscores_digits (s : string) :
  PyStr.all_chars PyNum.is_digit s = true -> PyNum.drop_underscores s = s.
Proof.
  induction s as [|c s IH]; simpl; [reflexivity|].
  intros H. apply andb_true_iff in H. destruct H as [Hc Hs].
  unfold PyNum.is_underscore.
  rewrite (is_digit_not c "_" Hc eq_refl), (IH Hs). reflexivity.
Qed.

Lemma string_of_uint_nonempty (d : uint) :
  d <> Nil -> NilEmpty.string_of_uint d <> EmptyString.
Proof. destruct d; simpl; congruence. Qed.

Lemma parse_digits_string_of_uint (d : uint) :
  d <> Nil ->
  PyNum.parse_digits (NilEmpty.string_of_uint d) = Ok (Z.of_uint d).
Proof.
  intros Hd. unfold PyNum.parse_digits.
  rewrite (digits_ok_digits _ false (digits_string_of_uint d)).
  rewrite (drop_underscores_digits _ (digits_string_of_uint d)).
  rewrite NilEmpty.usu.
  pose proof (string_of_uint_nonempty d Hd).
  destruct (NilEmpty.string_of_uint d); [congruence|reflexivity].
Qed.

Lemma of_uint_to_uint (p : positive) : Z.of_uint (Pos.to_uint p) = Z.pos p.
Proof.
  unfold Z.of_uint. rewrite DecimalPos.Unsigned.of_to. reflexivity.
Qed.

Lemma int_digits (s : string) :
  s <> EmptyString ->
  PyStr.all_chars PyNum.is_digit s = true ->
  PyNum.int s = PyNum.parse_digits s.
Proof.
  intros Hne Hd. unfold PyNum.int, PyStr.strip.
  destruct s as [|c s]; [congruence|].
  pose proof Hd as Hd'. cbn [PyStr.all_chars] in Hd'.
  apply andb_true_iff in Hd'. destruct Hd' as [Hc Hs].
  rewrite (lstrip_id _ _ (is_digit_not_space _ Hc)).
  rewrite rstrip_id.
  - now rewrite (is_digit_not c "-" Hc eq_refl), (is_digit_not c "+" Hc eq_refl).
  - apply (all_chars_impl PyNum.is_digit); [|exact Hd].
    intros x Hx. now rewrite (is_digit_not_space _ Hx).
Qed.

Lemma int_minus_digits (s : string) :
  PyStr.all_chars PyNum.is_digit s = true ->
  PyNum.int (String "-" s) = (z <- PyNum.parse_digits s ;; Ok (- z)%Z).
Proof.
  intros Hd. unfold PyNum.int, PyStr.strip.
  rewrite lstrip_id by reflexivity.
  rewrite rstrip_id; [reflexivity|].
  cbn [PyStr.all_chars]. apply andb_true_iff. split; [reflexivity|].
  apply (all_chars_impl PyNum.is_digit); [|exact Hd].
  intros x Hx. now rewrite (is_digit_not_space _ Hx).
Qed.

Lemma str_int_pos (p : positive) :
  PyNum.str_int (Z.pos p) = NilEmpty.string_of_uint (Pos.to_uint p).
Proof.
  unfold PyNum.str_int. simpl. unfold NilZero.string_of_uint.
  pose proof (DecimalPos.Unsigned.to_uint_nonnil p).
  destruct (Pos.to_uint p); [congruence|reflexivity..].
Qed.

Lemma str_int_neg (p : positive) :
  PyNum.str_int (Z.neg p)
  = String "-" (NilEmpty.string_of_uint (Pos.to_uint p)).
Proof.
  unfold PyNum.str_int. simpl. unfold NilZero.string_of_uint.
  pose proof (DecimalPos.Unsigned.to_uint_nonnil p).
  destruct (Pos.to_uint p); [congruence|reflexivity..].
Qed.

Lemma int_str_int (z : Z) : PyNum.int (PyNum.str_int z) = Ok z.
Proof.
  destruct z as [|p|p].
  - reflexivity.
  - rewrite str_int_pos.
    pose proof (DecimalPos.Unsigned.to_uint_nonnil p) as Hn.
    rewrite int_digits.
    + rewrite parse_digits_string_of_uint by exact Hn.
      now rewrite of_uint_to_uint.
    + now apply string_of_uint_nonempty.
    + apply digits_string_of_uint.
  - rewrite str_int_neg.
    pose proof (DecimalPos.Unsigned.to_uint_nonnil p) as Hn.
    rewrite int_minus_digits by apply digits_string_of_uint.
    rewrite parse_digits_string_of_uint by exact Hn.
    now rewrite of_uint_to_uint.
Qed.


Lemma int_chars_str_int (z : Z) :
  PyStr.all_chars is_int_char (PyNum.str_int z) = true.
Proof.
  assert (D : forall d, PyStr.all_chars is_int_char (NilEmpty.string_of_uint d) = true).
  { intros d. apply (all_chars_impl PyNum.is_digit); [|apply digits_string_of_uint].
    intros c Hc. unfold is_int_char. now rewrite Hc. }
  destruct z as [|p|p].
  - reflexivity.
  - rewrite str_int_pos. apply D.
  - rewrite str_int_neg. cbn [PyStr.all_chars]. now rewrite D.
Qed.

Lemma int_value_error (s : string) :
  is_ok (PyNum.int s) = false -> PyNum.int s = Err ValueError.
Proof.
  unfold PyNum.int, PyNum.parse_digits.
  destruct (PyStr.strip s) as [|c r]; [reflexivity|].
  destruct (Ascii.eqb c "-").
  - destruct (PyNum.digits_ok false r); [|reflexivity].
    destruct (NilEmpty.uint_of_string _); [discriminate|reflexivity].
  - destruct (Ascii.eqb c "+").
    + destruct (PyNum.digits_ok false r); [|reflexivity].
      destruct (NilEmpty.uint_of_string _); [discriminate|reflexivity].
    + destruct (PyNum.digits_ok false (String c r)); [|reflexivity].
      destruct (NilEmpty.uint_of_string _); [discriminate|reflexivity].
Qed.

Lemma strtobool_value_error (s : string) :
  is_ok (PyNum.strtobool s) = false -> PyNum.strtobool s = Err ValueError.
Proof.
  unfold PyNum.strtobool.
  destruct (PyStr.in_list _ _); [discriminate|].
  destruct (PyStr.in_list _ _); [discriminate|reflexivity].
Qed.

Lemma plain_iff (s : string) :
  plain s = true <->
  PyStr.contains ", " s = false /\ PyStr.contains ": " s = false.
Proof.
  unfold plain. rewrite andb_true_iff, !negb_true_iff. tauto.
Qed.

Lemma comma_neq_space : ","%char <> " "%char.
Proof. discriminate. Qed.

Lemma colon_neq_space : ":"%char <> " "%char.
Proof. discriminate. Qed.

Lemma split_field_item (n v : string) :
  PyStr.contains ": " n = false -> PyStr.contains ": " v = false ->
  PyStr.split ": " (field_item n v) = [n; v].
Proof.
  intros Hn Hv. unfold field_item.
  rewrite (split_app_sep ":" " " colon_neq_space n v Hn).
  now rewrite (split_no_sep ":" " " v Hv).
Qed.

Lemma field_item_no_comma (n v : string) :
  PyStr.contains ", " n = false -> PyStr.contains ", " v = false ->
  PyStr.contains ", " (field_item n v) = false.
Proof.
  intros Hn Hv. unfold field_item.
  apply (contains_app_false "," " " comma_neq_space n (": " ++ v) Hn).
  - simpl. now rewrite Hv.
  - intros y'. discriminate.
Qed.

Lemma str_int_plain (z : Z) : plain (PyNum.str_int z) = true.
Proof.
  apply plain_iff. split.
  - apply (contains_all_chars "," " " comma_neq_space is_int_char); [reflexivity|].
    apply int_chars_str_int.
  - apply (contains_all_chars ":" " " colon_neq_space is_int_char); [reflexivity|].
    apply int_chars_str_int.
Qed.

Lemma str_bool_plain (b : bool) : plain (PyNum.str_bool b) = true.
Proof. now destruct b. Qed.

Lemma str_option_int_plain (o : option Z) : plain (str_option_int o) = true.
Proof. destruct o; [apply str_int_plain|reflexivity]. Qed.

Lemma str_bool_decodes (b : bool) :
  PyNum.int (PyNum.str_bool b) = Err ValueError
  /\ PyNum.strtobool (PyNum.str_bool b) = Ok (if b then 1 else 0)%Z.
Proof. now destruct b. Qed.

(** *** The decoder on one item *)

Lemma iter_int_field (ret : ConfigArgs) (n : string) (z : Z) :
  PyStr.in_list n __int_config_args__ = true ->
  _create_config_args_iter ret (field_item n (PyNum.str_int z))
  = Ok (set_field n (VInt z) ret).
Proof.
  intros Hn.
  assert (Hcases : n = "num_warps" \/ n = "num_stages" \/ n = "num_ctas").
  { unfold PyStr.in_list, __int_config_args__ in Hn. cbn [existsb] in Hn.
    repeat (apply orb_true_iff in Hn; destruct Hn as [Hn|Hn]);
      try discriminate; apply String.eqb_eq in Hn; auto. }
  pose proof (proj1 (plain_iff _) (str_int_plain z)) as [_ Hz].
  unfold _create_config_args_iter.
  destruct Hcases as [->|[->| ->]];
    (rewrite split_field_item by (reflexivity || exact Hz));
    cbn; rewrite int_str_int; reflexivity.
Qed.

Lemma iter_bool_field (ret : ConfigArgs) (b : bool) :
  _create_config_args_iter ret
    (field_item "enable_warp_specialization" (PyNum.str_bool b))
  = Ok (set_field "enable_warp_specialization" (VBool b) ret).
Proof.
  unfold _create_config_args_iter.
  rewrite split_field_item by (reflexivity || now destruct b).
  now destruct b.
Qed.

Lemma iter_maxnreg (ret : ConfigArgs) (o : option Z) :
  _create_config_args_iter ret (field_item "maxnreg" (str_option_int o))
  = Ok (set_field "maxnreg"
          (match o with Some z => VInt z | None => VNone end) ret).
Proof.
  pose proof (proj1 (plain_iff _) (str_option_int_plain o)) as [_ Ho].
  unfold _create_config_args_iter.
  rewrite split_field_item by (reflexivity || exact Ho).
  destruct o as [z|]; cbn; [|reflexivity].
  now rewrite int_str_int.
Qed.

Lemma iter_pre_hook (ret : ConfigArgs) (s : string) :
  PyStr.contains ": " s = false ->
  _create_config_args_iter ret (field_item "pre_hook" s)
  = Ok (set_field "pre_hook" (VStr s) ret).
Proof.
  intros Hs. unfold _create_config_args_iter.
  rewrite split_field_item by (reflexivity || exact Hs).
  reflexivity.
Qed.

Lemma iter_kwarg (ret : ConfigArgs) (kv : string * pyval) :
  kwarg_safe kv = true ->
  _create_config_args_iter ret (kwarg_item kv)
  = Ok (if not_skipped kv then set_kwarg (fst kv) (snd kv) ret else ret).
Proof.
  destruct kv as [k v]. unfold kwarg_safe, not_skipped, kwarg_item.
  cbn [fst snd]. intros H.
  apply andb_true_iff in H. destruct H as [H Hv].
  apply andb_true_iff in H. destruct H as [Hk Hc].
  apply plain_iff in Hk. destruct Hk as [_ Hk].
  apply negb_true_iff in Hc.
  assert (Hvp : PyStr.contains ": " (str_pyval v) = false).
  { destruct v as [|b|z|s]; try discriminate.
    - now destruct b.
    - apply (proj1 (plain_iff _) (str_int_plain z)).
    - apply andb_true_iff in Hv. destruct Hv as [Hv _].
      apply andb_true_iff in Hv. destruct Hv as [Hv _].
      now apply plain_iff in Hv. }
  unfold _create_config_args_iter.
  rewrite split_field_item by assumption.
  cbn [getitem nth_error bind].
  destruct (PyStr.in_list k __skip_config_args__); [reflexivity|].
  rewrite Hc. cbn [negb].
  destruct v as [|b|z|s]; try discriminate; cbn [str_pyval].
  - destruct (str_bool_decodes b) as [-> ->]. now destruct b.
  - now rewrite int_str_int.
  - apply andb_true_iff in Hv. destruct Hv as [Hv Hb].
    apply andb_true_iff in Hv. destruct Hv as [_ Hi].
    apply negb_true_iff in Hi, Hb.
    now rewrite (int_value_error _ Hi), (strtobool_value_error _ Hb).
Qed.

(** *** Dictionaries *)

Lemma smem_app {V} (k : string) (d1 d2 : dict V) :
  smem k (d1 ++ d2)%list = smem k d1 || smem k d2.
Proof.
  unfold smem, PyDict.mem.
  induction d1 as [|[k' v] d1 IH]; simpl; [now destruct (PyDict.get _ _ _)|].
  destruct (String.eqb k k'); [reflexivity|exact IH].
Qed.

Lemma sset_fresh {V} (k : string) (v : V) (d : dict V) :
  smem k d = false -> sset k v d = (d ++ [(k, v)])%list.
Proof.
  unfold smem, sset, PyDict.mem.
  induction d as [|[k' v'] d IH]; simpl; [reflexivity|].
  destruct (String.eqb k k'); [discriminate|].
  intros H. now rewrite (IH H).
Qed.

Lemma wf_app_inv {V} (d1 d2 : dict V) (k : string) (v : V) :
  PyDict.wf String.eqb (d1 ++ (k, v) :: d2)%list = true ->
  smem k d1 = false /\ PyDict.wf String.eqb (d1 ++ d2)%list = true.
Proof.
  induction d1 as [|[k' v'] d1 IH]; simpl.
  - intros H. apply andb_true_iff in H. now destruct H.
  - intros H. apply andb_true_iff in H. destruct H as [Hk H].
    destruct (IH H) as [H1 H2].
    apply negb_true_iff in Hk.
    fold (@smem V k' (d1 ++ (k, v) :: d2)%list) in Hk.
    rewrite smem_app in Hk. apply orb_false_iff in Hk. destruct Hk as [Hk1 Hk2].
    unfold smem at 1, PyDict.mem in Hk2. simpl in Hk2.
    split.
    + unfold smem, PyDict.mem. simpl.
      destruct (String.eqb k k') eqn:E.
      * apply String.eqb_eq in E. subst k'. now rewrite String.eqb_refl in Hk2.
      * exact H1.
    + rewrite H2, andb_true_r. apply negb_true_iff.
      fold (@smem V k' (d1 ++ d2)%list). rewrite smem_app, Hk1. simpl.
      destruct (String.eqb k' k); [discriminate|exact Hk2].
Qed.

Lemma loop_kwargs (kws : dict pyval) (acc fields : dict pyval) :
  forallb kwarg_safe kws = true ->
  PyDict.wf String.eqb (acc ++ kws)%list = true ->
  _create_config_args_loop (map kwarg_item kws)
    {| ret_kwargs := acc; ret_fields := fields |}
  = Ok {| ret_kwargs := (acc ++ filter not_skipped kws)%list;
          ret_fields := fields |}.
Proof.
  revert acc. induction kws as [|[k v] kws IH]; intros acc Hs Hwf.
  - simpl. now rewrite app_nil_r.
  - cbn [forallb] in Hs. apply andb_true_iff in Hs. destruct Hs as [Hkv Hs].
    cbn [map _create_config_args_loop filter].
    rewrite (iter_kwarg _ _ Hkv). cbn [bind].
    destruct (wf_app_inv _ _ _ _ Hwf) as [Hfresh Hwf'].
    destruct (not_skipped (k, v)).
    + unfold set_kwarg. cbn [fst snd ret_kwargs ret_fields].
      rewrite (sset_fresh _ _ _ Hfresh).
      rewrite IH; [|exact Hs|now rewrite <- app_assoc].
      now rewrite <- app_assoc.
    + now apply IH.
Qed.

Lemma kwarg_item_no_comma (kv : string * pyval) :
  kwarg_safe kv = true -> PyStr.contains ", " (kwarg_item kv) = false.
Proof.
  destruct kv as [k v]. unfold kwarg_safe, kwarg_item. cbn [fst snd].
  intros H.
  apply andb_true_iff in H. destruct H as [H Hv].
  apply andb_true_iff in H. destruct H as [Hk _].
  apply plain_iff in Hk. destruct Hk as [Hk _].
  apply field_item_no_comma; [exact Hk|].
  destruct v as [|b|z|s]; try discriminate.
  - now destruct b.
  - apply (proj1 (plain_iff _) (str_int_plain z)).
  - apply andb_true_iff in Hv. destruct Hv as [Hv _].
    apply andb_true_iff in Hv. destruct Hv as [Hv _].
    now apply plain_iff in Hv.
Qed.

(** [_create_config_args] on the text of a safe configuration returns
    arguments from which the constructor builds that configuration. *)
Lemma create_config_args_str_Config (c : Config) :
  codec_safe c = true ->
  exists va,
    _create_config_args (str_Config c) = Ok va
    /\ Config_of va = without_skipped c.
Proof.
  unfold codec_safe. intros H.
  apply andb_true_iff in H. destruct H as [H Hwf].
  apply andb_true_iff in H. destruct H as [Hp Hk].
  apply plain_iff in Hp. destruct Hp as [Hp1 Hp2].
  unfold _create_config_args, str_Config.
  rewrite (split_join "," " " comma_neq_space).
  - rewrite <- !app_comm_cons, app_nil_l.
    cbn [_create_config_args_loop].
    rewrite (iter_pre_hook _ _ Hp2). cbn [bind].
    rewrite iter_int_field by reflexivity. cbn [bind].
    rewrite iter_int_field by reflexivity. cbn [bind].
    rewrite iter_int_field by reflexivity. cbn [bind].
    rewrite iter_bool_field. cbn [bind].
    rewrite iter_maxnreg. cbn [bind].
    unfold set_field. cbn [ret_kwargs ret_fields].
    fold kwarg_item.
    rewrite (loop_kwargs (kwargs c) [] _ Hk Hwf). cbn [app].
    eexists. split; [reflexivity|].
    unfold without_skipped, Config_of, arg_int. cbn.
    destruct c as [kw nw ns nc ews mr ph]. cbn.
    now destruct mr.
  - discriminate.
  - repeat constructor;
      try (apply field_item_no_comma; first
             [ reflexivity | exact Hp1
             | apply (proj1 (plain_iff _) (str_int_plain _))
             | apply (proj1 (plain_iff _) (str_bool_plain _))
             | apply (proj1 (plain_iff _) (str_option_int_plain _)) ]).
    apply Forall_forall. intros x Hx. apply in_map_iff in Hx.
    destruct Hx as [kv [<- Hin]]. apply kwarg_item_no_comma.
    apply (proj1 (forallb_forall _ _) Hk _ Hin).
Qed.

(** C1, as amended. For a configuration whose pre-hook text has
    neither delimiter and whose keyword arguments are safe (distinct
    names that are not declared fields and have no delimiter; integer or
    boolean values, or string values that have no delimiter and read
    neither as an integer nor as a boolean word), decoding the encoded
    text gives the configuration back, without the keyword arguments of
    the skip set. *)
Theorem config_codec_round_trip (c : Config) :
  codec_safe c = true ->
  decode_Config (str_Config c) = Ok (without_skipped c).
Proof.
  intros H. destruct (create_config_args_str_Config c H) as [va [Hva Hc]].
  unfold decode_Config. rewrite Hva. cbn [bind]. now rewrite Hc.
Qed.

(* ================================================================= *)
(** ** Dictionaries with string keys *)

Section DictLemmas.

Context {V : Type}.
Implicit Types (d : dict V) (k : string) (v : V).

Lemma sget_sset k' k v d :
  sget k' (sset k v d) = if String.eqb k' k then Some v else sget k' d.
Proof.
  unfold sget, sset.
  induction d as [|[k0 v0] d IH]; simpl.
  - reflexivity.
  - destruct (String.eqb_spec k k0) as [->|Hk]; simpl.
    + now destruct (String.eqb k' k0).
    + rewrite IH.
      destruct (String.eqb_spec k' k0) as [->|Hk']; [|reflexivity].
      destruct (String.eqb_spec k0 k); [congruence|reflexivity].
Qed.

Lemma sget_sset_eq k v d : sget k (sset k v d) = Some v.
Proof. now rewrite sget_sset, String.eqb_refl. Qed.

Lemma sget_sset_neq k' k v d :
  k' <> k -> sget k' (sset k v d) = sget k' d.
Proof.
  intros H. rewrite sget_sset.
  destruct (String.eqb_spec k' k); [congruence|reflexivity].
Qed.

Lemma smem_sset k' k v d :
  smem k' (sset k v d) = String.eqb k' k || smem k' d.
Proof.
  unfold smem, PyDict.mem. fold (@sget V). rewrite sget_sset.
  now destruct (String.eqb k' k).
Qed.

Lemma smem_sget k d :
  smem k d = match sget k d with Some _ => true | None => false end.
Proof. reflexivity. Qed.

Lemma sset_same k v d : sget k d = Some v -> sset k v d = d.
Proof.
  unfold sget, sset.
  induction d as [|[k0 v0] d IH]; simpl; [discriminate|].
  destruct (String.eqb k k0).
  - now intros [= ->].
  - intros H. now rewrite (IH H).
Qed.

Lemma keys_sset k v d :
  PyDict.keys (sset k v d)
  = if smem k d then PyDict.keys d else (PyDict.keys d ++ [k])%list.
Proof.
  unfold smem, sset, PyDict.mem, PyDict.keys.
  induction d as [|[k0 v0] d IH]; simpl; [reflexivity|].
  destruct (String.eqb k k0); simpl; [reflexivity|].
  rewrite IH. now destruct (PyDict.get String.eqb k d).
Qed.

Lemma in_list_keys k d : PyStr.in_list k (PyDict.keys d) = smem k d.
Proof.
  unfold PyStr.in_list, smem, PyDict.mem, PyDict.keys.
  induction d as [|[k0 v0] d IH]; simpl; [reflexivity|].
  destruct (String.eqb k k0); simpl; [reflexivity|exact IH].
Qed.

Lemma lookup_sget k d :
  PyDict.lookup String.eqb k d
  = match sget k d with Some v => Ok v | None => Err KeyError end.
Proof. reflexivity. Qed.

End DictLemmas.

(* ================================================================= *)
(** ** [__store__] *)

Section StoreLemmas.

Context {ext : Externals}.

Lemma with_index_same (w : World) :
  with_index w (fn_storage (self w)) (used_configs (self w)) = w.
Proof. now destruct w as [[] ?]. Qed.

Lemma store_iter_fn_storage (w : World) (k : string) :
  fn_storage (self (__store___iter w k)) = fn_storage (self w)
  /\ used_configs (self (__store___iter w k)) = used_configs (self w)
  /\ storage_path (self (__store___iter w k)) = storage_path (self w).
Proof.
  unfold __store___iter. now destruct (sget k (fn_storage (self w))).
Qed.

Lemma store_fold_self (ks : list string) (w : World) :
  fn_storage (self (fold_left __store___iter ks w)) = fn_storage (self w)
  /\ used_configs (self (fold_left __store___iter ks w)) = used_configs (self w)
  /\ storage_path (self (fold_left __store___iter ks w)) = storage_path (self w).
Proof.
  revert w. induction ks as [|k ks IH]; intros w; simpl; [auto|].
  destruct (IH (__store___iter w k)) as (-> & -> & ->).
  apply store_iter_fn_storage.
Qed.

Lemma store_fn_storage (w : World) :
  fn_storage (self (__store__ w)) = fn_storage (self w).
Proof. apply store_fold_self. Qed.

Lemma store_used_configs (w : World) :
  used_configs (self (__store__ w)) = used_configs (self w).
Proof. apply store_fold_self. Qed.

Lemma store_iter_disk (w : World) (k k' : string) :
  sget k' (disk (__store___iter w k))
  = if String.eqb k' k
    then match sget k (fn_storage (self w)) with
         | Some r => Some r
         | None => sget k' (disk w)
         end
    else sget k' (disk w).
Proof.
  unfold __store___iter.
  destruct (sget k (fn_storage (self w))) as [r|]; simpl.
  - apply sget_sset.
  - now destruct (String.eqb k' k).
Qed.

Lemma store_fold_disk (ks : list string) (w : World) (k : string) :
  sget k (disk (fold_left __store___iter ks w))
  = if PyStr.in_list k ks
    then match sget k (fn_storage (self w)) with
         | Some r => Some r
         | None => sget k (disk w)
         end
    else sget k (disk w).
Proof.
  revert w. induction ks as [|k0 ks IH]; intros w; simpl; [reflexivity|].
  rewrite IH. destruct (store_iter_fn_storage w k0) as (-> & _ & _).
  rewrite store_iter_disk.
  destruct (String.eqb_spec k k0) as [->|Hk]; simpl.
  - destruct (PyStr.in_list k0 ks); now destruct (sget k0 (fn_storage (self w))).
  - reflexivity.
Qed.

(** After [__store__] the file of every record of the index holds that
    record; the other files are as before. *)
Lemma store_disk (w : World) (k : string) :
  sget k (disk (__store__ w))
  = match sget k (fn_storage (self w)) with
    | Some r => Some r
    | None => sget k (disk w)
    end.
Proof.
  unfold __store__. rewrite store_fold_disk, in_list_keys, smem_sget.
  now destruct (sget k (fn_storage (self w))).
Qed.

End StoreLemmas.

(* ================================================================= *)
(** ** The loop of [add_autotuner_cache] *)

Section AddLoop.

Context {ext : Externals}.
Variables (configs_len : Z) (timings_arg : list (list pyval * timing))
          (repetitiont warmupt : number).

(** What one iteration does: nothing, or one new entry in both maps. *)
Lemma add_iter_cases (l l' : add_locals) (key : list pyval) (config : Config) :
  add_iter configs_len timings_arg repetitiont warmupt l key config = Ok l' ->
  (l' = l /\ passed_over (cache_json l) timings_arg key = true)
  \/ (passed_over (cache_json l) timings_arg key = false
      /\ exists nt,
           inf_in (values nt) = false
           /\ l' = {| cache_json :=
                        {| signature := signature (cache_json l);
                           total_bench_time_s :=
                             total_bench_time_s (cache_json l);
                           evaluated_configs := configs_len;
                           cache :=
                             sset (PyRepr.str_tuple key) (str_Config config)
                               (cache (cache_json l));
                           timings :=
                             sset (PyRepr.str_tuple key) nt
                               (timings (cache_json l)) |};
                      tmp_used_configs :=
                        append_new config (tmp_used_configs l);
                      changes_made := true |}).
Proof.
  unfold add_iter, passed_over, PyDict.lookup.
  destruct (smem (PyRepr.str_tuple key) (cache (cache_json l))) eqn:Hm.
  - intros [= <-]. now left.
  - destruct (PyDict.get tuple_eqb key timings_arg) as [t|]; [|discriminate].
    cbn [bind values orb]. fold (sample_of t).
    destruct (inf_in (sample_of t)) eqn:Hi.
    + intros [= <-]. now left.
    + intros [= <-]. right. split; [reflexivity|].
      eexists. split; [|reflexivity]. exact Hi.
Qed.

Lemma add_iter_passed_over (l : add_locals) (key : list pyval)
  (config : Config) :
  passed_over (cache_json l) timings_arg key = true ->
  add_iter configs_len timings_arg repetitiont warmupt l key config = Ok l.
Proof.
  unfold add_iter, passed_over, PyDict.lookup.
  destruct (smem (PyRepr.str_tuple key) (cache (cache_json l))); [reflexivity|].
  destruct (PyDict.get tuple_eqb key timings_arg) as [t|]; [|discriminate].
  cbn [bind values orb]. fold (sample_of t). now intros ->.
Qed.

(** A property of the locals that every iteration keeps holds when the
    loop ends, normally or not. *)
Lemma add_loop_invariant (P : add_locals -> Prop) :
  (forall l key config l',
      P l ->
      add_iter configs_len timings_arg repetitiont warmupt l key config = Ok l' ->
      P l') ->
  forall items l l' r,
    P l ->
    add_loop configs_len timings_arg repetitiont warmupt items l = (l', r) ->
    P l'.
Proof.
  intros Hstep items. induction items as [|[key config] items IH];
    intros l l' r Hl; simpl.
  - now intros [= <- _].
  - destruct (add_iter _ _ _ _ l key config) as [l1|e] eqn:E.
    + apply IH. now apply (Hstep l key config).
    + now intros [= <- _].
Qed.

Lemma add_loop_cache_entry (items : list (list pyval * Config))
  (l l' : add_locals) (r : result unit) (k v : string) :
  sget k (cache (cache_json l)) = Some v ->
  add_loop configs_len timings_arg repetitiont warmupt items l = (l', r) ->
  sget k (cache (cache_json l')) = Some v.
Proof.
  apply (add_loop_invariant
           (fun l => sget k (cache (cache_json l)) = Some v)).
  clear. intros l key config l' Hl H.
  apply add_iter_cases in H. destruct H as [[-> _]|[Hp [nt [_ ->]]]]; [exact Hl|].
  cbn [cache_json cache]. rewrite sget_sset.
  destruct (String.eqb_spec k (PyRepr.str_tuple key)) as [->|]; [|exact Hl].
  unfold passed_over in Hp. apply orb_false_iff in Hp. destruct Hp as [Hp _].
  rewrite smem_sget, Hl in Hp. discriminate.
Qed.

Lemma add_loop_keys_agree (items : list (list pyval * Config))
  (l l' : add_locals) (r : result unit) :
  keys_agree (cache_json l) ->
  add_loop configs_len timings_arg repetitiont warmupt items l = (l', r) ->
  keys_agree (cache_json l').
Proof.
  apply (add_loop_invariant (fun l => keys_agree (cache_json l))).
  clear. unfold keys_agree. intros l key config l' Hl H.
  apply add_iter_cases in H. destruct H as [[-> _]|[Hp [nt [_ ->]]]]; [exact Hl|].
  cbn [cache_json cache timings]. rewrite !keys_sset.
  assert (E : smem (PyRepr.str_tuple key) (timings (cache_json l))
              = smem (PyRepr.str_tuple key) (cache (cache_json l))).
  { rewrite <- !in_list_keys. now rewrite Hl. }
  rewrite E, Hl. reflexivity.
Qed.

Lemma Forall_sset {V} (P : V -> Prop) (k : string) (v : V) (d : dict V) :
  P v -> Forall (fun kv => P (snd kv)) d ->
  Forall (fun kv => P (snd kv)) (sset k v d).
Proof.
  intros Hv. unfold sset. induction d as [|[k0 v0] d IH]; simpl; intros H.
  - now constructor.
  - inversion H as [|? ? H0 Hd]; subst.
    destruct (String.eqb k k0); constructor; auto.
Qed.

Lemma Forall_sget {V} (P : V -> Prop) (k : string) (v : V) (d : dict V) :
  Forall (fun kv => P (snd kv)) d -> sget k d = Some v -> P v.
Proof.
  unfold sget. induction d as [|[k0 v0] d IH]; simpl; [discriminate|].
  intros H. inversion H as [|? ? H0 Hd]; subst.
  destruct (String.eqb k k0); [now intros [= <-]|now apply IH].
Qed.

Lemma add_loop_inf_free (items : list (list pyval * Config))
  (l l' : add_locals) (r : result unit) :
  inf_free (cache_json l) ->
  add_loop configs_len timings_arg repetitiont warmupt items l = (l', r) ->
  inf_free (cache_json l').
Proof.
  apply (add_loop_invariant (fun l => inf_free (cache_json l))).
  clear. unfold inf_free. intros l key config l' Hl H.
  apply add_iter_cases in H. destruct H as [[-> _]|[Hp [nt [Hnt ->]]]]; [exact Hl|].
  cbn [cache_json timings].
  now apply (Forall_sset (fun s => inf_in (values s) = false)).
Qed.

Lemma add_loop_total (items : list (list pyval * Config))
  (l l' : add_locals) (r : result unit) :
  add_loop configs_len timings_arg repetitiont warmupt items l = (l', r) ->
  total_bench_time_s (cache_json l') = total_bench_time_s (cache_json l).
Proof.
  apply (add_loop_invariant
           (fun x => total_bench_time_s (cache_json x)
                     = total_bench_time_s (cache_json l))); [|reflexivity].
  clear. intros l0 key config l' Hl H.
  apply add_iter_cases in H. destruct H as [[-> _]|[Hp [nt [_ ->]]]]; exact Hl.
Qed.

Lemma add_loop_changes_mono (items : list (list pyval * Config))
  (l l' : add_locals) (r : result unit) :
  changes_made l = true ->
  add_loop configs_len timings_arg repetitiont warmupt items l = (l', r) ->
  changes_made l' = true.
Proof.
  apply (add_loop_invariant (fun l => changes_made l = true)).
  clear. intros l key config l' Hl H.
  apply add_iter_cases in H. now destruct H as [[-> _]|[Hp [nt [_ ->]]]].
Qed.

(** If every key is passed over, the loop ends normally and has changed
    nothing. *)
Lemma add_loop_all_passed (items : list (list pyval * Config))
  (l : add_locals) :
  forallb (fun kc => passed_over (cache_json l) timings_arg (fst kc)) items
  = true ->
  add_loop configs_len timings_arg repetitiont warmupt items l = (l, Ok tt).
Proof.
  induction items as [|[key config] items IH]; simpl; [reflexivity|].
  intros H. apply andb_true_iff in H. destruct H as [Hk Hr].
  rewrite (add_iter_passed_over _ _ _ Hk). now apply IH.
Qed.

(** A loop that ends normally has made changes exactly when some key was
    not passed over. *)
Lemma add_loop_changes (items : list (list pyval * Config))
  (l l' : add_locals) :
  changes_made l = false ->
  add_loop configs_len timings_arg repetitiont warmupt items l = (l', Ok tt) ->
  changes_made l'
  = negb (forallb (fun kc => passed_over (cache_json l) timings_arg (fst kc))
            items).
Proof.
  intros Hl. induction items as [|[key config] items IH]; simpl.
  - intros [= <-]. now rewrite Hl.
  - destruct (add_iter _ _ _ _ l key config) as [l1|e] eqn:E; [|discriminate].
    destruct (add_iter_cases _ _ _ _ E) as [[-> Hp]|[Hp [nt [_ ->]]]].
    + cbn [fst]. rewrite Hp. exact IH.
    + cbn [fst]. rewrite Hp. cbn [andb negb]. intros H.
      now apply add_loop_changes_mono in H.
Qed.

(** The loop from unchanged locals: if the flag is still down at the end,
    the locals are as they were. *)
Lemma add_loop_unchanged (items : list (list pyval * Config))
  (l l' : add_locals) (r : result unit) :
  add_loop configs_len timings_arg repetitiont warmupt items l = (l', r) ->
  changes_made l' = false -> l' = l.
Proof.
  revert l. induction items as [|[key config] items IH]; intros l; simpl.
  - now intros [= <- _].
  - destruct (add_iter _ _ _ _ l key config) as [l1|e] eqn:E.
    + destruct (add_iter_cases _ _ _ _ E) as [[-> Hp]|[Hp [nt [_ ->]]]].
      * apply IH.
      * intros H Hc. apply add_loop_changes_mono in H; [congruence|reflexivity].
    + now intros [= <- _].
Qed.

Lemma append_new_deduped (config : Config) (l : list Config) :
  deduped l = true -> deduped (append_new config l) = true.
Proof.
  unfold append_new.
  destruct (existsb (fun c => Config_eqb c config) l) eqn:E; [auto|].
  induction l as [|c l IH]; simpl; [reflexivity|].
  simpl in E. apply orb_false_iff in E. destruct E as [E1 E2].
  intros H. apply andb_true_iff in H. destruct H as [H1 H2].
  rewrite (IH E2 H2), andb_true_r.
  rewrite existsb_app. simpl. rewrite E1, orb_false_r. exact H1.
Qed.

Lemma add_loop_deduped (items : list (list pyval * Config))
  (l l' : add_locals) (r : result unit) :
  deduped (tmp_used_configs l) = true ->
  add_loop configs_len timings_arg repetitiont warmupt items l = (l', r) ->
  deduped (tmp_used_configs l') = true.
Proof.
  apply (add_loop_invariant (fun l => deduped (tmp_used_configs l) = true)).
  clear. intros l key config l' Hl H.
  apply add_iter_cases in H. destruct H as [[-> _]|[Hp [nt [_ ->]]]]; [exact Hl|].
  now apply append_new_deduped.
Qed.

End AddLoop.

(* ================================================================= *)
(** ** [add_autotuner_cache] on the world *)

Ltac open_add :=
  unfold add_autotuner_cache;
  let name := fresh "name" in
  let e := fresh "e" in
  let Hname := fresh "Hname" in
  destruct (fn_name_of _) as [name|e] eqn:Hname;
  [ let l0 := fresh "l0" in
    let shared := fresh "shared" in
    let Hopen := fresh "Hopen" in
    destruct (add_open _ _ _ _) as [[l0 shared]|e] eqn:Hopen;
    [ let l := fresh "l" in
      let r := fresh "r" in
      let Hloop := fresh "Hloop" in
      destruct (add_loop _ _ _ _ _ l0) as [l r] eqn:Hloop
    | ]
  | ].

Section AddWorld.

Context {ext : Externals}.

Lemma add_open_spec (w : World) (fn : JITFunction) (configs_len : Z)
  (folder : string) (l0 : add_locals) (shared : bool) :
  add_open w fn configs_len folder = Ok (l0, shared) ->
  changes_made l0 = false
  /\ cache_json l0 = record_before w fn configs_len folder
  /\ if shared
     then sget folder (fn_storage (self w)) = Some (cache_json l0)
          /\ sget folder (used_configs (self w)) = Some (tmp_used_configs l0)
     else sget folder (fn_storage (self w)) = None
          /\ tmp_used_configs l0 = [].
Proof.
  unfold add_open, record_before. rewrite smem_sget, !lookup_sget.
  destruct (sget folder (fn_storage (self w))) as [r|]; cbn [negb bind].
  - destruct (sget folder (used_configs (self w))) as [u|]; [|discriminate].
    now intros [= <- <-].
  - now intros [= <- <-].
Qed.

(** Writing back a record and a list that the index already holds
    changes nothing. *)
Lemma shared_write_back (w : World) (folder : string) (l : add_locals) :
  sget folder (fn_storage (self w)) = Some (cache_json l) ->
  sget folder (used_configs (self w)) = Some (tmp_used_configs l) ->
  with_index w (sset folder (cache_json l) (fn_storage (self w)))
    (sset folder (tmp_used_configs l) (used_configs (self w))) = w.
Proof.
  intros H1 H2. rewrite (sset_same _ _ _ H1), (sset_same _ _ _ H2).
  apply with_index_same.
Qed.

Lemma store_records_satisfy (P : StorageRecord -> Prop) (w : World) :
  records_satisfy P w -> records_satisfy P (__store__ w).
Proof.
  unfold __store__. generalize (PyDict.keys (fn_storage (self w))) as ks.
  intros ks. revert w. induction ks as [|k ks IH]; intros w H; [exact H|].
  simpl. apply IH. destruct H as [H1 H2].
  unfold __store___iter.
  destruct (sget k (fn_storage (self w))) as [r|] eqn:E; [|now split].
  split; cbn [self disk fn_storage]; [exact H1|].
  apply Forall_sset; [|exact H2]. exact (Forall_sget P _ _ _ H1 E).
Qed.

Lemma add_records_satisfy (P : StorageRecord -> Prop) (w : World)
  (cache_arg : list (list pyval * Config)) (fn : JITFunction)
  (configs_hash key_hash param_hash : string) (configs_len : Z)
  (timings_arg : list (list pyval * timing))
  (repetitiont warmupt : number) (bench_time : float) :
  P (_get_cache_template fn configs_len) ->
  (forall r, P r -> P (bump bench_time r)) ->
  (forall l key config l',
      P (cache_json l) ->
      add_iter configs_len timings_arg repetitiont warmupt l key config = Ok l' ->
      P (cache_json l')) ->
  records_satisfy P w ->
  records_satisfy P
    (fst (add_autotuner_cache w cache_arg fn configs_hash key_hash param_hash
            configs_len timings_arg repetitiont warmupt bench_time)).
Proof.
  intros Ht Hb Hstep Hw. open_add; try exact Hw.
  destruct (add_open_spec _ _ _ _ _ _ Hopen) as (_ & Hrec & Hsh).
  assert (Hl0 : P (cache_json l0)).
  { destruct shared.
    - destruct Hsh as [Hs _]. exact (Forall_sget P _ _ _ (proj1 Hw) Hs).
    - rewrite Hrec. unfold record_before. destruct Hsh as [-> _]. exact Ht. }
  assert (Hl : P (cache_json l)).
  { apply (add_loop_invariant _ _ _ _ (fun x => P (cache_json x)) Hstep
             _ _ _ _ Hl0 Hloop). }
  match goal with
  | |- context [if shared then ?a else w] =>
      assert (Hw1 : records_satisfy P (if shared then a else w))
  end.
  { destruct shared; [|exact Hw]. destruct Hw as [H1 H2].
    split; cbn [with_index self disk fn_storage]; [|exact H2].
    now apply Forall_sset. }
  destruct r as [[]|e]; [|exact Hw1].
  destruct (changes_made l); [|exact Hw1].
  cbn [fst]. apply store_records_satisfy. destruct Hw1 as [H1 H2].
  split; cbn [with_index self disk fn_storage]; [|exact H2].
  apply Forall_sset; auto.
Qed.

End AddWorld.

Section AddClaims.

Context {ext : Externals}.

(** C2. First writer wins: an entry of a record's cache map is still
    there, with the value it had, after any call of
    [add_autotuner_cache], whatever the call was given and however it
    ended. And a result whose key is already in the cache map is
    discarded: the iteration for it leaves the record, the used
    configurations and the flag as they were. *)
Theorem add_never_overwrites :
  (forall (w : World) (folder key value : string)
          (cache_arg : list (list pyval * Config)) (fn : JITFunction)
          (configs_hash key_hash param_hash : string) (configs_len : Z)
          (timings_arg : list (list pyval * timing))
          (repetitiont warmupt : number) (bench_time : float),
      cache_entry w folder key = Some value ->
      cache_entry
        (fst (add_autotuner_cache w cache_arg fn configs_hash key_hash
                param_hash configs_len timings_arg repetitiont warmupt
                bench_time))
        folder key = Some value)
  /\ (forall (configs_len : Z) (timings_arg : list (list pyval * timing))
             (repetitiont warmupt : number) (l : add_locals)
             (key : list pyval) (config : Config),
         smem (PyRepr.str_tuple key) (cache (cache_json l)) = true ->
         add_iter configs_len timings_arg repetitiont warmupt l key config
         = Ok l).
Proof.
  split.
  2:{ intros configs_len timings_arg repetitiont warmupt l key config H.
      apply add_iter_passed_over. unfold passed_over. now rewrite H. }
  intros w folder key value cache_arg fn configs_hash key_hash param_hash
    configs_len timings_arg repetitiont warmupt bench_time H.
  open_add; try exact H.
  destruct (add_open_spec _ _ _ _ _ _ Hopen) as (_ & _ & Hsh).
  set (fld := _get_folder_name name (_wait_fn_hash fn) configs_hash key_hash
                param_hash) in *.
  unfold cache_entry in H.
  destruct (sget folder (fn_storage (self w))) as [rec|] eqn:Hrec;
    [|discriminate].
  assert (Hl : folder = fld -> sget key (cache (cache_json l)) = Some value).
  { intros ->. destruct shared.
    - destruct Hsh as [Hs _]. rewrite Hrec in Hs. injection Hs as ->.
      exact (add_loop_cache_entry _ _ _ _ _ _ _ _ _ _ H Hloop).
    - destruct Hsh as [Hs _]. congruence. }
  match goal with
  | |- context [if shared then ?a else w] =>
      assert (Hw1 : cache_entry (if shared then a else w) folder key
                    = Some value)
  end.
  { unfold cache_entry. destruct shared; [|now rewrite Hrec].
    cbn [with_index self fn_storage]. rewrite sget_sset.
    destruct (String.eqb_spec folder fld) as [E|E]; [auto|now rewrite Hrec]. }
  destruct r as [[]|e]; [|exact Hw1].
  destruct (changes_made l); [|exact Hw1].
  cbn [fst]. unfold cache_entry. rewrite store_fn_storage.
  cbn [with_index self fn_storage]. rewrite sget_sset.
  destruct (String.eqb_spec folder fld) as [E|E].
  - cbn [bump cache]. auto.
  - unfold cache_entry in Hw1. exact Hw1.
Qed.

(** C3, as amended. A runtime key whose sample holds [float("inf")]
    leaves the locals of the loop as they were: no entry in the cache
    map, none in the timings map, [evaluated_configs] and
    [total_bench_time_s] untouched. And no call of
    [add_autotuner_cache] stores a sample that holds [float("inf")]: if
    no record has one before the call, none has one after it. *)
Theorem inf_sample_never_stored :
  (forall (configs_len : Z) (timings_arg : list (list pyval * timing))
          (repetitiont warmupt : number) (l : add_locals)
          (key : list pyval) (config : Config) (t : timing),
      PyDict.get tuple_eqb key timings_arg = Some t ->
      inf_in (sample_of t) = true ->
      add_iter configs_len timings_arg repetitiont warmupt l key config = Ok l)
  /\ (forall (w : World) (cache_arg : list (list pyval * Config))
             (fn : JITFunction) (configs_hash key_hash param_hash : string)
             (configs_len : Z) (timings_arg : list (list pyval * timing))
             (repetitiont warmupt : number) (bench_time : float),
         records_satisfy inf_free w ->
         records_satisfy inf_free
           (fst (add_autotuner_cache w cache_arg fn configs_hash key_hash
                   param_hash configs_len timings_arg repetitiont warmupt
                   bench_time))).
Proof.
  split.
  - intros configs_len timings_arg repetitiont warmupt l key config t Ht Hi.
    apply add_iter_passed_over. unfold passed_over. rewrite Ht, Hi.
    apply orb_true_r.
  - intros. apply add_records_satisfy; try assumption.
    + constructor.
    + intros r Hr. exact Hr.
    + intros l key config l' Hl Hi.
      eapply (add_loop_inf_free configs_len timings_arg repetitiont warmupt
                [(key, config)] l l' (Ok tt) Hl).
      simpl. now rewrite Hi.
Qed.

(** C5. The empty template has no key in either map, and every call of
    [add_autotuner_cache] keeps the invariant that in every record the
    cache map and the timings map have the same keys. *)
Theorem cache_timings_same_keys :
  (forall (fn : JITFunction) (configs_len : Z),
      keys_agree (_get_cache_template fn configs_len))
  /\ (forall (w : World) (cache_arg : list (list pyval * Config))
             (fn : JITFunction) (configs_hash key_hash param_hash : string)
             (configs_len : Z) (timings_arg : list (list pyval * timing))
             (repetitiont warmupt : number) (bench_time : float),
         records_satisfy keys_agree w ->
         records_satisfy keys_agree
           (fst (add_autotuner_cache w cache_arg fn configs_hash key_hash
                   param_hash configs_len timings_arg repetitiont warmupt
                   bench_time))).
Proof.
  split.
  - reflexivity.
  - intros. apply add_records_satisfy; try assumption.
    + reflexivity.
    + intros r Hr. exact Hr.
    + intros l key config l' Hl Hi.
      eapply (add_loop_keys_agree configs_len timings_arg repetitiont warmupt
                [(key, config)] l l' (Ok tt) Hl).
      simpl. now rewrite Hi.
Qed.

(** C8, as amended. Let [r0] be the record the call starts from. If
    every key of the results is passed over (it is in the cache map of
    [r0], or its sample holds [float("inf")]), the call changes nothing:
    not the index, not [total_bench_time_s], not the disk. If the call
    returns and some key was not passed over, the record's
    [total_bench_time_s] is that of [r0] plus [bench_time] and every
    record of the index is on disk. *)
Theorem add_changes_iff_key_added (w : World)
  (cache_arg : list (list pyval * Config)) (fn : JITFunction)
  (configs_hash key_hash param_hash : string) (configs_len : Z)
  (timings_arg : list (list pyval * timing))
  (repetitiont warmupt : number) (bench_time : float)
  (folder : string) :
  folder_of fn configs_hash key_hash param_hash = Ok folder ->
  let r0 := record_before w fn configs_len folder in
  let all_passed :=
    forallb (fun kc => passed_over r0 timings_arg (fst kc)) cache_arg in
  let out :=
    add_autotuner_cache w cache_arg fn configs_hash key_hash param_hash
      configs_len timings_arg repetitiont warmupt bench_time in
  (all_passed = true -> fst out = w)
  /\ (all_passed = false -> snd out = Ok tt ->
      (exists r', sget folder (fn_storage (self (fst out))) = Some r'
                  /\ total_bench_time_s r'
                     = PrimFloat.add (total_bench_time_s r0) bench_time)
      /\ flushed (fst out)).
Proof.
  intros Hf r0 all_passed out. unfold folder_of in Hf. subst out.
  open_add; [| |discriminate].
  - cbn [bind] in Hf. injection Hf as Hf.
    rewrite Hf in Hopen |- *.
    destruct (add_open_spec _ _ _ _ _ _ Hopen) as (Hc0 & Hrec & Hsh).
    fold r0 in Hrec.
    split.
    + intros Hall. subst all_passed. rewrite <- Hrec in Hall.
      rewrite (add_loop_all_passed _ _ _ _ _ _ Hall) in Hloop.
      injection Hloop as <- <-. rewrite Hc0.
      destruct shared; [|reflexivity].
      destruct Hsh as [H1 H2]. cbn [fst].
      now apply shared_write_back.
    + intros Hall Hok. destruct r as [[]|e]; [|discriminate].
      subst all_passed. rewrite <- Hrec in Hall.
      rewrite (add_loop_changes _ _ _ _ _ _ _ Hc0 Hloop), Hall. cbn [negb fst].
      split.
      * exists (bump bench_time (cache_json l)).
        rewrite store_fn_storage. cbn [with_index self fn_storage].
        rewrite sget_sset_eq. split; [reflexivity|].
        cbn [bump total_bench_time_s].
        now rewrite (add_loop_total _ _ _ _ _ _ _ _ Hloop), Hrec.
      * intros f r' Hr'. rewrite store_disk.
        rewrite store_fn_storage in Hr'. now rewrite Hr'.
  - cbn [bind] in Hf. split; [reflexivity|discriminate].
Qed.

(** The theorem above speaks of calls that return. A call that raises
    after it stored a key in a record of the index has changed that
    record, which the index shares with the loop, without adding the
    benchmark time and without writing the file. *)
Lemma add_raises_after_storing :
  let w := fst demo_add in
  let out :=
    @add_autotuner_cache demo_ext w
      [([VInt 8], demo_config); ([VInt 9], demo_config)] demo_fn "cfgA"
      "keyA" "parA" 2 [([VInt 8], TFloat 2%float)] (NInt 10) (NInt 5)
      0.25%float in
  snd out = Err KeyError
  /\ cache_entry w demo_folder "(8,)" = None
  /\ cache_entry (fst out) demo_folder "(8,)" = Some (str_Config demo_config)
  /\ option_map total_bench_time_s
       (sget demo_folder (fn_storage (self (fst out)))) = Some 0.5%float
  /\ disk (fst out) = disk w.
Proof. vm_compute. repeat split. Qed.

End AddClaims.

(* ================================================================= *)
(** ** [restore_autotuner_cache] *)

Ltac open_restore :=
  unfold restore_autotuner_cache;
  let name := fresh "name" in
  let e := fresh "e" in
  let Hname := fresh "Hname" in
  destruct (fn_name_of _) as [name|e] eqn:Hname;
  [ let rcd := fresh "rec" in
    let Hdisk := fresh "Hdisk" in
    destruct (sget _ (disk _)) as [rcd|] eqn:Hdisk
  | ].

Section RestoreLemmas.

Context {ext : Externals}.

Lemma set_nonempty {K V} (eqb : K -> K -> bool) (k : K) (v : V)
  (d : list (K * V)) : PyDict.set eqb k v d <> [].
Proof.
  destruct d as [|[k0 v0] d]; simpl; [discriminate|].
  destruct (eqb k k0); discriminate.
Qed.

Lemma restore_loop_nonempty (items : list (string * string))
  (ret ret' : list (list pyval * Config)) (tmp tmp' : list Config) :
  restore_loop items ret tmp = Ok (ret', tmp') ->
  ret <> [] -> ret' <> [].
Proof.
  revert ret tmp. induction items as [|[k v] items IH]; intros ret tmp; simpl.
  - now intros [= <- _].
  - destruct (_create_tuple k) as [kt|]; [|discriminate].
    destruct (_create_config_args v) as [va|]; [|discriminate].
    cbn [bind]. intros H _. apply (IH _ _ H). apply set_nonempty.
Qed.

Lemma restore_loop_empty (items : list (string * string))
  (tmp' : list Config) :
  restore_loop items [] [] = Ok ([], tmp') -> items = [].
Proof.
  destruct items as [|[k v] items]; [reflexivity|]. simpl.
  destruct (_create_tuple k) as [kt|]; [|discriminate].
  destruct (_create_config_args v) as [va|]; [|discriminate].
  cbn [bind]. intros H. apply restore_loop_nonempty in H; [congruence|].
  apply (set_nonempty tuple_eqb kt (Config_of va) []).
Qed.

Lemma restore_loop_deduped (items : list (string * string))
  (ret ret' : list (list pyval * Config)) (tmp tmp' : list Config) :
  restore_loop items ret tmp = Ok (ret', tmp') ->
  deduped tmp = true -> deduped tmp' = true.
Proof.
  revert ret tmp. induction items as [|[k v] items IH]; intros ret tmp; simpl.
  - now intros [= _ <-].
  - destruct (_create_tuple k) as [kt|]; [|discriminate].
    destruct (_create_config_args v) as [va|]; [|discriminate].
    cbn [bind]. intros H Hd. apply (IH _ _ H).
    now apply append_new_deduped.
Qed.

(** What a restore that returns leaves behind. *)
Lemma restore_returns (w : World) (fn : JITFunction)
  (configs_hash key_hash param_hash : string)
  (ret : list (list pyval * Config)) :
  snd (restore_autotuner_cache w fn configs_hash key_hash param_hash) = Ok ret ->
  exists folder rec used,
    folder_of fn configs_hash key_hash param_hash = Ok folder
    /\ restore_loop (cache rec) [] [] = Ok (ret, used)
    /\ let w' :=
         fst (restore_autotuner_cache w fn configs_hash key_hash param_hash) in
       sget folder (fn_storage (self w')) = Some rec
       /\ sget folder (used_configs (self w')) = Some used
       /\ sget folder (disk w') = Some rec
       /\ used_configs (self w')
          = sset folder used (used_configs (self w)).
Proof.
  unfold folder_of. open_restore; [| |discriminate].
  - destruct (restore_loop (cache rec) [] []) as [[ret0 used]|e] eqn:Hloop;
      [|discriminate].
    cbn [snd fst]. intros [= ->]. eexists _, rec, used.
    split; [reflexivity|]. split; [exact Hloop|].
    cbn [with_index self fn_storage used_configs disk].
    rewrite !sget_sset_eq. repeat split; try assumption.
  - cbn [snd fst]. intros [= <-].
    eexists _, (_get_cache_template fn 0), [].
    split; [reflexivity|]. split; [reflexivity|].
    cbn zeta. rewrite store_fn_storage, store_used_configs, store_disk.
    cbn [with_index self fn_storage used_configs disk].
    rewrite !sget_sset_eq. repeat split.
Qed.

Lemma restore_found (w : World) (fn : JITFunction)
  (configs_hash key_hash param_hash folder : string) (rec : StorageRecord) :
  folder_of fn configs_hash key_hash param_hash = Ok folder ->
  sget folder (disk w) = Some rec ->
  snd (restore_autotuner_cache w fn configs_hash key_hash param_hash)
  = match restore_loop (cache rec) [] [] with
    | Ok (ret, _) => Ok ret
    | Err e => Err e
    end
  /\ disk (fst (restore_autotuner_cache w fn configs_hash key_hash param_hash))
     = disk w.
Proof.
  unfold folder_of, restore_autotuner_cache.
  destruct (fn_name_of fn) as [name|e]; [|discriminate].
  cbn [bind]. intros [= ->] ->.
  destruct (restore_loop (cache rec) [] []) as [[ret used]|e]; now split.
Qed.

Lemma restore_missing (w : World) (fn : JITFunction)
  (configs_hash key_hash param_hash folder : string) :
  folder_of fn configs_hash key_hash param_hash = Ok folder ->
  sget folder (disk w) = None ->
  snd (restore_autotuner_cache w fn configs_hash key_hash param_hash) = Ok []
  /\ sget folder
       (disk (fst (restore_autotuner_cache w fn configs_hash key_hash
                     param_hash)))
     = Some (_get_cache_template fn 0).
Proof.
  unfold folder_of, restore_autotuner_cache.
  destruct (fn_name_of fn) as [name|e]; [|discriminate].
  cbn [bind]. intros [= ->] ->. cbn [fst snd]. split; [reflexivity|].
  rewrite store_disk. cbn [with_index self fn_storage].
  now rewrite sget_sset_eq.
Qed.

Lemma restore_no_folder (w : World) (fn : JITFunction)
  (configs_hash key_hash param_hash : string) (e : exn) :
  folder_of fn configs_hash key_hash param_hash = Err e ->
  restore_autotuner_cache w fn configs_hash key_hash param_hash = (w, Err e).
Proof.
  unfold folder_of, restore_autotuner_cache.
  destruct (fn_name_of fn) as [name|e']; [discriminate|].
  cbn [bind]. now intros [= ->].
Qed.

Lemma restore_records_satisfy (P : StorageRecord -> Prop) (w : World)
  (fn : JITFunction) (configs_hash key_hash param_hash : string) :
  P (_get_cache_template fn 0) ->
  records_satisfy P w ->
  records_satisfy P
    (fst (restore_autotuner_cache w fn configs_hash key_hash param_hash)).
Proof.
  intros Ht Hw. open_restore; [| |exact Hw].
  - assert (Hrec : P rec) by exact (Forall_sget P _ _ _ (proj2 Hw) Hdisk).
    destruct Hw as [H1 H2].
    destruct (restore_loop (cache rec) [] []) as [[ret used]|e];
      (split; cbn [fst with_index self disk fn_storage]; [|exact H2]);
      now apply Forall_sset.
  - cbn [fst]. apply store_records_satisfy. destruct Hw as [H1 H2].
    split; cbn [with_index self disk fn_storage]; [|exact H2].
    now apply Forall_sset.
Qed.

End RestoreLemmas.

Section RestoreClaims.

Context {ext : Externals}.

(** C7. Two calls of [restore_autotuner_cache] for one identity, with
    no add between them, return the same thing, and the second call
    leaves the disk as the first left it. When the file was missing, the
    first call returns the empty mapping and writes the empty template to
    that file. *)
Theorem restore_twice (w : World) (fn : JITFunction)
  (configs_hash key_hash param_hash : string) :
  let first :=
    restore_autotuner_cache w fn configs_hash key_hash param_hash in
  let second :=
    restore_autotuner_cache (fst first) fn configs_hash key_hash param_hash in
  snd second = snd first
  /\ disk (fst second) = disk (fst first)
  /\ (forall folder,
         folder_of fn configs_hash key_hash param_hash = Ok folder ->
         sget folder (disk w) = None ->
         snd first = Ok []
         /\ sget folder (disk (fst first))
            = Some (_get_cache_template fn 0)).
Proof.
  cbn zeta.
  destruct (folder_of fn configs_hash key_hash param_hash) as [folder|e]
    eqn:Hf.
  - destruct (sget folder (disk w)) as [rec|] eqn:Hdisk.
    + destruct (restore_found w _ _ _ _ _ _ Hf Hdisk) as [H1 H2].
      rewrite <- H2 in Hdisk.
      destruct (restore_found _ _ _ _ _ _ _ Hf Hdisk) as [H3 H4].
      rewrite H1, H3, H4. split; [reflexivity|split; [reflexivity|]].
      intros f [= <-]. rewrite H2 in Hdisk. congruence.
    + destruct (restore_missing w _ _ _ _ _ Hf Hdisk) as [H1 H2].
      destruct (restore_found _ _ _ _ _ _ _ Hf H2) as [H3 H4].
      rewrite H1, H3, H4. split; [reflexivity|split; [reflexivity|]].
      intros f [= <-] _. split; [reflexivity|exact H2].
  - rewrite (restore_no_folder w _ _ _ _ _ Hf). cbn [fst snd].
    rewrite (restore_no_folder w _ _ _ _ _ Hf).
    split; [reflexivity|split; [reflexivity|discriminate]].
Qed.

End RestoreClaims.

(* ================================================================= *)
(** ** The end-to-end scenario *)

Section EndToEnd.

Context {ext : Externals}.

Lemma folder_of_name (fn : JITFunction)
  (configs_hash key_hash param_hash folder : string) :
  folder_of fn configs_hash key_hash param_hash = Ok folder ->
  exists name,
    fn_name_of fn = Ok name
    /\ folder = _get_folder_name name (_wait_fn_hash fn) configs_hash key_hash
                  param_hash.
Proof.
  unfold folder_of. destruct (fn_name_of fn) as [name|]; [|discriminate].
  cbn [bind]. intros [= <-]. now exists name.
Qed.

(** An add of one new key with one finite measurement, for a record that
    is in the index. *)
Lemma add_one_key (w : World) (fn : JITFunction)
  (configs_hash key_hash param_hash folder : string) (configs_len : Z)
  (key : list pyval) (c : Config) (t : float)
  (repetitiont warmupt : number) (bench_time : float)
  (rec : StorageRecord) (used : list Config) :
  folder_of fn configs_hash key_hash param_hash = Ok folder ->
  sget folder (fn_storage (self w)) = Some rec ->
  sget folder (used_configs (self w)) = Some used ->
  smem (PyRepr.str_tuple key) (cache rec) = false ->
  tuple_eqb key key = true ->
  PrimFloat.eqb t infinity = false ->
  let out :=
    add_autotuner_cache w [(key, c)] fn configs_hash key_hash param_hash
      configs_len [(key, TFloat t)] repetitiont warmupt bench_time in
  snd out = Ok tt
  /\ exists rec',
       sget folder (disk (fst out)) = Some rec'
       /\ cache rec' = sset (PyRepr.str_tuple key) (str_Config c) (cache rec).
Proof.
  intros Hf Hrec Hused Hfresh Hkey Ht out. subst out.
  destruct (folder_of_name _ _ _ _ _ Hf) as [name [Hname ->]].
  unfold add_autotuner_cache. rewrite Hname.
  unfold add_open. rewrite smem_sget, !lookup_sget, Hrec, Hused.
  cbn [negb bind add_loop]. unfold add_iter. cbn [cache_json].
  rewrite Hfresh. unfold PyDict.lookup. cbn [PyDict.get]. rewrite Hkey.
  unfold inf_in. cbn [bind values existsb]. rewrite Ht.
  cbn [orb changes_made snd fst].
  split; [reflexivity|].
  eexists. rewrite store_disk. cbn [with_index self fn_storage].
  rewrite sget_sset_eq. split; reflexivity.
Qed.

(** C6, as amended. After a restore that returns the empty mapping, an
    add of the single result [(4, 4)] with a finite measurement returns,
    and the next restore for the same identity returns one entry: its key
    is the tuple of the two strings ['4'], and its value is the
    configuration as the decoder reads it back. *)
Theorem end_to_end_restore (w : World) (fn : JITFunction)
  (configs_hash key_hash param_hash : string) (configs_len : Z)
  (c : Config) (t : float) (repetitiont warmupt : number)
  (bench_time : float) :
  codec_safe c = true ->
  PrimFloat.eqb t infinity = false ->
  let r1 := restore_autotuner_cache w fn configs_hash key_hash param_hash in
  snd r1 = Ok [] ->
  let r2 :=
    add_autotuner_cache (fst r1) [([VInt 4; VInt 4], c)] fn configs_hash
      key_hash param_hash configs_len [([VInt 4; VInt 4], TFloat t)]
      repetitiont warmupt bench_time in
  let r3 :=
    restore_autotuner_cache (fst r2) fn configs_hash key_hash param_hash in
  snd r2 = Ok tt
  /\ snd r3 = Ok [([VStr "4"; VStr "4"], without_skipped c)].
Proof.
  intros Hc Ht r1 H1 r2 r3.
  destruct (restore_returns _ _ _ _ _ _ H1)
    as (folder & rec & used & Hf & Hloop & Hfs & Huc & _).
  fold r1 in Hfs, Huc. cbn zeta in Hfs, Huc.
  apply restore_loop_empty in Hloop.
  destruct (add_one_key (fst r1) fn configs_hash key_hash param_hash folder
              configs_len [VInt 4; VInt 4] c t repetitiont warmupt bench_time
              rec used Hf Hfs Huc)
    as [H2 [rec' [Hd Hcache]]]; try reflexivity.
  { now rewrite Hloop. }
  { exact Ht. }
  fold r2 in H2, Hd. split; [exact H2|].
  destruct (restore_found _ _ _ _ _ _ _ Hf Hd) as [H3 _].
  fold r3 in H3. rewrite H3, Hcache, Hloop.
  destruct (create_config_args_str_Config c Hc) as [va [Hva Hcfg]].
  change (sset (PyRepr.str_tuple [VInt 4; VInt 4]) (str_Config c) [])
    with [("(4, 4)", str_Config c)].
  cbn [restore_loop].
  change (_create_tuple "(4, 4)") with (Ok [VStr "4"; VStr "4"]).
  rewrite Hva. cbn [bind restore_loop PyDict.set]. now rewrite Hcfg.
Qed.

End EndToEnd.

(* ================================================================= *)
(** ** Used configurations along the calls of a process *)

Section UsedConfigs.

Context {ext : Externals}.

Lemma deduped_sset (k : string) (u : list Config) (d : dict (list Config)) :
  deduped u = true ->
  Forall (fun kv => deduped (snd kv) = true) d ->
  Forall (fun kv => deduped (snd kv) = true) (sset k u d).
Proof. apply (Forall_sset (fun u => deduped u = true)). Qed.

Lemma restore_step (w w' : World) (fn : JITFunction)
  (configs_hash key_hash param_hash : string) :
  exec w (CallRestore fn configs_hash key_hash param_hash) = (w', Ok tt) ->
  used_deduped w ->
  used_deduped w'
  /\ forall folder,
       smem folder (used_configs (self w'))
       = smem folder (used_configs (self w))
         || establishes w (CallRestore fn configs_hash key_hash param_hash) folder.
Proof.
  unfold exec.
  destruct (restore_autotuner_cache w fn configs_hash key_hash param_hash)
    as [w1 r] eqn:E.
  destruct r as [ret|e]; [|discriminate]. cbn [bind]. intros [= <-] Hw.
  assert (Hs : snd (restore_autotuner_cache w fn configs_hash key_hash
                      param_hash) = Ok ret) by now rewrite E.
  destruct (restore_returns _ _ _ _ _ _ Hs)
    as (folder0 & rec & used & Hf & Hloop & _ & _ & _ & Huc).
  rewrite E in Huc. cbn [fst] in Huc. unfold used_deduped. rewrite Huc. split.
  - apply deduped_sset; [|exact Hw].
    exact (restore_loop_deduped _ _ _ _ _ Hloop eq_refl).
  - intros folder. rewrite smem_sset. cbn [establishes calls_for].
    rewrite Hf, (String.eqb_sym folder0 folder). apply orb_comm.
Qed.

Lemma add_step (w w' : World)
  (cache_arg : list (list pyval * Config)) (fn : JITFunction)
  (configs_hash key_hash param_hash : string) (configs_len : Z)
  (timings_arg : list (list pyval * timing))
  (repetitiont warmupt : number) (bench_time : float) :
  exec w (CallAdd cache_arg fn configs_hash key_hash param_hash configs_len
            timings_arg repetitiont warmupt bench_time) = (w', Ok tt) ->
  used_deduped w ->
  used_deduped w'
  /\ forall folder,
       smem folder (used_configs (self w'))
       = smem folder (used_configs (self w))
         || establishes w
              (CallAdd cache_arg fn configs_hash key_hash param_hash configs_len
                 timings_arg repetitiont warmupt bench_time) folder.
Proof.
  cbn [exec establishes calls_for]. unfold folder_of.
  open_add; [| discriminate | discriminate].
  cbn [bind].
  set (fld := _get_folder_name name (_wait_fn_hash fn) configs_hash key_hash
                param_hash) in *.
  destruct (add_open_spec _ _ _ _ _ _ Hopen) as (Hc0 & Hrec & Hsh).
  destruct r as [[]|e]; [|discriminate].
  pose proof (add_loop_changes _ _ _ _ _ _ _ Hc0 Hloop) as Hch.
  rewrite Hrec in Hch.
  intros Hout Hw.
  assert (Hded : deduped (tmp_used_configs l) = true).
  { refine (add_loop_deduped _ _ _ _ _ _ _ _ _ Hloop).
    destruct shared.
    - destruct Hsh as [_ Hu].
      exact (Forall_sget (fun u => deduped u = true) _ _ _ Hw Hu).
    - destruct Hsh as [_ ->]. reflexivity. }
  assert (Hest : forall folder,
             String.eqb fld folder
             && negb (forallb
                        (fun kc =>
                           passed_over (record_before w fn configs_len folder)
                             timings_arg (fst kc)) cache_arg)
             = String.eqb fld folder && changes_made l).
  { intros folder. destruct (String.eqb_spec fld folder) as [<-|]; [|reflexivity].
    now rewrite Hch. }
  destruct shared.
  - destruct Hsh as [Hs Hu].
    assert (Hm : forall folder u (d : dict (list Config)),
               smem fld d = true -> smem folder (sset fld u d) = smem folder d).
    { intros folder u d Hd. rewrite smem_sset.
      destruct (String.eqb_spec folder fld) as [->|]; [|reflexivity].
      now rewrite Hd. }
    assert (Hin : smem fld (used_configs (self w)) = true)
      by now rewrite smem_sget, Hu.
    assert (Hgoal : forall folder,
               smem folder (used_configs (self w))
               = smem folder (used_configs (self w))
                 || String.eqb fld folder && changes_made l).
    { intros folder. destruct (String.eqb_spec fld folder) as [<-|].
      - now rewrite smem_sget, Hu.
      - now rewrite orb_false_r. }
    destruct (changes_made l); injection Hout as <-.
    + split.
      * unfold used_deduped. rewrite store_used_configs.
        cbn [with_index self used_configs].
        apply deduped_sset; [exact Hded|]. apply deduped_sset; [exact Hded|exact Hw].
      * intros folder. rewrite store_used_configs.
        cbn [with_index self used_configs].
        rewrite Hm, Hm, Hest; [apply Hgoal|exact Hin|].
        now rewrite smem_sset, String.eqb_refl.
    + split.
      * unfold used_deduped. cbn [with_index self used_configs].
        apply deduped_sset; [exact Hded|exact Hw].
      * intros folder. cbn [with_index self used_configs].
        rewrite Hm, Hest; [apply Hgoal|exact Hin].
  - destruct (changes_made l); injection Hout as <-.
    + split.
      * unfold used_deduped. rewrite store_used_configs.
        cbn [with_index self used_configs].
        apply deduped_sset; [exact Hded|exact Hw].
      * intros folder. rewrite store_used_configs.
        cbn [with_index self used_configs].
        rewrite smem_sset, Hest, (String.eqb_sym fld folder), andb_true_r.
        apply orb_comm.
    + split; [exact Hw|].
      intros folder. now rewrite Hest, andb_false_r, orb_false_r.
Qed.

Lemma run_used (cs : list call) (w w' : World) :
  run w cs = Ok w' ->
  used_deduped w ->
  used_deduped w'
  /\ forall folder,
       smem folder (used_configs (self w'))
       = smem folder (used_configs (self w)) || established w cs folder.
Proof.
  revert w. induction cs as [|c cs IH]; intros w; simpl.
  - intros [= <-] Hw. split; [exact Hw|]. intros. now rewrite orb_false_r.
  - destruct (exec w c) as [w1 r] eqn:E. destruct r as [[]|e]; [|discriminate].
    intros Hrun Hw. cbn [fst].
    assert (Hstep : used_deduped w1
                    /\ forall folder,
                         smem folder (used_configs (self w1))
                         = smem folder (used_configs (self w))
                           || establishes w c folder).
    { destruct c; [now apply restore_step|now apply add_step]. }
    destruct Hstep as [Hw1 Hs1].
    destruct (IH w1 Hrun Hw1) as [Hw' Hs']. split; [exact Hw'|].
    intros folder. now rewrite Hs', Hs1, orb_assoc.
Qed.

(** The two invariants of the records hold along the calls of a
    process. *)
Lemma run_records_satisfy (P : StorageRecord -> Prop) (cs : list call)
  (w w' : World) :
  (forall fn n, P (_get_cache_template fn n)) ->
  (forall b r, P r -> P (bump b r)) ->
  (forall n t rep warm l key config l',
      P (cache_json l) -> add_iter n t rep warm l key config = Ok l' ->
      P (cache_json l')) ->
  records_satisfy P w ->
  run w cs = Ok w' ->
  records_satisfy P w'.
Proof.
  intros Ht Hb Hstep. revert w. induction cs as [|c cs IH]; intros w Hw; simpl.
  - now intros [= <-].
  - destruct (exec w c) as [w1 r] eqn:E. destruct r as [[]|e]; [|discriminate].
    intros Hrun. apply (IH w1); [|exact Hrun].
    replace w1 with (fst (exec w c)) by now rewrite E.
    destruct c; cbn [exec].
    + pose proof (restore_records_satisfy P w fn configs_hash key_hash
                    param_hash (Ht fn 0%Z) Hw) as H.
      now destruct (restore_autotuner_cache w fn configs_hash key_hash
                      param_hash).
    + apply add_records_satisfy; auto. apply Hstep.
Qed.

Lemma run_keys_agree (cs : list call) (w w' : World) :
  records_satisfy keys_agree w -> run w cs = Ok w' ->
  records_satisfy keys_agree w'.
Proof.
  apply run_records_satisfy.
  - reflexivity.
  - intros b r Hr. exact Hr.
  - intros n t rep warm l key config l' Hl Hi.
    eapply (add_loop_keys_agree n t rep warm [(key, config)] l l' (Ok tt) Hl).
    simpl. now rewrite Hi.
Qed.

Lemma run_inf_free (cs : list call) (w w' : World) :
  records_satisfy inf_free w -> run w cs = Ok w' ->
  records_satisfy inf_free w'.
Proof.
  apply run_records_satisfy.
  - constructor.
  - intros b r Hr. exact Hr.
  - intros n t rep warm l key config l' Hl Hi.
    eapply (add_loop_inf_free n t rep warm [(key, config)] l l' (Ok tt) Hl).
    simpl. now rewrite Hi.
Qed.

(** C9, as amended. In a process that has built its storage and made
    the calls [cs], [get_used_configs] for an identity returns a list
    without duplicates if one of the calls was a restore for the folder
    of that identity, or an add for it that stored at least one key; it
    raises [KeyError] otherwise. *)
Theorem used_configs_lookup (s : DejavuStorage) (d : dict StorageRecord)
  (cs : list call) (w : World) (fn : JITFunction)
  (configs_hash key_hash param_hash folder : string) :
  __init__ = Ok s ->
  run {| self := s; disk := d |} cs = Ok w ->
  folder_of fn configs_hash key_hash param_hash = Ok folder ->
  if established {| self := s; disk := d |} cs folder
  then exists l,
         get_used_configs w fn configs_hash key_hash param_hash = Ok l
         /\ deduped l = true
  else get_used_configs w fn configs_hash key_hash param_hash = Err KeyError.
Proof.
  intros Hinit Hrun Hf.
  assert (Huc : used_configs s = []).
  { unfold __init__ in Hinit.
    destruct (String.eqb _ "none"); [discriminate|]. now injection Hinit as <-. }
  assert (H0 : used_deduped {| self := s; disk := d |}).
  { unfold used_deduped. cbn [self]. rewrite Huc. constructor. }
  destruct (run_used _ _ _ Hrun H0) as [Hw Hs].
  specialize (Hs folder). cbn [self] in Hs. rewrite Huc in Hs.
  change (smem folder (@nil (string * list Config))) with false in Hs.
  cbn [orb] in Hs. rewrite <- Hs.
  destruct (folder_of_name _ _ _ _ _ Hf) as [name [Hname ->]].
  unfold get_used_configs. rewrite Hname. cbn [bind].
  rewrite lookup_sget, smem_sget.
  destruct (sget _ (used_configs (self w))) as [l|] eqn:El; [|reflexivity].
  exists l. split; [reflexivity|].
  exact (Forall_sget (fun u => deduped u = true) _ _ _ Hw El).
Qed.

End UsedConfigs.

(* ================================================================= *)
(** ** The storage root *)

(** C10. Built with the storage root variable set to the text [none],
    [DejavuStorage] raises the exception it raises when the variable is
    not set. *)
Theorem init_none_is_unset (ext_none ext_unset : Externals) :
  sget __storage_env_var__ (@environ ext_none) = Some "none" ->
  sget __storage_env_var__ (@environ ext_unset) = None ->
  @__init__ ext_none
  = Err (Exception
           "[triton-dejavu] The environment variable TRITON_DEJAVU_STORAGE must be set for triton-dejavu!")
  /\ @__init__ ext_none = @__init__ ext_unset.
Proof.
  intros H1 H2. unfold __init__. rewrite H1, H2. split; reflexivity.
Qed.

(** No storage object has the prefix [none]. *)
Lemma init_prefix_not_none {ext : Externals} (s : DejavuStorage) :
  __init__ = Ok s -> String.eqb (storage_prefix s) "none" = false.
Proof.
  unfold __init__.
  destruct (String.eqb _ "none") eqn:E; [discriminate|].
  now intros [= <-].
Qed.

(* ================================================================= *)
(** ** The folder of an identity *)

Lemma append_cancel_l (x a b : string) : x ++ a = x ++ b -> a = b.
Proof.
  induction x as [|c x IH]; simpl; [auto|]. intros [= H]. auto.
Qed.

Lemma length_append (a b : string) :
  String.length (a ++ b) = String.length a + String.length b.
Proof. induction a as [|c a IH]; simpl; [reflexivity|now rewrite IH]. Qed.

Lemma append_cancel_r (x a b : string) : a ++ x = b ++ x -> a = b.
Proof.
  revert b. induction a as [|c a IH]; intros [|d b]; simpl.
  - reflexivity.
  - intros H. apply (f_equal String.length) in H. simpl in H.
    rewrite length_append in H. lia.
  - intros H. apply (f_equal String.length) in H. simpl in H.
    rewrite length_append in H. lia.
  - intros [= -> H]. now rewrite (IH _ H).
Qed.

Section FolderName.

(** C4. The folder depends on nothing but the kernel name, the four
    hashes, the digest and the tag: two environments that agree on the
    tag and on the digest of the code version give the same folder for
    the same arguments. And two identities that differ in exactly one
    of the four hashes have different folders, as long as the digest does
    not collide on their two code versions. *)
Theorem folder_name_determined_and_sensitive :
  (forall (ext1 ext2 : Externals)
          (fn_name fn_hash configs_hash key_hash param_hash : string),
      @storage_tag ext1 = @storage_tag ext2 ->
      @sha256_hexdigest ext1 (fn_hash ++ "-" ++ key_hash)
      = @sha256_hexdigest ext2 (fn_hash ++ "-" ++ key_hash) ->
      @_get_folder_name ext1 fn_name fn_hash configs_hash key_hash param_hash
      = @_get_folder_name ext2 fn_name fn_hash configs_hash key_hash
          param_hash)
  /\ (forall (ext : Externals) (fn_name : string) (a b : Identity),
         differing a b = 1 ->
         no_collision a b ->
         folder_of_identity fn_name a <> folder_of_identity fn_name b).
Proof.
  split.
  - intros ext1 ext2 fn_name fn_hash configs_hash key_hash param_hash Ht Hh.
    unfold _get_folder_name, get_string_hash. now rewrite Ht, Hh.
  - intros ext fn_name [fa ca ka pa] [fb cb kb pb].
    unfold differing, neq_count, no_collision, code_version_input,
      folder_of_identity, _get_folder_name, get_string_hash.
    cbn [id_fn_hash id_configs_hash id_key_hash id_param_hash].
    intros Hd Hcol Heq.
    apply append_cancel_l in Heq. apply append_cancel_l in Heq.
    destruct (String.eqb_spec fa fb) as [->|Hfn];
      destruct (String.eqb_spec ca cb) as [->|Hcf];
      destruct (String.eqb_spec ka kb) as [->|Hk];
      destruct (String.eqb_spec pa pb) as [->|Hp];
      cbn [Nat.add] in Hd; try discriminate.
    + apply append_cancel_r in Heq. contradiction.
    + do 4 apply append_cancel_l in Heq.
      apply append_cancel_r in Heq. apply Hcol in Heq.
      do 2 apply append_cancel_l in Heq. contradiction.
    + do 2 apply append_cancel_l in Heq.
      apply append_cancel_r in Heq. contradiction.
    + do 4 apply append_cancel_l in Heq.
      apply append_cancel_r in Heq. apply Hcol in Heq.
      apply append_cancel_r in Heq. contradiction.
Qed.

End FolderName.

(* ================================================================= *)
(** ** The claims on concrete data *)

(** C1 as stated fails: the string keyword argument [mode = "1"] is
    written as [mode: 1] and read back as the integer 1, which is not
    equal to the string. *)
Lemma round_trip_fails_on_numeric_string :
  decode_Config (str_Config demo_config_mode) = Ok demo_config_mode_decoded
  /\ Config_eqb demo_config_mode_decoded (without_skipped demo_config_mode)
     = false
  /\ pyval_eqb (VInt 1) (VStr "1") = false.
Proof. vm_compute. repeat split. Qed.

(** C1 at a configuration with integer, boolean and string keyword
    arguments and one keyword argument of the skip set. *)
Lemma config_codec_round_trip_witness :
  codec_safe demo_config_kwargs = true
  /\ decode_Config (str_Config demo_config_kwargs)
     = Ok (without_skipped demo_config_kwargs).
Proof.
  split; [reflexivity|].
  apply (config_codec_round_trip demo_config_kwargs). reflexivity.
Defined.

(** C2 at the scenario: the second add offers another configuration for
    the key [(4, 4)]; the entry of the first add stays. *)
Lemma add_never_overwrites_witness :
  cache_entry (fst demo_add) demo_folder "(4, 4)"
  = Some (str_Config demo_config)
  /\ cache_entry (fst demo_add_again) demo_folder "(4, 4)"
     = Some (str_Config demo_config).
Proof.
  split; [vm_compute; reflexivity|].
  apply (proj1 (@add_never_overwrites demo_ext)). vm_compute. reflexivity.
Defined.

(** C3 as stated fails: a sample that holds negative infinity, an
    infinite value, is stored. *)
Lemma negative_infinity_is_stored :
  has_infinite (sample_of (TFloat neg_infinity)) = true
  /\ exists l',
       add_iter 1 [(demo_key, TFloat neg_infinity)] (NInt 10) (NInt 5)
         demo_locals demo_key demo_config = Ok l'
       /\ sget "(4, 4)" (cache (cache_json l'))
          = Some (str_Config demo_config)
       /\ option_map values (sget "(4, 4)" (timings (cache_json l')))
          = Some [neg_infinity]
       /\ changes_made l' = true.
Proof.
  split; [reflexivity|]. eexists. split; [reflexivity|].
  vm_compute. repeat split.
Qed.

(** C3 at a sample that holds [float("inf")], and at the empty world. *)
Lemma inf_sample_never_stored_witness :
  add_iter 1 [(demo_key, TList [1%float; infinity; 2%float])] (NInt 10)
    (NInt 5) demo_locals demo_key demo_config = Ok demo_locals
  /\ records_satisfy inf_free (fst demo_add_neg_inf).
Proof.
  split.
  - apply (proj1 (@inf_sample_never_stored demo_ext)
             1%Z _ (NInt 10) (NInt 5) demo_locals demo_key demo_config
             (TList [1%float; infinity; 2%float])); reflexivity.
  - apply (proj2 (@inf_sample_never_stored demo_ext)).
    split; constructor.
Defined.

(** C4 at two identities that differ in the parameter hash. *)
Lemma folder_name_witness :
  differing demo_identity demo_identity_param = 1
  /\ @folder_of_identity demo_ext "K" demo_identity
     <> @folder_of_identity demo_ext "K" demo_identity_param.
Proof.
  split; [reflexivity|].
  apply (proj2 folder_name_determined_and_sensitive demo_ext "K").
  - reflexivity.
  - intros _. reflexivity.
Defined.

(** C5 at the scenario. *)
Lemma cache_timings_same_keys_witness :
  records_satisfy keys_agree demo_world
  /\ records_satisfy keys_agree (fst demo_add_neg_inf).
Proof.
  assert (H : @records_satisfy keys_agree demo_world) by (split; constructor).
  split; [exact H|].
  apply (proj2 (@cache_timings_same_keys demo_ext)). exact H.
Defined.

(** C6 as stated fails: the restored mapping has the key of two strings,
    and no entry for the key [(4, 4)] of two integers. *)
Lemma restored_key_is_strings :
  snd demo_restore1 = Ok []
  /\ snd demo_add = Ok tt
  /\ snd demo_restore2 = Ok [([VStr "4"; VStr "4"], demo_config)]
  /\ PyDict.get tuple_eqb [VInt 4; VInt 4]
       [([VStr "4"; VStr "4"], demo_config)] = None
  /\ tuple_eqb [VInt 4; VInt 4] [VStr "4"; VStr "4"] = false.
Proof. vm_compute. repeat split. Qed.

(** C6 at the scenario of section 8. *)
Lemma end_to_end_restore_witness :
  snd demo_restore1 = Ok []
  /\ snd demo_add = Ok tt
  /\ snd demo_restore2
     = Ok [([VStr "4"; VStr "4"], without_skipped demo_config)].
Proof.
  assert (H1 : snd demo_restore1 = Ok []) by (vm_compute; reflexivity).
  split; [exact H1|].
  apply (@end_to_end_restore demo_ext demo_world demo_fn "cfgA" "keyA" "parA"
           1 demo_config 0x1.3ae147ae147aep+0%float (NInt 10) (NInt 5)
           0.5%float); [reflexivity|reflexivity|exact H1].
Defined.

(** The files of the scenario, as section 8 of the specification expects
    them: the first restore writes a template with an empty cache map;
    after the add the file has the encoded configuration under the key
    text, the one measurement with the label [ms], and the benchmark
    time. *)
Example scenario_files :
  option_map cache (sget demo_folder (disk (fst demo_restore1))) = Some []
  /\ option_map cache (sget demo_folder (disk (fst demo_add)))
     = Some [("(4, 4)", str_Config demo_config)]
  /\ option_map timings (sget demo_folder (disk (fst demo_add)))
     = Some [("(4, 4)",
              {| values := [0x1.3ae147ae147aep+0%float];
                 labels := ["ms"];
                 rep_t_ms := NInt 10;
                 warmup_t_ms := NInt 5 |})]
  /\ option_map total_bench_time_s (sget demo_folder (disk (fst demo_add)))
     = Some 0.5%float.
Proof. vm_compute. repeat split. Qed.

(** C7 at the empty disk: the first restore writes the template, the
    second returns the same empty mapping. *)
Lemma restore_twice_witness :
  snd (@restore_autotuner_cache demo_ext (fst demo_restore1) demo_fn "cfgA"
         "keyA" "parA") = snd demo_restore1
  /\ snd demo_restore1 = Ok []
  /\ sget demo_folder (disk (fst demo_restore1))
     = Some (_get_cache_template demo_fn 0).
Proof.
  pose proof (@restore_twice demo_ext demo_world demo_fn "cfgA" "keyA" "parA")
    as H.
  cbn zeta in H. destruct H as (H1 & _ & H3).
  split; [exact H1|]. apply (H3 demo_folder); reflexivity.
Defined.

(** C8 as stated fails: every key of the results has an infinite
    measurement, negative infinity, and yet the benchmark time is added
    and the record is written. *)
Lemma negative_infinity_is_flushed :
  forallb
    (fun kc =>
       present_or_infinite (record_before demo_world demo_fn 1
                              demo_folder)
         [(demo_key, TFloat neg_infinity)] (fst kc))
    [(demo_key, demo_config)] = true
  /\ sget demo_folder (disk demo_world) = None
  /\ option_map total_bench_time_s
       (sget demo_folder (disk (fst demo_add_neg_inf))) = Some 0.5%float.
Proof. vm_compute. repeat split. Qed.

(** C8 at the scenario: the add of one new key adds 0.5 to the total and
    writes the index. *)
Lemma add_changes_iff_key_added_witness :
  (exists r',
      sget demo_folder (fn_storage (self (fst demo_add))) = Some r'
      /\ total_bench_time_s r'
         = PrimFloat.add
             (total_bench_time_s
                (record_before (fst demo_restore1) demo_fn 1
                   demo_folder)) 0.5%float)
  /\ @flushed (fst demo_add).
Proof.
  apply (@add_changes_iff_key_added demo_ext (fst demo_restore1)
           [(demo_key, demo_config)] demo_fn "cfgA" "keyA" "parA" 1
           [(demo_key, TFloat 0x1.3ae147ae147aep+0%float)] (NInt 10) (NInt 5)
           0.5%float demo_folder); vm_compute; reflexivity.
Defined.

(** C9 as stated fails: add has been called for the identity, with a
    measurement of [float("inf")]; nothing was stored, and
    [get_used_configs] raises [KeyError]. *)
Lemma used_configs_after_empty_add :
  @__init__ demo_ext = Ok (self demo_world)
  /\ @calls_for demo_ext demo_add_inf demo_folder = true
  /\ @run demo_ext demo_world [demo_add_inf] = Ok demo_world
  /\ @get_used_configs demo_ext demo_world demo_fn "cfgA" "keyA" "parA"
     = Err KeyError.
Proof. vm_compute. repeat split. Qed.

(** C9 at a process that restores and then adds one key. *)
Lemma used_configs_lookup_witness :
  exists l,
    @get_used_configs demo_ext (fst demo_add) demo_fn "cfgA" "keyA" "parA"
    = Ok l
    /\ deduped l = true.
Proof.
  apply (@used_configs_lookup demo_ext (self demo_world) []
           [CallRestore demo_fn "cfgA" "keyA" "parA";
            CallAdd [(demo_key, demo_config)] demo_fn "cfgA" "keyA" "parA" 1
              [(demo_key, TFloat 0x1.3ae147ae147aep+0%float)] (NInt 10)
              (NInt 5) 0.5%float]
           (fst demo_add) demo_fn "cfgA" "keyA" "parA" demo_folder);
    vm_compute; reflexivity.
Defined.

(** C10 at two environments. *)
Lemma init_none_is_unset_witness :
  @__init__ demo_ext_none = @__init__ demo_ext_unset.
Proof.
  apply (init_none_is_unset demo_ext_none demo_ext_unset); reflexivity.
Defined.

(* ================================================================= *)
(** * Further properties of the code *)

(* ================================================================= *)
(** * Further properties *)

(** ** Splitting on a one-character separator *)

Section OneCharSeparator.

Variable a : ascii.

Let sep1 : string := String a EmptyString.

Lemma prefix_one (c : ascii) (s : string) :
  String.prefix sep1 (String c s) = Ascii.eqb a c.
Proof.
  unfold sep1. simpl. destruct (ascii_dec a c) as [->|H].
  - rewrite Ascii.eqb_refl. now destruct s.
  - symmetry. now apply Ascii.eqb_neq.
Qed.

Lemma contains_one_cons (c : ascii) (s : string) :
  PyStr.contains sep1 (String c s) = Ascii.eqb a c || PyStr.contains sep1 s.
Proof. cbn [PyStr.contains]. now rewrite prefix_one. Qed.

Lemma contains_one_app (x y : string) :
  PyStr.contains sep1 (x ++ y)
  = PyStr.contains sep1 x || PyStr.contains sep1 y.
Proof.
  induction x as [|c x IH].
  - simpl. now destruct y.
  - change (String c x ++ y) with (String c (x ++ y)).
    rewrite !contains_one_cons, IH. apply orb_assoc.
Qed.

Lemma split_one_no_sep (x : string) :
  PyStr.contains sep1 x = false -> PyStr.split sep1 x = [x].
Proof.
  unfold PyStr.split. induction x as [|c x IH]; intros H; [reflexivity|].
  rewrite contains_one_cons in H. apply orb_false_iff in H. destruct H as [H1 H2].
  cbn [PyStr.split_from]. rewrite prefix_one, H1, (IH H2). reflexivity.
Qed.

Lemma split_one_app_sep (x r : string) :
  PyStr.contains sep1 x = false ->
  PyStr.split sep1 (x ++ String a r) = x :: PyStr.split sep1 r.
Proof.
  unfold PyStr.split. induction x as [|c x IH]; intros H.
  - change (EmptyString ++ String a r) with (String a r).
    cbn [PyStr.split_from]. rewrite prefix_one, Ascii.eqb_refl. reflexivity.
  - rewrite contains_one_cons in H. apply orb_false_iff in H.
    destruct H as [H1 H2].
    change (String c x ++ String a r) with (String c (x ++ String a r)).
    cbn [PyStr.split_from]. rewrite prefix_one, H1, (IH H2). reflexivity.
Qed.

Lemma split_one_join (l : list string) :
  l <> [] ->
  Forall (fun x => PyStr.contains sep1 x = false) l ->
  PyStr.split sep1 (PyStr.join sep1 l) = l.
Proof.
  intros Hne H. induction H as [|x l Hx Hl IH]; [congruence|].
  destruct l as [|y l].
  - simpl. now apply split_one_no_sep.
  - change (PyStr.join sep1 (x :: y :: l))
      with (x ++ String a (PyStr.join sep1 (y :: l))).
    rewrite split_one_app_sep by assumption.
    rewrite IH by discriminate. reflexivity.
Qed.

End OneCharSeparator.

Lemma drop_last_snoc (s : string) (c : ascii) :
  PyStr.drop_last (s ++ String c EmptyString) = s.
Proof.
  induction s as [|d s IH]; [reflexivity|].
  change (String d s ++ String c EmptyString)
    with (String d (s ++ String c EmptyString)).
  cbn [PyStr.drop_last]. rewrite IH.
  now destruct s.
Qed.

(* ================================================================= *)
(** ** The kernel name *)

Section KernelName.

Context {ext : Externals}.

(** X1. The kernel name is what stands between the first colon of
    [str(fn)] and its last character: for the text [module:name)] with no
    colon in [module] or [name] the name comes back whole. Without a
    colon the three methods raise [IndexError]. With a second colon the
    name ends there and loses its own last character. *)
Theorem kernel_name_of_text :
  (forall (fn : JITFunction) (m n : string),
      PyStr.contains ":" m = false ->
      PyStr.contains ":" n = false ->
      JIT_str fn = m ++ ":" ++ n ++ ")" ->
      fn_name_of fn = Ok n)
  /\ (forall (fn : JITFunction),
         PyStr.contains ":" (JIT_str fn) = false ->
         fn_name_of fn = Err IndexError)
  /\ (forall (fn : JITFunction) (m n rest : string),
         PyStr.contains ":" m = false ->
         PyStr.contains ":" n = false ->
         JIT_str fn = m ++ ":" ++ n ++ ":" ++ rest ->
         fn_name_of fn = Ok (PyStr.drop_last n)).
Proof.
  split; [|split].
  - intros fn m n Hm Hn E. unfold fn_name_of. rewrite E.
    change (m ++ ":" ++ n ++ ")") with (m ++ String ":" (n ++ ")")).
    rewrite (split_one_app_sep ":" m _ Hm).
    rewrite (split_one_no_sep ":" (n ++ ")")).
    + cbn [getitem nth_error bind]. now rewrite drop_last_snoc.
    + rewrite (contains_one_app ":"), Hn. reflexivity.
  - intros fn H. unfold fn_name_of.
    now rewrite (split_one_no_sep ":" _ H).
  - intros fn m n rest Hm Hn E. unfold fn_name_of. rewrite E.
    change (m ++ ":" ++ n ++ ":" ++ rest)
      with (m ++ String ":" (n ++ String ":" rest)).
    rewrite (split_one_app_sep ":" m _ Hm).
    rewrite (split_one_app_sep ":" n _ Hn).
    reflexivity.
Qed.

End KernelName.

(* ================================================================= *)
(** ** The hashes of lists *)

Lemma append_assoc (a b c : string) : (a ++ b) ++ c = a ++ b ++ c.
Proof. induction a as [|x a IH]; simpl; [reflexivity|now rewrite IH]. Qed.

Lemma append_nil_r (a : string) : a ++ EmptyString = a.
Proof. induction a as [|x a IH]; simpl; [reflexivity|now rewrite IH]. Qed.

Lemma split_bar_terminated (l : list string) :
  bar_free l ->
  PyStr.split "|" (bar_terminated l) = (l ++ [EmptyString])%list.
Proof.
  intros H. induction H as [|x l Hx Hl IH]; [reflexivity|].
  cbn [bar_terminated].
  change (x ++ "|" ++ bar_terminated l) with (x ++ String "|" (bar_terminated l)).
  rewrite (split_one_app_sep "|" x _ Hx), IH. reflexivity.
Qed.

Lemma config_text_fold (cs : list Config) (acc : string) :
  fold_left (fun s c => s ++ str_Config c ++ "|") cs acc
  = acc ++ bar_terminated (map str_Config cs).
Proof.
  revert acc. induction cs as [|c cs IH]; intros acc;
    cbn [fold_left map bar_terminated].
  - now rewrite append_nil_r.
  - rewrite IH, !append_assoc. reflexivity.
Qed.

Lemma config_list_text_split (cs : list Config) :
  bar_free (map str_Config cs) ->
  PyStr.split "|" (config_list_text cs)
  = (EmptyString :: map str_Config cs ++ [EmptyString])%list.
Proof.
  intros H. unfold config_list_text. rewrite config_text_fold.
  change ("|" ++ bar_terminated (map str_Config cs))
    with (EmptyString ++ String "|" (bar_terminated (map str_Config cs))).
  rewrite (split_one_app_sep "|" EmptyString _ eq_refl).
  now rewrite split_bar_terminated.
Qed.

Section ListHashes.

Context {ext : Externals}.

(** X2. [get_list_hash] tells apart any two non-empty lists of strings
    without a bar, unless the digest collides on their joined texts. It
    does not tell apart a bar inside an element from two elements, nor
    the empty list from the list of one empty string. *)
Theorem list_hash_separates :
  (forall l1 l2 : list string,
      l1 <> [] -> l2 <> [] -> bar_free l1 -> bar_free l2 ->
      (sha256_hexdigest (PyStr.join "|" l1)
       = sha256_hexdigest (PyStr.join "|" l2) ->
       PyStr.join "|" l1 = PyStr.join "|" l2) ->
      get_list_hash l1 = get_list_hash l2 -> l1 = l2)
  /\ (forall a b : string,
         get_list_hash [a ++ "|" ++ b] = get_list_hash [a; b])
  /\ get_list_hash [] = get_list_hash [EmptyString].
Proof.
  split; [|split].
  - intros l1 l2 N1 N2 B1 B2 Hcol H. unfold get_list_hash in H.
    apply Hcol in H.
    rewrite <- (split_one_join "|" l1 N1 B1), <- (split_one_join "|" l2 N2 B2).
    now rewrite H.
  - intros a b. unfold get_list_hash. reflexivity.
  - reflexivity.
Qed.

(** X3. [get_config_list_hash] depends on the texts of the
    configurations and on their order: two lists whose texts have no bar
    and whose hashes are equal have the same texts in the same order,
    unless the digest collides. *)
Theorem config_list_hash_separates (cs1 cs2 : list Config) :
  bar_free (map str_Config cs1) ->
  bar_free (map str_Config cs2) ->
  (sha256_hexdigest (config_list_text cs1)
   = sha256_hexdigest (config_list_text cs2) ->
   config_list_text cs1 = config_list_text cs2) ->
  get_config_list_hash cs1 = get_config_list_hash cs2 ->
  map str_Config cs1 = map str_Config cs2.
Proof.
  intros B1 B2 Hcol H.
  change (get_config_list_hash cs1) with (sha256_hexdigest (config_list_text cs1)) in H.
  change (get_config_list_hash cs2) with (sha256_hexdigest (config_list_text cs2)) in H.
  apply Hcol in H. apply (f_equal (PyStr.split "|")) in H.
  rewrite !config_list_text_split in H by assumption.
  injection H as H. now apply app_inv_tail in H.
Qed.

End ListHashes.

(* ================================================================= *)
(** ** The text of a runtime key and [_create_tuple] *)

Lemma simple_char_repr (c : ascii) :
  is_simple_char c = true ->
  PyRepr.repr_char "'" c = String c EmptyString.
Proof.
  unfold is_simple_char, PyRepr.repr_char. intros H.
  apply andb_true_iff in H. destruct H as [H Hb].
  apply andb_true_iff in H. destruct H as [H Hq].
  apply andb_true_iff in H. destruct H as [Hlo Hhi].
  apply negb_true_iff in Hb, Hq. apply Nat.leb_le in Hlo. apply Nat.ltb_lt in Hhi.
  rewrite Hq, Hb. cbn [orb].
  destruct (Nat.eqb_spec (nat_of_ascii c) 9); [lia|].
  destruct (Nat.eqb_spec (nat_of_ascii c) 10); [lia|].
  destruct (Nat.eqb_spec (nat_of_ascii c) 13); [lia|].
  destruct (Nat.ltb_spec (nat_of_ascii c) 32); [lia|].
  destruct (Nat.eqb_spec (nat_of_ascii c) 127); [lia|].
  reflexivity.
Qed.

Lemma simple_repr_body (s : string) :
  PyStr.all_chars is_simple_char s = true -> PyRepr.repr_body "'" s = s.
Proof.
  induction s as [|c s IH]; simpl; [reflexivity|].
  intros H. apply andb_true_iff in H. destruct H as [Hc Hs].
  now rewrite (simple_char_repr c Hc), (IH Hs).
Qed.

Lemma simple_no_quote (s : string) :
  PyStr.all_chars is_simple_char s = true -> PyStr.contains "'" s = false.
Proof.
  induction s as [|c s IH]; [reflexivity|].
  cbn [PyStr.all_chars]. intros H. apply andb_true_iff in H.
  destruct H as [Hc Hs].
  rewrite (contains_one_cons "'"), (IH Hs), orb_false_r.
  unfold is_simple_char in Hc.
  apply andb_true_iff in Hc. destruct Hc as [Hc _].
  apply andb_true_iff in Hc. destruct Hc as [_ Hq].
  apply negb_true_iff in Hq. now rewrite Ascii.eqb_sym.
Qed.

Lemma simple_repr_str (s : string) :
  PyStr.all_chars is_simple_char s = true ->
  PyRepr.repr_str s = String "'" (s ++ "'").
Proof.
  intros H. unfold PyRepr.repr_str.
  rewrite (simple_no_quote s H). cbn [andb].
  now rewrite (simple_repr_body s H).
Qed.

Lemma int_char_simple (c : ascii) :
  is_int_char c = true -> is_simple_char c = true.
Proof.
  unfold is_int_char, is_simple_char, PyNum.is_digit. intros H.
  apply orb_true_iff in H. destruct H as [H|H].
  - apply andb_true_iff in H. destruct H as [H1 H2].
    apply Nat.leb_le in H1. apply Nat.leb_le in H2.
    assert (Hq : Ascii.eqb c "'" = false).
    { apply Ascii.eqb_neq. intros ->. cbn in H1. lia. }
    assert (Hb : Ascii.eqb c "\" = false).
    { apply Ascii.eqb_neq. intros ->. cbn in H2. lia. }
    rewrite Hq, Hb. cbn [negb andb]. rewrite !andb_true_r.
    apply andb_true_iff. split; [apply Nat.leb_le|apply Nat.ltb_lt]; lia.
  - apply Ascii.eqb_eq in H. now subst c.
Qed.

Lemma str_pyval_simple (x : pyval) :
  key_elem_ok x = true -> is_simple_str (str_pyval x) = true.
Proof.
  destruct x as [|b|z|s]; cbn [key_elem_ok str_pyval]; intros H.
  - reflexivity.
  - now destruct b.
  - unfold is_simple_str. apply andb_true_iff. split.
    + apply (all_chars_impl is_int_char); [apply int_char_simple|].
      apply int_chars_str_int.
    + apply negb_true_iff. apply (proj1 (plain_iff _) (str_int_plain z)).
  - exact H.
Qed.

Lemma str_pyval_nonempty (x : pyval) :
  is_str x = false -> str_pyval x <> EmptyString.
Proof.
  destruct x as [|b|z|s]; cbn; try discriminate.
  - now destruct b.
  - intros _. destruct z as [|p|p].
    + discriminate.
    + rewrite str_int_pos. apply string_of_uint_nonempty.
      apply DecimalPos.Unsigned.to_uint_nonnil.
    + rewrite str_int_neg. discriminate.
Qed.

Lemma int_char_not_quote (c : ascii) :
  is_int_char c = true -> is_quote c = false.
Proof.
  unfold is_int_char, is_quote, PyNum.is_digit. intros H.
  apply orb_true_iff in H. destruct H as [H|H].
  - apply andb_true_iff in H. destruct H as [H1 H2].
    apply Nat.leb_le in H1. apply Nat.leb_le in H2.
    apply orb_false_iff. split; apply Ascii.eqb_neq; intros ->; cbn in H1; lia.
  - apply Ascii.eqb_eq in H. now subst c.
Qed.

(** the first character of the text of a value that is no string *)
Lemma str_pyval_head (x : pyval) :
  is_str x = false ->
  exists c r, str_pyval x = String c r /\ is_quote c = false.
Proof.
  intros H. destruct x as [|b|z|s]; try discriminate.
  - now exists "N"%char, "one".
  - destruct b; [now exists "T"%char, "rue"|now exists "F"%char, "alse"].
  - pose proof (str_pyval_nonempty (VInt z) eq_refl) as Hne.
    pose proof (int_chars_str_int z) as Hi. cbn [str_pyval] in *.
    destruct (PyNum.str_int z) as [|c r]; [congruence|].
    exists c, r. split; [reflexivity|].
    cbn [PyStr.all_chars] in Hi. apply andb_true_iff in Hi.
    now apply int_char_not_quote.
Qed.

Lemma repr_elem (x : pyval) :
  key_elem_ok x = true ->
  PyRepr.repr x
  = if is_str x then String "'" (str_pyval x ++ "'") else str_pyval x.
Proof.
  destruct x as [|b|z|s]; try reflexivity.
  cbn [key_elem_ok PyRepr.repr is_str str_pyval]. unfold is_simple_str.
  intros H. apply andb_true_iff in H. destruct H as [H _].
  now apply simple_repr_str.
Qed.

Lemma repr_no_comma (x : pyval) :
  key_elem_ok x = true -> PyStr.contains ", " (PyRepr.repr x) = false.
Proof.
  intros H. rewrite (repr_elem x H).
  pose proof (str_pyval_simple x H) as Hs. unfold is_simple_str in Hs.
  apply andb_true_iff in Hs. destruct Hs as [_ Hs]. apply negb_true_iff in Hs.
  destruct (is_str x); [|exact Hs].
  cbn [PyStr.contains String.prefix]. cbn [orb].
  apply (contains_app_false "," " " comma_neq_space); [exact Hs|reflexivity|].
  intros y'. discriminate.
Qed.

Lemma strip_ends_parens (body : string) :
  PyStr.strip_ends ("(" ++ body ++ ")") = body.
Proof. unfold PyStr.strip_ends. cbn [append PyStr.tail]. apply drop_last_snoc. Qed.

Lemma create_tuple_loop_step (x : pyval) (rest : list string)
  (acc : list pyval) :
  key_elem_ok x = true ->
  _create_tuple_loop (PyRepr.repr x :: rest) acc
  = _create_tuple_loop rest (acc ++ [as_text x])%list.
Proof.
  intros H. rewrite (repr_elem x H). cbn [_create_tuple_loop].
  destruct (is_str x) eqn:E.
  - cbn [PyStr.head bind]. change (is_quote "'") with true. cbv iota.
    unfold PyStr.strip_ends. cbn [PyStr.tail]. now rewrite drop_last_snoc.
  - destruct (str_pyval_head x E) as (c & r & Hc & Hq).
    rewrite Hc. cbn [PyStr.head bind]. rewrite Hq. unfold as_text.
    now rewrite Hc.
Qed.

Lemma create_tuple_loop_all (key : list pyval) (acc : list pyval) :
  forallb key_elem_ok key = true ->
  _create_tuple_loop (map PyRepr.repr key) acc
  = Ok (acc ++ map as_text key)%list.
Proof.
  revert acc. induction key as [|x key IH]; intros acc H.
  - cbn. now rewrite app_nil_r.
  - cbn [forallb] in H. apply andb_true_iff in H. destruct H as [Hx Hk].
    cbn [map]. rewrite (create_tuple_loop_step x _ _ Hx), (IH _ Hk).
    now rewrite <- app_assoc.
Qed.

Lemma create_tuple_of_key_text_aux (key : list pyval) :
  2 <= List.length key ->
  forallb key_elem_ok key = true ->
  _create_tuple (PyRepr.str_tuple key) = Ok (map as_text key).
Proof.
  intros Hlen H.
  destruct key as [|a [|b rest]]; cbn [List.length] in Hlen; try lia.
  unfold _create_tuple.
  change (PyRepr.str_tuple (a :: b :: rest))
    with ("(" ++ PyStr.join ", " (map PyRepr.repr (a :: b :: rest)) ++ ")").
  rewrite strip_ends_parens.
  rewrite (split_join "," " " comma_neq_space).
  - now apply (create_tuple_loop_all (a :: b :: rest) []).
  - discriminate.
  - apply Forall_forall. intros t Ht. apply in_map_iff in Ht.
    destruct Ht as [x [<- Hin]]. apply repr_no_comma.
    apply (proj1 (forallb_forall _ _) H _ Hin).
Qed.

(** X4. A key of two or more elements that are integers, booleans,
    [None] or simple strings comes back from its text with as many
    elements, each one the text of the original element: strings come
    back as they were, the other elements as strings. *)
Theorem create_tuple_of_key_text (key : list pyval) :
  2 <= List.length key ->
  forallb key_elem_ok key = true ->
  _create_tuple (PyRepr.str_tuple key) = Ok (map as_text key).
Proof. exact (create_tuple_of_key_text_aux key). Qed.

(** X5. Shorter keys do not come back. The text of the empty key makes
    [_create_tuple] raise [IndexError]. The only element of a
    one-element key comes back with the comma of the tuple text at its
    end, or, for a string, with the closing quote. *)
Theorem create_tuple_of_short_key :
  _create_tuple (PyRepr.str_tuple []) = Err IndexError
  /\ (forall x : pyval,
         key_elem_ok x = true ->
         _create_tuple (PyRepr.str_tuple [x]) = Ok [as_text_single x]).
Proof.
  split; [reflexivity|].
  intros x H. unfold _create_tuple.
  change (PyRepr.str_tuple [x]) with ("(" ++ PyRepr.repr x ++ ",)").
  replace ("(" ++ PyRepr.repr x ++ ",)")
    with ("(" ++ (PyRepr.repr x ++ ",") ++ ")")
    by (now rewrite append_assoc).
  rewrite strip_ends_parens.
  rewrite (split_no_sep "," " ").
  - rewrite (repr_elem x H). cbn [_create_tuple_loop].
    destruct (is_str x) eqn:E.
    + cbn [append PyStr.head bind]. change (is_quote "'") with true. cbv iota.
      unfold PyStr.strip_ends. cbn [PyStr.tail app].
      rewrite drop_last_snoc. now destruct x.
    + destruct (str_pyval_head x E) as (c & r & Hc & Hq).
      assert (Hx : as_text_single x = VStr (str_pyval x ++ ","))
        by (destruct x; try reflexivity; discriminate).
      rewrite Hx, Hc. cbn [append PyStr.head bind]. rewrite Hq. reflexivity.
  - apply (contains_app_false "," " " comma_neq_space);
      [now apply repr_no_comma|reflexivity|].
    intros y'. discriminate.
Qed.

(** X6. The element types of a key are lost, so two keys collide: for a
    key of two or more elements that are not all strings, the key and
    the key of the texts of its elements have different texts, and add
    stores them apart, but [_create_tuple] gives the same tuple for
    both. *)
Theorem create_tuple_merges_types (key : list pyval) :
  2 <= List.length key ->
  forallb key_elem_ok key = true ->
  forallb is_str key = false ->
  PyRepr.str_tuple key <> PyRepr.str_tuple (map as_text key)
  /\ _create_tuple (PyRepr.str_tuple key)
     = _create_tuple (PyRepr.str_tuple (map as_text key)).
Proof.
  intros Hlen H Hs.
  assert (H' : forallb key_elem_ok (map as_text key) = true).
  { apply forallb_forall. intros y Hy. apply in_map_iff in Hy.
    destruct Hy as [x [<- Hin]]. unfold as_text. cbn [key_elem_ok].
    apply str_pyval_simple. apply (proj1 (forallb_forall _ _) H _ Hin). }
  assert (Hlen' : 2 <= List.length (map as_text key))
    by now rewrite length_map.
  split.
  - intros E.
    destruct key as [|a [|b rest]]; cbn [List.length] in Hlen; try lia.
    change (PyRepr.str_tuple (a :: b :: rest))
      with ("(" ++ PyStr.join ", " (map PyRepr.repr (a :: b :: rest)) ++ ")")
      in E.
    change (PyRepr.str_tuple (map as_text (a :: b :: rest)))
      with ("(" ++ PyStr.join ", "
                     (map PyRepr.repr (map as_text (a :: b :: rest))) ++ ")")
      in E.
    apply append_cancel_l in E. apply append_cancel_r in E.
    apply (f_equal (PyStr.split ", ")) in E.
    rewrite !(split_join "," " " comma_neq_space) in E; try discriminate;
      try (apply Forall_forall; intros t Ht; apply in_map_iff in Ht;
           destruct Ht as [x [<- Hin]]; apply repr_no_comma;
           first [ apply (proj1 (forallb_forall _ _) H _ Hin)
                 | apply (proj1 (forallb_forall _ _) H' _ Hin) ]).
    assert (Hall : forall x, In x (a :: b :: rest) -> is_str x = true).
    { clear Hs Hlen Hlen'. revert E H.
      generalize (a :: b :: rest) as l. clear. intros l.
      induction l as [|x l IH]; intros E H y Hy; [contradiction|].
      cbn [map] in E. injection E as Ex El.
      cbn [forallb] in H. apply andb_true_iff in H. destruct H as [Hx Hl].
      destruct Hy as [<-|Hy]; [|now apply (IH El Hl)].
      destruct (is_str x) eqn:Es; [reflexivity|].
      rewrite (repr_elem x Hx), Es in Ex.
      unfold as_text in Ex. cbn [PyRepr.repr] in Ex.
      assert (Hsx : is_simple_str (str_pyval x) = true)
        by now apply str_pyval_simple.
      unfold is_simple_str in Hsx. apply andb_true_iff in Hsx.
      rewrite (simple_repr_str _ (proj1 Hsx)) in Ex.
      destruct (str_pyval_head x Es) as (c & r & Hc & Hq).
      rewrite Hc in Ex. injection Ex as -> _. discriminate. }
    assert (forallb is_str (a :: b :: rest) = true)
      by now apply forallb_forall.
    congruence.
  - rewrite (create_tuple_of_key_text_aux key Hlen H).
    rewrite (create_tuple_of_key_text_aux _ Hlen' H').
    rewrite map_map. reflexivity.
Qed.

(* ================================================================= *)
(** ** Where [_create_config_args] fails *)






(* ================================================================= *)
(** ** [__store__] *)

Section StoreProperties.

Context {ext : Externals}.

(** X8. [__store__] is a full flush and nothing else: the index and
    the used configurations are as before, the file of every record of
    the index holds that record, and the file of a folder that is not
    in the index is as it was. *)
Theorem store_is_full_flush (w : World) :
  fn_storage (self (__store__ w)) = fn_storage (self w)
  /\ used_configs (self (__store__ w)) = used_configs (self w)
  /\ flushed (__store__ w)
  /\ (forall f, sget f (fn_storage (self w)) = None ->
                sget f (disk (__store__ w)) = sget f (disk w)).
Proof.
  split; [apply store_fn_storage|]. split; [apply store_used_configs|]. split.
  - intros f r H. rewrite store_fn_storage in H. rewrite store_disk.
    now rewrite H.
  - intros f H. rewrite store_disk. now rewrite H.
Qed.

Lemma in_list_app (x : string) (l1 l2 : list string) :
  PyStr.in_list x (l1 ++ l2)%list
  = PyStr.in_list x l1 || PyStr.in_list x l2.
Proof. unfold PyStr.in_list. apply existsb_app. Qed.

Lemma store_iter_known (w : World) (k x : string) :
  PyStr.in_list x (_known_files (self w)) = true ->
  PyStr.in_list x (_known_files (self (__store___iter w k))) = true.
Proof.
  intros H. unfold __store___iter.
  destruct (sget k (fn_storage (self w))); [|exact H].
  cbn [self _known_files].
  match goal with
  | |- context [if ?b then _ else _] => destruct b
  end; [exact H|].
  rewrite in_list_app, H. reflexivity.
Qed.

Lemma store_fold_known (ks : list string) (w : World) (x : string) :
  PyStr.in_list x (_known_files (self w)) = true ->
  PyStr.in_list x (_known_files (self (fold_left __store___iter ks w))) = true.
Proof.
  revert w. induction ks as [|k ks IH]; intros w H; [exact H|].
  simpl. apply IH. now apply store_iter_known.
Qed.

Lemma store_iter_settled (w : World) (k : string) :
  settled w k -> __store___iter w k = w.
Proof.
  intros (r & Hr & Hd & Hk). unfold __store___iter.
  rewrite Hr, Hk, (sset_same _ _ _ Hd). now destruct w as [[] ?].
Qed.

Lemma store_fold_settled (ks : list string) (w : World) :
  Forall (settled w) ks -> fold_left __store___iter ks w = w.
Proof.
  intros H. induction H as [|k ks Hk Hks IH]; [reflexivity|].
  simpl. now rewrite (store_iter_settled w k Hk).
Qed.

Lemma store_fold_settles (ks : list string) (w : World) (k : string) :
  In k ks ->
  (exists r, sget k (fn_storage (self w)) = Some r) ->
  PyStr.in_list
    ((storage_path (self w) ++ "/" ++ k ++ "/") ++ "/cache.json")
    (_known_files (self (fold_left __store___iter ks w))) = true.
Proof.
  revert w. induction ks as [|k0 ks IH]; intros w Hin [r Hr]; [contradiction|].
  simpl. destruct Hin as [->|Hin].
  - apply store_fold_known. unfold __store___iter. rewrite Hr.
    cbn [self _known_files].
    match goal with
    | |- context [if ?b then _ else _] => destruct b eqn:E
    end; [exact E|].
    rewrite in_list_app. unfold PyStr.in_list at 2. cbn [existsb].
    rewrite String.eqb_refl. apply orb_true_r.
  - destruct (store_iter_fn_storage w k0) as (Hf & _ & Hp).
    rewrite <- Hp. apply IH; [exact Hin|]. exists r. now rewrite Hf.
Qed.

(** X9. Flushing twice is flushing once. *)
Theorem store_idempotent (w : World) :
  __store__ (__store__ w) = __store__ w.
Proof.
  unfold __store__ at 1. rewrite store_fn_storage.
  apply store_fold_settled. apply Forall_forall. intros k Hk.
  assert (Hr : exists r, sget k (fn_storage (self w)) = Some r).
  { pose proof (in_list_keys k (fn_storage (self w))) as E.
    assert (Hi : PyStr.in_list k (PyDict.keys (fn_storage (self w))) = true).
    { unfold PyStr.in_list. apply existsb_exists. exists k.
      split; [exact Hk|apply String.eqb_refl]. }
    rewrite E, smem_sget in Hi.
    destruct (sget k (fn_storage (self w))) as [r|]; [now exists r|discriminate]. }
  destruct Hr as [r Hr]. exists r.
  rewrite store_fn_storage, store_disk, Hr. split; [reflexivity|].
  split; [reflexivity|].
  destruct (store_fold_self (PyDict.keys (fn_storage (self w))) w)
    as (_ & _ & Hp).
  unfold __store__. rewrite Hp.
  apply store_fold_settles; [exact Hk|now exists r].
Qed.

End StoreProperties.

(* ================================================================= *)
(** ** What a call reads and what it leaves alone *)

Section Frames.

Context {ext : Externals}.

(** X10. [restore_autotuner_cache] reads the disk, not the index: in
    two worlds with the same files it returns the same thing, so a new
    process gets what the old one would. And when it returns, the
    record of the folder in the index is the record in the file. *)
Theorem restore_reads_the_disk :
  (forall (w1 w2 : World) (fn : JITFunction)
          (configs_hash key_hash param_hash : string),
      disk w1 = disk w2 ->
      snd (restore_autotuner_cache w1 fn configs_hash key_hash param_hash)
      = snd (restore_autotuner_cache w2 fn configs_hash key_hash param_hash))
  /\ (forall (w : World) (fn : JITFunction)
             (configs_hash key_hash param_hash : string)
             (ret : list (list pyval * Config)),
         snd (restore_autotuner_cache w fn configs_hash key_hash param_hash)
         = Ok ret ->
         exists folder rec,
           folder_of fn configs_hash key_hash param_hash = Ok folder
           /\ sget folder
                (fn_storage
                   (self (fst (restore_autotuner_cache w fn configs_hash
                                 key_hash param_hash)))) = Some rec
           /\ sget folder
                (disk (fst (restore_autotuner_cache w fn configs_hash
                              key_hash param_hash))) = Some rec).
Proof.
  split.
  - intros w1 w2 fn configs_hash key_hash param_hash Hd.
    destruct (folder_of fn configs_hash key_hash param_hash) as [folder|e]
      eqn:Hf.
    + destruct (sget folder (disk w1)) as [rec|] eqn:H1.
      * pose proof H1 as H2. rewrite Hd in H2.
        destruct (restore_found w1 _ _ _ _ _ _ Hf H1) as [-> _].
        destruct (restore_found w2 _ _ _ _ _ _ Hf H2) as [-> _].
        reflexivity.
      * pose proof H1 as H2. rewrite Hd in H2.
        destruct (restore_missing w1 _ _ _ _ _ Hf H1) as [-> _].
        destruct (restore_missing w2 _ _ _ _ _ Hf H2) as [-> _].
        reflexivity.
    + now rewrite (restore_no_folder w1 _ _ _ _ _ Hf),
        (restore_no_folder w2 _ _ _ _ _ Hf).
  - intros w fn configs_hash key_hash param_hash ret H.
    destruct (restore_returns _ _ _ _ _ _ H)
      as (folder & rec & used & Hf & _ & Hfs & _ & Hd & _).
    exists folder, rec. auto.
Qed.

Lemma calls_for_false (fn : JITFunction)
  (configs_hash key_hash param_hash f : string) :
  match folder_of fn configs_hash key_hash param_hash with
  | Ok g => String.eqb g f
  | Err _ => false
  end = false ->
  forall name, fn_name_of fn = Ok name ->
  f <> _get_folder_name name (_wait_fn_hash fn) configs_hash key_hash
         param_hash.
Proof.
  unfold folder_of. intros H name Hn. rewrite Hn in H. cbn [bind] in H.
  apply String.eqb_neq in H. congruence.
Qed.

Lemma restore_frame (w : World) (fn : JITFunction)
  (configs_hash key_hash param_hash f : string) :
  calls_for (CallRestore fn configs_hash key_hash param_hash) f = false ->
  let w' :=
    fst (restore_autotuner_cache w fn configs_hash key_hash param_hash) in
  sget f (fn_storage (self w')) = sget f (fn_storage (self w))
  /\ sget f (used_configs (self w')) = sget f (used_configs (self w))
  /\ (sget f (fn_storage (self w)) = None ->
      sget f (disk w') = sget f (disk w)).
Proof.
  cbn [calls_for]. intros H. cbn zeta.
  pose proof (calls_for_false _ _ _ _ _ H) as Hne.
  open_restore; [| |now repeat split].
  - specialize (Hne _ eq_refl).
    destruct (restore_loop (cache rec) [] []) as [[ret used]|e];
      cbn [fst with_index self fn_storage used_configs disk];
      rewrite ?sget_sset_neq by exact Hne; now repeat split.
  - specialize (Hne _ eq_refl). cbn [fst].
    rewrite store_fn_storage, store_used_configs.
    cbn [with_index self fn_storage used_configs].
    rewrite !sget_sset_neq by exact Hne. split; [reflexivity|].
    split; [reflexivity|]. intros Hnone. rewrite store_disk.
    cbn [with_index self fn_storage disk].
    rewrite sget_sset_neq by exact Hne. now rewrite Hnone.
Qed.

Lemma add_frame (w : World)
  (cache_arg : list (list pyval * Config)) (fn : JITFunction)
  (configs_hash key_hash param_hash : string) (configs_len : Z)
  (timings_arg : list (list pyval * timing))
  (repetitiont warmupt : number) (bench_time : float) (f : string) :
  calls_for (CallAdd cache_arg fn configs_hash key_hash param_hash configs_len
               timings_arg repetitiont warmupt bench_time) f = false ->
  let w' :=
    fst (add_autotuner_cache w cache_arg fn configs_hash key_hash param_hash
           configs_len timings_arg repetitiont warmupt bench_time) in
  sget f (fn_storage (self w')) = sget f (fn_storage (self w))
  /\ sget f (used_configs (self w')) = sget f (used_configs (self w))
  /\ (sget f (fn_storage (self w)) = None ->
      sget f (disk w') = sget f (disk w)).
Proof.
  cbn [calls_for]. intros H. cbn zeta.
  pose proof (calls_for_false _ _ _ _ _ H) as Hne.
  open_add; [| now repeat split | now repeat split].
  specialize (Hne _ eq_refl).
  set (fld := _get_folder_name name (_wait_fn_hash fn) configs_hash key_hash
                param_hash) in *.
  match goal with
  | |- context [if shared then ?a else w] => set (w1 := if shared then a else w)
  end.
  assert (H1 : sget f (fn_storage (self w1)) = sget f (fn_storage (self w))
               /\ sget f (used_configs (self w1))
                  = sget f (used_configs (self w))
               /\ disk w1 = disk w).
  { subst w1. destruct shared; [|now repeat split].
    cbn [with_index self fn_storage used_configs disk].
    rewrite !sget_sset_neq by exact Hne. now repeat split. }
  destruct H1 as (Ha & Hb & Hc).
  destruct r as [[]|e]; [|cbn [fst]; rewrite Ha, Hb, Hc; now repeat split].
  destruct (changes_made l); [|cbn [fst]; rewrite Ha, Hb, Hc; now repeat split].
  cbn [fst]. rewrite store_fn_storage, store_used_configs.
  cbn [with_index self fn_storage used_configs].
  rewrite !sget_sset_neq by exact Hne. split; [exact Ha|]. split; [exact Hb|].
  intros Hnone. rewrite store_disk. cbn [with_index self fn_storage disk].
  rewrite sget_sset_neq by exact Hne. now rewrite Ha, Hnone, Hc.
Qed.

(** X11. A call of restore or add for one folder leaves the other
    folders alone: their records in the index and their used
    configurations are as before, and the file of another folder that
    is not in the index is as before. *)
Theorem call_leaves_other_folders (w : World) (c : call) (f : string) :
  calls_for c f = false ->
  sget f (fn_storage (self (fst (exec w c)))) = sget f (fn_storage (self w))
  /\ sget f (used_configs (self (fst (exec w c))))
     = sget f (used_configs (self w))
  /\ (sget f (fn_storage (self w)) = None ->
      sget f (disk (fst (exec w c))) = sget f (disk w)).
Proof.
  intros H. destruct c; cbn [exec].
  - pose proof (restore_frame w fn configs_hash key_hash param_hash f H) as Hr.
    cbn zeta in Hr.
    now destruct (restore_autotuner_cache w fn configs_hash key_hash
                    param_hash).
  - now apply add_frame.
Qed.

End Frames.

(* ================================================================= *)
(** ** What an add leaves behind *)

Section AddGrowth.

Context {ext : Externals}.

Variable configs_len : Z.
Variable timings_arg : list (list pyval * timing).
Variables repetitiont warmupt : number.

(** the locals [l'] extend the locals [l] *)
Let extends (l l' : add_locals) : Prop :=
  (exists ek,
      PyDict.keys (cache (cache_json l'))
      = (PyDict.keys (cache (cache_json l)) ++ ek)%list)
  /\ (exists eu,
         tmp_used_configs l' = (tmp_used_configs l ++ eu)%list)
  /\ signature (cache_json l') = signature (cache_json l).

Lemma add_loop_extends (items : list (list pyval * Config))
  (l l' : add_locals) (r : result unit) :
  add_loop configs_len timings_arg repetitiont warmupt items l = (l', r) ->
  extends l l'.
Proof.
  intros H. unfold extends.
  apply (add_loop_invariant configs_len timings_arg repetitiont warmupt
           (extends l)) with (items := items) (l := l) (r := r);
    [|split; [exists []|split; [exists []|]]; now rewrite ?app_nil_r|exact H].
  clear. unfold extends. intros l1 key config l2 (Hk & Hu & Hs) Hiter.
  destruct (add_iter_cases _ _ _ _ _ _ _ _ Hiter)
    as [[-> _]|[Hpo (nt & _ & ->)]]; [now repeat split|].
  unfold passed_over in Hpo. apply orb_false_iff in Hpo. destruct Hpo as [Hm _].
  cbn [cache_json cache tmp_used_configs signature].
  destruct Hk as [ek Hk]. destruct Hu as [eu Hu].
  split; [|split; [|exact Hs]].
  - rewrite keys_sset, Hm, Hk, <- app_assoc. now eexists.
  - unfold append_new.
    destruct (existsb _ _); [now exists eu|].
    rewrite Hu, <- app_assoc. now eexists.
Qed.

Lemma passed_over_stays (items : list (list pyval * Config))
  (l l' : add_locals) (r : result unit) (key : list pyval) :
  passed_over (cache_json l) timings_arg key = true ->
  add_loop configs_len timings_arg repetitiont warmupt items l = (l', r) ->
  passed_over (cache_json l') timings_arg key = true.
Proof.
  unfold passed_over. intros H Hloop. apply orb_true_iff in H.
  apply orb_true_iff. destruct H as [H|H]; [left|now right].
  rewrite smem_sget in *.
  destruct (sget (PyRepr.str_tuple key) (cache (cache_json l))) as [v|] eqn:Hv;
    [|discriminate].
  now rewrite (add_loop_cache_entry _ _ _ _ _ _ _ _ _ _ Hv Hloop).
Qed.

Lemma add_loop_complete (items : list (list pyval * Config)) :
  forall (l l' : add_locals),
    add_loop configs_len timings_arg repetitiont warmupt items l
    = (l', Ok tt) ->
    forall key config,
      In (key, config) items ->
      passed_over (cache_json l') timings_arg key = true.
Proof.
  induction items as [|[k c] items IH]; intros l l' Hloop key config Hin;
    [contradiction|].
  cbn [add_loop] in Hloop.
  destruct (add_iter configs_len timings_arg repetitiont warmupt l k c)
    as [l1|e] eqn:Hiter; [|discriminate].
  destruct Hin as [Heq|Hin]; [|now apply (IH l1 l' Hloop key config)].
  inversion Heq; subst k c. clear Heq.
  apply (passed_over_stays items l1 l' (Ok tt)); [|exact Hloop].
  destruct (add_iter_cases _ _ _ _ _ _ _ _ Hiter)
    as [[-> Hp]|[_ (nt & _ & ->)]]; [exact Hp|].
  unfold passed_over. cbn [cache_json cache].
  now rewrite smem_sset, String.eqb_refl.
Qed.

End AddGrowth.

Section AddProperties.

Context {ext : Externals}.

Lemma add_open_fresh (w : World) (fn : JITFunction) (configs_len : Z)
  (folder : string) (l0 : add_locals) :
  add_open w fn configs_len folder = Ok (l0, false) ->
  cache (cache_json l0) = [].
Proof.
  unfold add_open. destruct (negb _).
  - intros H. injection H as <-. reflexivity.
  - destruct (PyDict.lookup _ _ (fn_storage _)); [|discriminate].
    cbn [bind]. destruct (PyDict.lookup _ _ (used_configs _)); discriminate.
Qed.

(** X12. An add only appends. For any folder with a record and a used
    list in the index, after any [add_autotuner_cache] (also one that
    raises) the folder still has both: the keys of its cache map are
    the old keys, in their order, followed by new ones, the used list
    is the old list followed by new configurations, and the signature
    is the old one. *)
Theorem add_only_appends (w : World)
  (cache_arg : list (list pyval * Config)) (fn : JITFunction)
  (configs_hash key_hash param_hash : string) (configs_len : Z)
  (timings_arg : list (list pyval * timing))
  (repetitiont warmupt : number) (bench_time : float)
  (f : string) (r : StorageRecord) (u : list Config) :
  sget f (fn_storage (self w)) = Some r ->
  sget f (used_configs (self w)) = Some u ->
  exists r' new_keys new_used,
    sget f
      (fn_storage
         (self (fst (add_autotuner_cache w cache_arg fn configs_hash key_hash
                       param_hash configs_len timings_arg repetitiont warmupt
                       bench_time)))) = Some r'
    /\ sget f
         (used_configs
            (self (fst (add_autotuner_cache w cache_arg fn configs_hash
                          key_hash param_hash configs_len timings_arg
                          repetitiont warmupt bench_time))))
       = Some (u ++ new_used)%list
    /\ PyDict.keys (cache r') = (PyDict.keys (cache r) ++ new_keys)%list
    /\ signature r' = signature r.
Proof.
  intros Hr Hu.
  assert (Hsame : exists r' new_keys new_used,
             sget f (fn_storage (self w)) = Some r'
             /\ sget f (used_configs (self w)) = Some (u ++ new_used)%list
             /\ PyDict.keys (cache r')
                = (PyDict.keys (cache r) ++ new_keys)%list
             /\ signature r' = signature r).
  { exists r, [], []. now rewrite !app_nil_r. }
  open_add; [|exact Hsame|exact Hsame].
  set (fld := _get_folder_name name (_wait_fn_hash fn) configs_hash key_hash
                param_hash) in *.
  destruct (String.eqb_spec f fld) as [->|Hne].
  - destruct (add_open_spec _ _ _ _ _ _ Hopen) as (_ & _ & Hsh).
    destruct shared; [|destruct Hsh as [Hnone _]; congruence].
    destruct Hsh as [Hr0 Hu0]. rewrite Hr in Hr0. rewrite Hu in Hu0.
    destruct (add_loop_extends _ _ _ _ _ _ _ _ Hloop)
      as ([ek Hk] & [eu Hue] & Hs).
    injection Hr0 as Hr0. injection Hu0 as Hu0.
    rewrite <- Hr0 in Hk, Hs. rewrite <- Hu0 in Hue.
    destruct r0 as [[]|e].
    + destruct (changes_made l).
      * cbn [fst]. rewrite store_fn_storage, store_used_configs.
        cbn [with_index self fn_storage used_configs].
        rewrite !sget_sset_eq.
        exists (bump bench_time (cache_json l)), ek, eu.
        cbn [bump cache signature]. rewrite Hue. auto.
      * cbn [fst with_index self fn_storage used_configs].
        rewrite !sget_sset_eq. exists (cache_json l), ek, eu.
        rewrite Hue. auto.
    + cbn [fst with_index self fn_storage used_configs].
      rewrite !sget_sset_eq. exists (cache_json l), ek, eu.
      rewrite Hue. auto.
  - assert (Hw1 :
        sget f (fn_storage (self (if shared
           then with_index w
                  (sset fld (cache_json l) (fn_storage (self w)))
                  (sset fld (tmp_used_configs l) (used_configs (self w)))
           else w))) = Some r
        /\ sget f (used_configs (self (if shared
           then with_index w
                  (sset fld (cache_json l) (fn_storage (self w)))
                  (sset fld (tmp_used_configs l) (used_configs (self w)))
           else w))) = Some u).
    { destruct shared; [|auto].
      cbn [with_index self fn_storage used_configs].
      now rewrite !sget_sset_neq by exact Hne. }
    destruct Hw1 as [Ha Hb].
    assert (Hgoal : forall w', sget f (fn_storage (self w')) = Some r ->
                sget f (used_configs (self w')) = Some u ->
                exists r' new_keys new_used,
                  sget f (fn_storage (self w')) = Some r'
                  /\ sget f (used_configs (self w'))
                     = Some (u ++ new_used)%list
                  /\ PyDict.keys (cache r')
                     = (PyDict.keys (cache r) ++ new_keys)%list
                  /\ signature r' = signature r).
    { intros w' Ha' Hb'. exists r, [], []. now rewrite !app_nil_r. }
    destruct r0 as [[]|e]; [|now apply Hgoal].
    destruct (changes_made l); [|now apply Hgoal].
    cbn [fst]. apply Hgoal.
    + rewrite store_fn_storage. cbn [with_index self fn_storage].
      now rewrite sget_sset_neq by exact Hne.
    + rewrite store_used_configs. cbn [with_index self used_configs].
      now rewrite sget_sset_neq by exact Hne.
Qed.

(** X13. An add that returns has dealt with every result: for each
    key of the results, its sample holds [float("inf")] or the text of
    the key is a key of the cache map of the folder's record in the
    index. *)
Theorem add_covers_every_result (w : World)
  (cache_arg : list (list pyval * Config)) (fn : JITFunction)
  (configs_hash key_hash param_hash : string) (configs_len : Z)
  (timings_arg : list (list pyval * timing))
  (repetitiont warmupt : number) (bench_time : float)
  (folder : string) (key : list pyval) (config : Config) :
  folder_of fn configs_hash key_hash param_hash = Ok folder ->
  snd (add_autotuner_cache w cache_arg fn configs_hash key_hash param_hash
         configs_len timings_arg repetitiont warmupt bench_time) = Ok tt ->
  In (key, config) cache_arg ->
  (exists t,
      PyDict.get tuple_eqb key timings_arg = Some t
      /\ inf_in (sample_of t) = true)
  \/ (exists v,
         cache_entry
           (fst (add_autotuner_cache w cache_arg fn configs_hash key_hash
                   param_hash configs_len timings_arg repetitiont warmupt
                   bench_time))
           folder (PyRepr.str_tuple key) = Some v).
Proof.
  intros Hf. unfold folder_of in Hf.
  open_add; [|discriminate|discriminate].
  cbn [bind] in Hf. injection Hf as Hf.
  rewrite Hf in *. clear Hf.
  destruct r as [[]|e]; [|discriminate]. intros _ Hin.
  pose proof (add_loop_complete _ _ _ _ _ _ _ Hloop key config Hin) as Hp.
  unfold passed_over in Hp. apply orb_true_iff in Hp.
  destruct Hp as [Hm|Hinf].
  - rewrite smem_sget in Hm.
    destruct (sget (PyRepr.str_tuple key) (cache (cache_json l))) as [v|] eqn:Hv;
      [|discriminate].
    destruct (add_open_spec _ _ _ _ _ _ Hopen) as (Hch & _ & Hsh).
    destruct (changes_made l) eqn:Hcm.
    + right. exists v. unfold cache_entry. cbn [fst].
      rewrite store_fn_storage. cbn [with_index self fn_storage].
      rewrite sget_sset_eq. exact Hv.
    + pose proof (add_loop_unchanged _ _ _ _ _ _ _ _ Hloop Hcm) as ->.
      destruct shared.
      * right. exists v. unfold cache_entry.
        cbn [fst with_index self fn_storage]. rewrite sget_sset_eq. exact Hv.
      * rewrite (add_open_fresh _ _ _ _ _ Hopen) in Hv. discriminate.
  - left.
    destruct (PyDict.get tuple_eqb key timings_arg) as [t|]; [|discriminate].
    now exists t.
Qed.

End AddProperties.

(* ================================================================= *)
(** ** What a restore hands out *)

Lemma in_dict_set {K V : Type} (eqb : K -> K -> bool) (k k0 : K) (v v0 : V)
  (d : list (K * V)) :
  In (k, v) (PyDict.set eqb k0 v0 d) ->
  (In (k, v) d)
  \/ (v = v0 /\ (k = k0 \/ exists v', In (k, v') d)).
Proof.
  induction d as [|[k1 v1] d IH]; cbn [PyDict.set].
  - intros [H|[]]. inversion H. right. auto.
  - destruct (eqb k0 k1).
    + intros [H|H]; [|left; now right].
      inversion H. subst. right. split; [reflexivity|].
      right. exists v1. now left.
    + intros [H|H]; [left; now left|].
      destruct (IH H) as [Hin|[Hv [Hk|[v' Hin]]]].
      * left. now right.
      * right. auto.
      * right. split; [exact Hv|]. right. exists v'. now right.
Qed.

Lemma length_dict_set {K V : Type} (eqb : K -> K -> bool) (k0 : K) (v0 : V)
  (d : list (K * V)) :
  (List.length (PyDict.set eqb k0 v0 d) <= S (List.length d))%nat.
Proof.
  induction d as [|[k1 v1] d IH]; cbn [PyDict.set List.length]; [lia|].
  destruct (eqb k0 k1); cbn [List.length]; lia.
Qed.

Lemma listed_append_new (c x : Config) (u : list Config) :
  listed u x -> listed (append_new c u) x.
Proof.
  unfold listed, append_new. intros [H|H].
  - left. destruct (existsb _ u); [exact H|]. apply in_or_app. now left.
  - right. destruct (existsb (fun c0 => Config_eqb c0 c) u); [exact H|].
    rewrite existsb_app, H. reflexivity.
Qed.

Lemma listed_new (c : Config) (u : list Config) : listed (append_new c u) c.
Proof.
  unfold listed, append_new.
  destruct (existsb (fun c0 => Config_eqb c0 c) u) eqn:H; [now right|].
  left. apply in_or_app. right. now left.
Qed.

Lemma restore_loop_listed (items : list (string * string)) :
  forall (ret ret' : list (list pyval * Config)) (tmp tmp' : list Config),
    restore_loop items ret tmp = Ok (ret', tmp') ->
    (forall kt c, In (kt, c) ret -> listed tmp c) ->
    forall kt c, In (kt, c) ret' -> listed tmp' c.
Proof.
  induction items as [|[k v] items IH]; intros ret ret' tmp tmp' H Hinv.
  - cbn [restore_loop] in H. injection H as <- <-. exact Hinv.
  - cbn [restore_loop] in H.
    destruct (_create_tuple k) as [kt0|e]; [|discriminate].
    destruct (_create_config_args v) as [va|e]; [|discriminate].
    cbn [bind] in H. apply (IH _ _ _ _ H).
    intros kt c Hin. destruct (in_dict_set _ _ _ _ _ _ Hin) as [Hold|[-> _]].
    + apply listed_append_new. now apply (Hinv kt).
    + apply listed_new.
Qed.

Lemma restore_loop_from_items (items : list (string * string)) :
  forall (all : list (string * string))
         (ret ret' : list (list pyval * Config)) (tmp tmp' : list Config),
    restore_loop items ret tmp = Ok (ret', tmp') ->
    (forall x, In x items -> In x all) ->
    from_items all ret ->
    from_items all ret'
    /\ (List.length ret' <= List.length ret + List.length items)%nat.
Proof.
  induction items as [|[k v] items IH]; intros all ret ret' tmp tmp' H Hsub Hinv.
  - cbn [restore_loop] in H. injection H as <- <-. split; [exact Hinv|].
    cbn [List.length]. lia.
  - cbn [restore_loop] in H.
    destruct (_create_tuple k) as [kt0|e] eqn:Hk; [|discriminate].
    destruct (_create_config_args v) as [va|e] eqn:Hv; [|discriminate].
    cbn [bind] in H.
    destruct (IH all _ _ _ _ H) as [Hf Hl].
    + intros x Hx. apply Hsub. now right.
    + intros kt c Hin.
      assert (Hhere : In (k, v) all) by (apply Hsub; now left).
      destruct (in_dict_set _ _ _ _ _ _ Hin) as [Hold|[-> [->|[v' Hold]]]].
      * now apply Hinv.
      * split; [now exists k, v|now exists k, v, va].
      * split; [exact (proj1 (Hinv _ _ Hold))|now exists k, v, va].
    + split; [exact Hf|].
      pose proof (length_dict_set tuple_eqb kt0 (Config_of va) ret).
      cbn [List.length]. lia.
Qed.

Lemma restore_loop_raises (items : list (string * string)) :
  forall (ret : list (list pyval * Config)) (tmp : list Config),
    (exists k v,
        In (k, v) items
        /\ (is_ok (_create_tuple k) = false
            \/ is_ok (_create_config_args v) = false)) ->
    exists e, restore_loop items ret tmp = Err e.
Proof.
  induction items as [|[k v] items IH]; intros ret tmp (k0 & v0 & Hin & Hbad);
    [contradiction|].
  cbn [restore_loop].
  destruct (_create_tuple k) as [kt|e] eqn:Hk; [|now exists e].
  destruct (_create_config_args v) as [va|e] eqn:Hv; [|now exists e].
  cbn [bind]. destruct Hin as [Heq|Hin].
  - inversion Heq; subst k0 v0. rewrite Hk, Hv in Hbad.
    destruct Hbad; discriminate.
  - apply IH. now exists k0, v0.
Qed.

Section RestoreProperties.

Context {ext : Externals}.

(** X14. The used configurations cover what a restore returns: every
    configuration of the returned mapping is in the used list of the
    folder, itself or as an element that compares equal to it, and the
    list holds no two elements that compare equal. *)
Theorem restored_configs_are_used (w : World) (fn : JITFunction)
  (configs_hash key_hash param_hash : string)
  (ret : list (list pyval * Config)) :
  snd (restore_autotuner_cache w fn configs_hash key_hash param_hash)
  = Ok ret ->
  exists used,
    get_used_configs
      (fst (restore_autotuner_cache w fn configs_hash key_hash param_hash))
      fn configs_hash key_hash param_hash = Ok used
    /\ deduped used = true
    /\ forall kt c, In (kt, c) ret -> listed used c.
Proof.
  intros H.
  destruct (restore_returns _ _ _ _ _ _ H)
    as (folder & rec & used & Hf & Hloop & _ & Hu & _).
  exists used. split; [|split].
  - unfold get_used_configs. unfold folder_of in Hf.
    destruct (fn_name_of fn) as [name|e]; [|discriminate].
    cbn [bind] in *. injection Hf as Hf. rewrite Hf, lookup_sget, Hu.
    reflexivity.
  - now apply (restore_loop_deduped _ _ _ _ _ Hloop).
  - apply (restore_loop_listed _ _ _ _ _ Hloop). intros kt c [].
Qed.

(** X15. A restore invents nothing: the returned mapping has at most
    as many entries as the cache map of the file, every key of it is
    what [_create_tuple] reads from a key text of the file and every
    configuration is what the codec reads from a configuration text of
    the file. *)
Theorem restored_mapping_from_file (w : World) (fn : JITFunction)
  (configs_hash key_hash param_hash : string)
  (ret : list (list pyval * Config)) :
  snd (restore_autotuner_cache w fn configs_hash key_hash param_hash)
  = Ok ret ->
  exists folder rec,
    folder_of fn configs_hash key_hash param_hash = Ok folder
    /\ sget folder
         (disk (fst (restore_autotuner_cache w fn configs_hash key_hash
                       param_hash))) = Some rec
    /\ (List.length ret <= List.length (cache rec))%nat
    /\ forall kt c,
         In (kt, c) ret ->
         (exists k v, In (k, v) (cache rec) /\ _create_tuple k = Ok kt)
         /\ (exists k v va,
                In (k, v) (cache rec) /\ _create_config_args v = Ok va
                /\ c = Config_of va).
Proof.
  intros H.
  destruct (restore_returns _ _ _ _ _ _ H)
    as (folder & rec & used & Hf & Hloop & _ & _ & Hd & _).
  exists folder, rec. split; [exact Hf|]. split; [exact Hd|].
  destruct (restore_loop_from_items _ (cache rec) _ _ _ _ Hloop) as [Hfrom Hl].
  - auto.
  - intros kt c [].
  - split; [exact Hl|exact Hfrom].
Qed.

(** X16. A file with an entry the decoders raise on cannot be
    restored, and the failed restore leaves the index half updated: the
    record of the file is in the index, the used configurations and the
    disk are as before. If the folder had no used list, every later
    [get_used_configs] and [add_autotuner_cache] for the identity raises
    [KeyError] and changes nothing. *)
Theorem restore_failure_blocks_identity (w : World) (fn : JITFunction)
  (configs_hash key_hash param_hash folder : string) (rec : StorageRecord) :
  folder_of fn configs_hash key_hash param_hash = Ok folder ->
  sget folder (disk w) = Some rec ->
  undecodable rec ->
  exists e w',
    restore_autotuner_cache w fn configs_hash key_hash param_hash
    = (w', Err e)
    /\ sget folder (fn_storage (self w')) = Some rec
    /\ used_configs (self w') = used_configs (self w)
    /\ disk w' = disk w
    /\ (sget folder (used_configs (self w)) = None ->
        get_used_configs w' fn configs_hash key_hash param_hash = Err KeyError
        /\ forall cache_arg configs_len timings_arg repetitiont warmupt
                  bench_time,
             add_autotuner_cache w' cache_arg fn configs_hash key_hash
               param_hash configs_len timings_arg repetitiont warmupt
               bench_time = (w', Err KeyError)).
Proof.
  intros Hf Hdisk Hbad. unfold folder_of in Hf.
  destruct (restore_loop_raises (cache rec) [] [] Hbad) as [e He].
  unfold restore_autotuner_cache, get_used_configs, add_autotuner_cache.
  destruct (fn_name_of fn) as [name|e0]; [|discriminate].
  cbn [bind] in *. injection Hf as Hf. rewrite Hf, Hdisk, He.
  eexists. eexists. split; [reflexivity|].
  cbn [self fn_storage used_configs disk]. rewrite sget_sset_eq.
  split; [reflexivity|]. split; [reflexivity|]. split; [reflexivity|].
  intros Hnone. rewrite lookup_sget, Hnone. split; [reflexivity|].
  intros. unfold add_open. cbn [self fn_storage used_configs].
  rewrite smem_sset, String.eqb_refl. cbn [orb negb].
  rewrite !lookup_sget, sget_sset_eq, Hnone. reflexivity.
Qed.

End RestoreProperties.

(* ================================================================= *)
(** ** One folder per identity *)

Lemma split_path (a : ascii) (x1 x2 x3 x4 t : string) :
  PyStr.contains (String a EmptyString) x1 = false ->
  PyStr.contains (String a EmptyString) x2 = false ->
  PyStr.contains (String a EmptyString) x3 = false ->
  PyStr.contains (String a EmptyString) x4 = false ->
  PyStr.split (String a EmptyString)
    (x1 ++ String a (x2 ++ String a (x3 ++ String a (x4 ++ String a t))))
  = x1 :: x2 :: x3 :: x4 :: PyStr.split (String a EmptyString) t.
Proof.
  intros H1 H2 H3 H4.
  now rewrite !split_one_app_sep by assumption.
Qed.

Section FolderInjective.

Context {ext : Externals}.

Lemma folder_path (fn_name : string) (i : Identity) :
  folder_of_identity fn_name i
  = fn_name
    ++ String "/"
         (("autotune_config-" ++ id_param_hash i)
          ++ String "/"
               (("kernel_configs-" ++ id_configs_hash i)
                ++ String "/"
                     (("code_version-"
                       ++ get_string_hash (code_version_input i))
                      ++ String "/" storage_tag))).
Proof.
  unfold folder_of_identity, _get_folder_name, code_version_input.
  rewrite !append_assoc. reflexivity.
Qed.

Lemma folder_pieces (fn_name : string) (i : Identity) :
  well_formed fn_name i = true ->
  PyStr.split "/" (folder_of_identity fn_name i)
  = fn_name
    :: ("autotune_config-" ++ id_param_hash i)
    :: ("kernel_configs-" ++ id_configs_hash i)
    :: ("code_version-" ++ get_string_hash (code_version_input i))
    :: PyStr.split "/" storage_tag.
Proof.
  unfold well_formed. rewrite !andb_true_iff, !negb_true_iff.
  intros ((((H1 & H2) & H3) & H4) & _).
  rewrite folder_path. apply split_path.
  - exact H1.
  - rewrite contains_one_app, H2. reflexivity.
  - rewrite contains_one_app, H3. reflexivity.
  - rewrite contains_one_app, H4. reflexivity.
Qed.

(** X17. Well-formed identities have folders of their own: when the
    kernel names, the hashes and the digest hold no path separator and
    the function hashes no dash, two identities with the same folder are
    the same identity under the same kernel name, unless the digest
    collides on their code versions. Without the condition on the dash
    it fails: the function hash and the key hash are joined by a dash
    before they are hashed, so the dash may be read on either side. *)
Theorem folder_name_injective :
  (forall (name1 name2 : string) (a b : Identity),
      well_formed name1 a = true ->
      well_formed name2 b = true ->
      no_collision a b ->
      folder_of_identity name1 a = folder_of_identity name2 b ->
      name1 = name2 /\ a = b)
  /\ (forall (fn_name x y z configs_hash param_hash : string),
         folder_of_identity fn_name
           (mkIdentity (x ++ "-" ++ y) configs_hash z param_hash)
         = folder_of_identity fn_name
             (mkIdentity x configs_hash (y ++ "-" ++ z) param_hash)).
Proof.
  split.
  - intros name1 name2 [fa ca ka pa] [fb cb kb pb] Ha Hb Hcol Heq.
    pose proof (f_equal (PyStr.split "/") Heq) as Hs.
    rewrite (folder_pieces _ _ Ha), (folder_pieces _ _ Hb) in Hs.
    cbn [id_fn_hash id_configs_hash id_key_hash id_param_hash] in Hs.
    injection Hs as Hn Hp Hc Hh.
    apply Hcol in Hh. unfold code_version_input in Hh.
    cbn [id_fn_hash id_key_hash] in Hh.
    unfold well_formed in Ha, Hb.
    rewrite !andb_true_iff, !negb_true_iff in Ha, Hb.
    destruct Ha as [_ Hda]. destruct Hb as [_ Hdb].
    cbn [id_fn_hash] in Hda, Hdb.
    pose proof (f_equal (PyStr.split "-") Hh) as Hd.
    change (fa ++ "-" ++ ka) with (fa ++ String "-" ka) in Hd.
    change (fb ++ "-" ++ kb) with (fb ++ String "-" kb) in Hd.
    rewrite !split_one_app_sep in Hd by assumption.
    injection Hd as Hf _. subst fb. apply append_cancel_l in Hh.
    apply append_cancel_l in Hh. now subst.
  - intros. unfold folder_of_identity, _get_folder_name, get_string_hash.
    cbn [id_fn_hash id_configs_hash id_key_hash id_param_hash].
    now rewrite !append_assoc.
Qed.

End FolderInjective.

(* ================================================================= *)
(** ** Results through the file and back *)

Lemma sset_new {V : Type} (k : string) (v : V) (d : dict V) :
  smem k d = false -> sset k v d = (d ++ [(k, v)])%list.
Proof.
  unfold smem, PyDict.mem, sset.
  induction d as [|[k0 v0] d IH]; cbn [PyDict.get PyDict.set List.app];
    [reflexivity|].
  destruct (String.eqb k k0); [discriminate|].
  intros H. now rewrite (IH H).
Qed.

Lemma smem_app_one {V : Type} (k k0 : string) (v : V) (d : dict V) :
  smem k (d ++ [(k0, v)])%list = smem k d || String.eqb k k0.
Proof.
  unfold smem, PyDict.mem.
  induction d as [|[k1 v1] d IH]; cbn [PyDict.get List.app].
  - destruct (String.eqb k k0); reflexivity.
  - destruct (String.eqb k k1); [reflexivity|exact IH].
Qed.

Lemma mem_false_neq {V : Type} (k : string) (d : dict V) :
  PyDict.mem String.eqb k d = false ->
  forall kv, In kv d -> fst kv <> k.
Proof.
  unfold PyDict.mem.
  induction d as [|[k0 v0] d IH]; cbn [PyDict.get]; [intros _ kv []|].
  destruct (String.eqb_spec k k0) as [->|Hne]; [discriminate|].
  intros H kv [<-|Hin]; [cbn [fst]; congruence|now apply IH].
Qed.

Section Batch.

Context {ext : Externals}.

Variable configs_len : Z.
Variable timings_arg : list (list pyval * timing).
Variables repetitiont warmupt : number.

Lemma add_iter_storable (l : add_locals) (kc : list pyval * Config) :
  storable timings_arg kc = true ->
  smem (PyRepr.str_tuple (fst kc)) (cache (cache_json l)) = false ->
  exists l',
    add_iter configs_len timings_arg repetitiont warmupt l (fst kc) (snd kc)
    = Ok l'
    /\ cache (cache_json l')
       = (cache (cache_json l) ++ [stored_entry kc])%list
    /\ changes_made l' = true.
Proof.
  unfold storable. rewrite !andb_true_iff. intros [_ Ht] Hm.
  unfold add_iter. rewrite Hm. unfold PyDict.lookup.
  destruct (PyDict.get tuple_eqb (fst kc) timings_arg) as [t|]; [|discriminate].
  cbn [bind values]. apply negb_true_iff in Ht.
  change (match t with TList v => v | TFloat f => [f] end) with (sample_of t).
  rewrite Ht. eexists. split; [reflexivity|]. cbn [cache_json cache changes_made].
  split; [|reflexivity]. now apply sset_new.
Qed.

Lemma add_loop_storable (items : list (list pyval * Config)) :
  forall l : add_locals,
    forallb (storable timings_arg) items = true ->
    PyDict.wf String.eqb (map stored_entry items) = true ->
    (forall kc, In kc items ->
                smem (PyRepr.str_tuple (fst kc)) (cache (cache_json l))
                = false) ->
    exists l',
      add_loop configs_len timings_arg repetitiont warmupt items l
      = (l', Ok tt)
      /\ cache (cache_json l')
         = (cache (cache_json l) ++ map stored_entry items)%list
      /\ (items = [] -> l' = l)
      /\ (items <> [] -> changes_made l' = true).
Proof.
  induction items as [|[k c] items IH]; intros l Hok Hwf Hnew.
  - exists l. cbn [add_loop map]. rewrite app_nil_r. now repeat split.
  - cbn [forallb] in Hok. apply andb_true_iff in Hok. destruct Hok as [Hk Hok].
    cbn [map PyDict.wf stored_entry fst snd] in Hwf.
    apply andb_true_iff in Hwf. destruct Hwf as [Hfirst Hwf].
    apply negb_true_iff in Hfirst.
    destruct (add_iter_storable l (k, c) Hk) as (l1 & Hiter & Hc1 & Hch1).
    { apply Hnew. now left. }
    cbn [fst snd] in Hiter. cbn [add_loop]. rewrite Hiter.
    destruct (IH l1 Hok Hwf) as (l' & Hloop & Hc' & _ & _).
    { intros kc Hin. rewrite Hc1. unfold stored_entry. rewrite smem_app_one.
      rewrite (Hnew kc) by now right. cbn [orb fst].
      apply String.eqb_neq.
      apply (mem_false_neq _ _ Hfirst (stored_entry kc)).
      now apply in_map. }
    exists l'. split; [exact Hloop|]. split.
    + rewrite Hc', Hc1, <- app_assoc. reflexivity.
    + split; [discriminate|]. intros _.
      destruct (changes_made l') eqn:E; [reflexivity|].
      pose proof (add_loop_unchanged _ _ _ _ _ _ _ _ Hloop E) as ->.
      congruence.
Qed.

Lemma restore_loop_stored (items : list (list pyval * Config)) :
  forall (ret : list (list pyval * Config)) (tmp : list Config),
    forallb (storable timings_arg) items = true ->
    exists tmp',
      restore_loop (map stored_entry items) ret tmp
      = Ok (fold_left
              (fun ret kc =>
                 PyDict.set tuple_eqb (map as_text (fst kc))
                   (without_skipped (snd kc)) ret)
              items ret, tmp').
Proof.
  induction items as [|[k c] items IH]; intros ret tmp Hok.
  - now exists tmp.
  - cbn [forallb] in Hok. apply andb_true_iff in Hok. destruct Hok as [Hk Hok].
    unfold storable in Hk. rewrite !andb_true_iff in Hk.
    destruct Hk as [[[Hlen Helem] Hc] _]. cbn [fst snd] in *.
    apply Nat.leb_le in Hlen.
    cbn [map stored_entry fst snd restore_loop fold_left].
    rewrite (create_tuple_of_key_text_aux k Hlen Helem).
    destruct (create_config_args_str_Config c Hc) as [va [Hva Hcfg]].
    rewrite Hva. cbn [bind]. rewrite Hcfg. now apply IH.
Qed.

End Batch.

Section RoundTrip.

Context {ext : Externals}.

(** X18. Results go through the file and come back. After a restore
    that returned the empty mapping, an add of results that are all
    storable and have different key texts returns, and the next restore
    for the identity returns the mapping built from them in their order:
    each key with its elements as texts, each configuration as the codec
    reads it back. *)
Theorem stored_results_come_back (w : World) (fn : JITFunction)
  (configs_hash key_hash param_hash : string) (configs_len : Z)
  (results : list (list pyval * Config))
  (timings_arg : list (list pyval * timing))
  (repetitiont warmupt : number) (bench_time : float) :
  forallb (storable timings_arg) results = true ->
  PyDict.wf String.eqb (map stored_entry results) = true ->
  let r1 := restore_autotuner_cache w fn configs_hash key_hash param_hash in
  snd r1 = Ok [] ->
  let r2 :=
    add_autotuner_cache (fst r1) results fn configs_hash key_hash param_hash
      configs_len timings_arg repetitiont warmupt bench_time in
  let r3 :=
    restore_autotuner_cache (fst r2) fn configs_hash key_hash param_hash in
  snd r2 = Ok tt /\ snd r3 = Ok (restored_view results).
Proof.
  intros Hok Hwf r1 H1 r2 r3.
  destruct (restore_returns _ _ _ _ _ _ H1)
    as (folder & rec & used & Hf & Hloop & Hfs & Huc & Hd & _).
  fold r1 in Hfs, Huc, Hd. cbn zeta in Hfs, Huc, Hd.
  apply restore_loop_empty in Hloop.
  destruct (folder_of_name _ _ _ _ _ Hf) as [name [Hname Hfolder]].
  destruct (add_loop_storable configs_len timings_arg repetitiont warmupt
              results
              {| cache_json := rec; tmp_used_configs := used;
                 changes_made := false |} Hok Hwf)
    as (l' & Hl & Hc & Hnil & Hcons).
  { intros kc _. cbn [cache_json]. now rewrite Hloop. }
  cbn [cache_json] in Hc. rewrite Hloop in Hc. cbn [app] in Hc.
  assert (H2 : snd r2 = Ok tt
               /\ exists rec', sget folder (disk (fst r2)) = Some rec'
                               /\ cache rec' = map stored_entry results).
  { subst r2. unfold add_autotuner_cache. rewrite Hname, <- Hfolder.
    unfold add_open. rewrite smem_sget, !lookup_sget, Hfs, Huc.
    cbn [negb bind]. rewrite Hl.
    destruct results as [|kc results].
    - rewrite (Hnil eq_refl). cbn [changes_made snd fst].
      split; [reflexivity|]. exists rec.
      cbn [with_index disk cache_json]. split; [exact Hd|exact Hloop].
    - rewrite Hcons by discriminate. cbn [snd fst].
      split; [reflexivity|]. eexists. rewrite store_disk.
      cbn [with_index self fn_storage]. rewrite sget_sset_eq.
      split; [reflexivity|]. exact Hc. }
  destruct H2 as [H2 (rec' & Hd' & Hc')]. split; [exact H2|].
  destruct (restore_found _ _ _ _ _ _ _ Hf Hd') as [H3 _].
  fold r3 in H3. rewrite H3, Hc'.
  destruct (restore_loop_stored timings_arg results [] [] Hok) as [tmp' ->].
  reflexivity.
Qed.

End RoundTrip.

(* ================================================================= *)
(** ** The further properties on the data of the scenario *)

Lemma kernel_name_of_text_witness :
  fn_name_of demo_fn = Ok "K"
  /\ fn_name_of demo_fn_no_colon = Err IndexError.
Proof.
  destruct kernel_name_of_text as (H1 & H2 & _). split.
  - apply (H1 demo_fn "JITFunction(kernels" "K"); reflexivity.
  - apply (H2 demo_fn_no_colon). reflexivity.
Defined.

Lemma list_hash_separates_witness :
  @get_list_hash demo_ext ["M"; "N"] = @get_list_hash demo_ext ["M"; "N"]
  /\ ["M"; "N"] = ["M"; "N"].
Proof.
  split; [reflexivity|].
  apply (proj1 (@list_hash_separates demo_ext)).
  - discriminate.
  - discriminate.
  - repeat constructor.
  - repeat constructor.
  - reflexivity.
  - reflexivity.
Defined.

Lemma config_list_hash_separates_witness :
  map str_Config [demo_config; demo_config_kwargs]
  = map str_Config [demo_config; demo_config_kwargs].
Proof.
  apply (@config_list_hash_separates demo_ext).
  - repeat constructor.
  - repeat constructor.
  - reflexivity.
  - reflexivity.
Defined.

Lemma create_tuple_of_key_text_witness :
  _create_tuple (PyRepr.str_tuple demo_typed_key)
  = Ok [VStr "float16"; VStr "4"].
Proof.
  apply (create_tuple_of_key_text demo_typed_key).
  - cbn [demo_typed_key List.length]. lia.
  - reflexivity.
Defined.

Lemma create_tuple_of_short_key_witness :
  _create_tuple (PyRepr.str_tuple [VInt 4]) = Ok [VStr "4,"].
Proof.
  apply (proj2 create_tuple_of_short_key (VInt 4)). reflexivity.
Defined.

Lemma create_tuple_merges_types_witness :
  PyRepr.str_tuple demo_key <> PyRepr.str_tuple (map as_text demo_key)
  /\ _create_tuple (PyRepr.str_tuple demo_key)
     = _create_tuple (PyRepr.str_tuple (map as_text demo_key)).
Proof.
  apply (create_tuple_merges_types demo_key).
  - cbn [demo_key List.length]. lia.
  - reflexivity.
  - reflexivity.
Defined.


Lemma restore_reads_the_disk_witness :
  snd (@restore_autotuner_cache demo_ext (fst demo_add) demo_fn "cfgA" "keyA"
         "parA")
  = snd (@restore_autotuner_cache demo_ext demo_restarted demo_fn "cfgA"
           "keyA" "parA").
Proof.
  apply (proj1 (@restore_reads_the_disk demo_ext)). reflexivity.
Defined.

Lemma call_leaves_other_folders_witness :
  sget demo_folder
    (fn_storage (self (fst (@exec demo_ext (fst demo_add) demo_restore_other))))
  = sget demo_folder (fn_storage (self (fst demo_add))).
Proof.
  refine (proj1 (@call_leaves_other_folders demo_ext (fst demo_add)
                   demo_restore_other demo_folder _)).
  vm_compute. reflexivity.
Defined.

Lemma add_only_appends_witness :
  exists r u,
    sget demo_folder (fn_storage (self (fst demo_add))) = Some r
    /\ sget demo_folder (used_configs (self (fst demo_add))) = Some u
    /\ exists r' new_keys new_used,
         sget demo_folder
           (fn_storage
              (self (fst (@add_autotuner_cache demo_ext (fst demo_add)
                            demo_results demo_fn "cfgA" "keyA" "parA" 2
                            demo_timings (NInt 10) (NInt 5) 0.5%float))))
         = Some r'
         /\ sget demo_folder
              (used_configs
                 (self (fst (@add_autotuner_cache demo_ext (fst demo_add)
                               demo_results demo_fn "cfgA" "keyA" "parA" 2
                               demo_timings (NInt 10) (NInt 5) 0.5%float))))
            = Some (u ++ new_used)%list
         /\ PyDict.keys (cache r') = (PyDict.keys (cache r) ++ new_keys)%list
         /\ signature r' = signature r.
Proof.
  eexists. eexists. split; [reflexivity|]. split; [reflexivity|].
  apply (@add_only_appends demo_ext); reflexivity.
Defined.

Lemma add_covers_every_result_witness :
  (exists t,
      PyDict.get tuple_eqb demo_typed_key demo_timings = Some t
      /\ inf_in (sample_of t) = true)
  \/ (exists v,
         cache_entry (fst demo_add_results) demo_folder
           (PyRepr.str_tuple demo_typed_key) = Some v).
Proof.
  apply (@add_covers_every_result demo_ext (fst demo_restore1) demo_results
           demo_fn "cfgA" "keyA" "parA" 2 demo_timings (NInt 10) (NInt 5)
           0.5%float demo_folder demo_typed_key demo_config_kwargs).
  - vm_compute. reflexivity.
  - vm_compute. reflexivity.
  - right. left. reflexivity.
Defined.

Lemma restored_configs_are_used_witness :
  exists used,
    @get_used_configs demo_ext (fst demo_restore2) demo_fn "cfgA" "keyA" "parA"
    = Ok used
    /\ deduped used = true
    /\ forall kt c,
         In (kt, c) [([VStr "4"; VStr "4"], without_skipped demo_config)] ->
         listed used c.
Proof.
  apply (@restored_configs_are_used demo_ext (fst demo_add) demo_fn "cfgA"
           "keyA" "parA").
  vm_compute. reflexivity.
Defined.

Lemma restored_mapping_from_file_witness :
  exists folder rec,
    @folder_of demo_ext demo_fn "cfgA" "keyA" "parA" = Ok folder
    /\ sget folder (disk (fst demo_restore2)) = Some rec
    /\ (1 <= List.length (cache rec))%nat.
Proof.
  destruct (@restored_mapping_from_file demo_ext (fst demo_add) demo_fn "cfgA"
              "keyA" "parA"
              [([VStr "4"; VStr "4"], without_skipped demo_config)])
    as (folder & rec & Hf & Hd & Hl & _).
  - vm_compute. reflexivity.
  - exists folder, rec. split; [exact Hf|]. split; [exact Hd|exact Hl].
Defined.

Lemma restore_failure_blocks_identity_witness :
  snd demo_add_empty_key = Ok tt
  /\ exists e w',
       @restore_autotuner_cache demo_ext demo_after_empty_key demo_fn "cfgA"
         "keyA" "parA" = (w', Err e)
       /\ @get_used_configs demo_ext w' demo_fn "cfgA" "keyA" "parA"
          = Err KeyError
       /\ @add_autotuner_cache demo_ext w' demo_results demo_fn "cfgA" "keyA"
            "parA" 2 demo_timings (NInt 10) (NInt 5) 0.5%float
          = (w', Err KeyError).
Proof.
  split; [vm_compute; reflexivity|].
  assert (H : exists rec,
             sget demo_folder (disk demo_after_empty_key) = Some rec
             /\ undecodable rec).
  { eexists. split; [reflexivity|].
    exists "()", (str_Config demo_config).
    split; [left; reflexivity|left; reflexivity]. }
  destruct H as (rec & Hd & Hbad).
  destruct (@restore_failure_blocks_identity demo_ext demo_after_empty_key
              demo_fn "cfgA" "keyA" "parA" demo_folder rec)
    as (e & w' & H1 & _ & _ & _ & H5);
    [vm_compute; reflexivity|exact Hd|exact Hbad|].
  destruct (H5 eq_refl) as [Hg Ha].
  exists e, w'. split; [exact H1|]. split; [exact Hg|apply Ha].
Defined.

Lemma folder_name_injective_witness :
  @folder_of_identity demo_ext "K" demo_identity = demo_folder
  /\ "K" = "K" /\ demo_identity = demo_identity.
Proof.
  split; [reflexivity|].
  apply (proj1 (@folder_name_injective demo_ext) "K" "K" demo_identity
           demo_identity).
  - reflexivity.
  - reflexivity.
  - intros _. reflexivity.
  - reflexivity.
Defined.

Lemma stored_results_come_back_witness :
  snd demo_add_results = Ok tt
  /\ snd (@restore_autotuner_cache demo_ext (fst demo_add_results) demo_fn
            "cfgA" "keyA" "parA")
     = Ok [([VStr "4"; VStr "4"], demo_config);
           ([VStr "float16"; VStr "4"], without_skipped demo_config_kwargs)].
Proof.
  apply (@stored_results_come_back demo_ext demo_world demo_fn "cfgA" "keyA"
           "parA" 2 demo_results demo_timings (NInt 10) (NInt 5) 0.5%float).
  - reflexivity.
  - reflexivity.
  - vm_compute. reflexivity.
Defined.
